(** * CareService-Backend: the schedule lifecycle engine

    A shallow embedding of the schedule use case
    (application/usecases/schedule), of the domain model it works on
    (domain/schedule, domain/user), of the gorm-backed repositories it is
    wired to (infrastructure/repository/psql) and of the two controller
    entry points that validate the scheduled slot
    (infrastructure/rest/controllers/schedule); then of the reading
    methods of the use case and of the repository, and of the other
    handlers of the controller.

    Conventions:
    - a Go function returning a pointer and an error returns a [result];
    - a method that may write to the store maps a store state to the next
      store state and a result; a method that only reads is a function of
      the store state;
    - a [map[string]interface{}] is a [gmap string Value], where [Value]
      lists the dynamic types the program puts into such maps;
    - logging is not modelled. *)

From Stdlib Require Import ZArith String List Bool Lia.
From stdpp Require Import base option gmap strings list fin_maps.

Local Open Scope string_scope.
Local Open Scope Z_scope.

(** ** Primitive data *)

(** [uuid.UUID] is a 16 byte array; it is represented by the 128 bit
    big-endian integer the bytes spell. [uuid.Nil] is the all-zero array. *)
Abbreviation UUID := Z (only parsing).
Definition Nil : UUID := 0.

(** [uuid.New()] draws 128 random bits and stamps the version (byte 6,
    high nibble 4) and the variant (byte 8, top bits 10) on them. The
    random bits are an argument. *)
Definition uuid_version_clear : Z := Z.shiftl 240 72.
Definition uuid_version_set : Z := Z.shiftl 64 72.
Definition uuid_variant_clear : Z := Z.shiftl 192 56.
Definition uuid_variant_set : Z := Z.shiftl 128 56.

Definition uuid_New (random : Z) : UUID :=
  let bits := Z.land random (Z.ones 128) in
  let versioned := Z.lor (Z.ldiff bits uuid_version_clear) uuid_version_set in
  Z.lor (Z.ldiff versioned uuid_variant_clear) uuid_variant_set.

(** The source of random bits of the process: an endless supply, read from
    the front. *)
Definition Rand : Type := nat -> Z.
Definition rand_next (rnd : Rand) : Rand := fun n => rnd (S n).

(** [time.Time] as the instant it denotes: nanoseconds counted from the
    zero Time. [Before], [After] and [IsZero] only look at the instant. *)
Abbreviation Time := Z (only parsing).
Definition Before (t u : Time) : bool := t <? u.
Definition After (t u : Time) : bool := u <? t.
Definition IsZero (t : Time) : bool := t =? 0.

(** [float64] values are only copied around, never computed with: they are
    carried as their IEEE 754 bit pattern. *)
Abbreviation float64 := Z (only parsing).

(** ** domain/errors *)

(** Modelled from the spec: the package domain/errors is not among the
    sources. The error kinds are those of the taxonomy of the spec
    (NotFound, ValidationError, RepositoryError, UnknownError) and those
    the sources name besides. *)
Inductive ErrorType : Type :=
| NotFound
| ValidationError
| ResourceAlreadyExists
| RepositoryError
| NotAuthenticated
| NotAuthorized
| UnknownError.

(** Modelled from the spec: the error values of domain/errors, by the
    constructor that makes them. [NewAppError(errors.New(msg), ty)] is
    [AppError msg ty]; [NewAppErrorWithType(ty)] is [AppErrorWithType ty],
    whose message the package chooses; any other Go error value (a gorm or
    a JSON error) is an [OtherError]. *)
Inductive error : Type :=
| AppError (Err : string) (Type_ : ErrorType)
| AppErrorWithType (Type_ : ErrorType)
| OtherError (Err : string).

Definition NewAppError (msg : string) (ty : ErrorType) : error := AppError msg ty.
Definition NewAppErrorWithType (ty : ErrorType) : error := AppErrorWithType ty.

Definition error_type (e : error) : option ErrorType :=
  match e with
  | AppError _ ty => Some ty
  | AppErrorWithType ty => Some ty
  | OtherError _ => None
  end.

(** An error the use case did not make with [NewAppError]: those of the
    store are of this kind. *)
Definition from_store (e : error) : Prop :=
  forall msg ty, e <> AppError msg ty.

Inductive result (A : Type) : Type :=
| Ok (a : A)
| Err (e : error).
Arguments Ok {A} a.
Arguments Err {A} e.

Definition is_ok {A} (r : result A) : bool :=
  match r with Ok _ => true | Err _ => false end.

(** ** Dynamic values

    The values the program stores in a [map[string]interface{}], tagged
    with their dynamic type. *)
Inductive Value : Type :=
| VString (s : string)
| VUUID (u : UUID)
| VTime (t : Time)
| VBool (b : bool)
| VFloat64Ptr (p : option float64)
| VBoolPtr (p : option bool)
| VStringPtr (p : option string).

(** The type assertions [v.(uuid.UUID)] and [v.(string)] on a map entry: a
    missing key gives the nil interface, on which every assertion fails. *)
Definition as_UUID (v : option Value) : option UUID :=
  match v with Some (VUUID u) => Some u | _ => None end.
Definition as_string (v : option Value) : option string :=
  match v with Some (VString s) => Some s | _ => None end.

(** ** domain/user *)
Module domainUser.

Record Location : Type := mkLocation {
  HouseNumber : string;
  Street : string;
  City : string;
  State : string;
  Pincode : string;
  Lat : float64;
  Long : float64 }.

Record User : Type := mkUser {
  ID : UUID;
  UserName : string;
  Email : string;
  FirstName : string;
  LastName : string;
  Status : bool;
  HashPassword : string;
  Role : string;
  ProfilePicture : string;
  Location_ : Location;
  CreatedAt : Time;
  UpdatedAt : Time }.

(** The one method of [IUserRepository] the schedule use case calls. *)
Record IUserRepository (St : Type) : Type := {
  GetByID : UUID -> St -> result User }.
Arguments GetByID {St} _ _ _.

End domainUser.

(** ** domain/schedule *)
Module domainSchedule.

Record ScheduledSlot : Type := mkScheduledSlot {
  From : Time;
  To : Time }.

Record Location : Type := mkLocation {
  Lat : option float64;
  Long : option float64 }.

Record Task : Type := mkTask {
  TaskID : UUID;
  ScheduleID : UUID;
  Title : string;
  Description : string;
  Status : string;
  Done : option bool;
  Feedback : option string;
  TaskCreatedAt : Time;
  TaskUpdatedAt : Time }.

Record Schedule : Type := mkSchedule {
  ID : UUID;
  ClientUserID : UUID;
  AssignedUserID : UUID;
  ServiceName : string;
  ScheduledSlot_ : ScheduledSlot;
  VisitStatus : string;
  CheckinTime : option Time;
  CheckoutTime : option Time;
  CheckinLocation : Location;
  CheckoutLocation : Location;
  Tasks : list Task;
  ServiceNote : option string;
  CreatedAt : Time;
  UpdatedAt : Time }.

(** Field assignments [s.VisitStatus = v], [t.ID = v], [t.Status = v]. *)
Definition set_VisitStatus (v : string) (s : Schedule) : Schedule :=
  mkSchedule (ID s) (ClientUserID s) (AssignedUserID s) (ServiceName s)
    (ScheduledSlot_ s) v (CheckinTime s) (CheckoutTime s)
    (CheckinLocation s) (CheckoutLocation s) (Tasks s) (ServiceNote s)
    (CreatedAt s) (UpdatedAt s).

Definition set_Tasks (v : list Task) (s : Schedule) : Schedule :=
  mkSchedule (ID s) (ClientUserID s) (AssignedUserID s) (ServiceName s)
    (ScheduledSlot_ s) (VisitStatus s) (CheckinTime s) (CheckoutTime s)
    (CheckinLocation s) (CheckoutLocation s) v (ServiceNote s)
    (CreatedAt s) (UpdatedAt s).

Definition set_TaskID (v : UUID) (t : Task) : Task :=
  mkTask v (ScheduleID t) (Title t) (Description t) (Status t) (Done t)
    (Feedback t) (TaskCreatedAt t) (TaskUpdatedAt t).

Definition set_Status (v : string) (t : Task) : Task :=
  mkTask (TaskID t) (ScheduleID t) (Title t) (Description t) v (Done t)
    (Feedback t) (TaskCreatedAt t) (TaskUpdatedAt t).

(** [IScheduleRepository], with the methods that [StartSchedule],
    [EndSchedule], [UpdateTaskStatus], [CreateSchedule] and
    [UpdateSchedule] of the use case call on it.
    [GetSchedulesInProgressByAssignedUserID] returns a pointer to a
    slice, which may be nil. *)
Record IScheduleRepository (St : Type) : Type := {
  GetScheduleByID : UUID -> St -> result Schedule;
  GetSchedulesInProgressByAssignedUserID :
    UUID -> St -> result (option (list Schedule));
  UpdateSchedule : UUID -> gmap string Value -> St -> St * result Schedule;
  UpdateTask : UUID -> gmap string Value -> St -> St * result Task;
  Create : Schedule -> St -> St * result Schedule }.
Arguments GetScheduleByID {St} _ _ _.
Arguments GetSchedulesInProgressByAssignedUserID {St} _ _ _.
Arguments UpdateSchedule {St} _ _ _ _.
Arguments UpdateTask {St} _ _ _ _.
Arguments Create {St} _ _ _.

End domainSchedule.

(** ** application/usecases/schedule *)
Module usecase.
Import domainSchedule.

(** The map literals of the use case. *)
Definition start_updates (timestamp : Time) (location : Location)
  : gmap string Value :=
  {[ "visit_status" := VString "in_progress";
     "checkin_time" := VTime timestamp;
     "checkin_location_lat" := VFloat64Ptr (Lat location);
     "checkin_location_long" := VFloat64Ptr (Long location) ]}.

Definition end_updates (timestamp : Time) (location : Location)
  : gmap string Value :=
  {[ "visit_status" := VString "completed";
     "checkout_time" := VTime timestamp;
     "checkout_location_lat" := VFloat64Ptr (Lat location);
     "checkout_location_long" := VFloat64Ptr (Long location) ]}.

Definition end_task_updates (task : Task) : gmap string Value :=
  {[ "status" := VString (Status task);
     "done" := VBoolPtr (Done task);
     "feedback" := VStringPtr (Feedback task) ]}.

Definition task_status_updates (status : string) (done : bool)
    (feedback : string) : gmap string Value :=
  {[ "Status" := VString status;
     "Done" := VBool done;
     "Feedback" := VString feedback ]}.

Definition validStatuses : gmap string bool :=
  {[ "upcoming" := true;
     "in_progress" := true;
     "completed" := true;
     "cancelled" := true ]}.

(** Indexing a [map[string]bool]: a missing key reads as [false]. *)
Definition index_bool (m : gmap string bool) (k : string) : bool :=
  default false (m !! k).

(** The task loop of [CreateSchedule]: a task whose ID is [uuid.Nil]
    gets [uuid.New()], and every task gets the status "pending". *)
Fixpoint prepare_tasks (rnd : Rand) (tasks : list Task) : list Task :=
  match tasks with
  | [] => []
  | task :: rest =>
      if TaskID task =? Nil
      then set_Status "pending" (set_TaskID (uuid_New (rnd 0%nat)) task)
             :: prepare_tasks (rand_next rnd) rest
      else set_Status "pending" task :: prepare_tasks rnd rest
  end.

Section ScheduleUseCase.
Context {St : Type}.
Variable scheduleRepository : IScheduleRepository St.
Variable userRepository : domainUser.IUserRepository St.

Definition StartSchedule (scheduleID : UUID) (timestamp : Time)
    (location : Location) (st : St) : St * result Schedule :=
  match GetScheduleByID scheduleRepository scheduleID st with
  | Err err => (st, Err err)
  | Ok schedule =>
    if negb (String.eqb (VisitStatus schedule) "upcoming") then
      (st, Err (NewAppError "schedule is not in 'upcoming' status"
                  ValidationError))
    else if Before timestamp (From (ScheduledSlot_ schedule)) then
      (st, Err (NewAppError
                  "cannot start schedule before the scheduled start time"
                  ValidationError))
    else
      match GetSchedulesInProgressByAssignedUserID scheduleRepository
              (AssignedUserID schedule) st with
      | Err err => (st, Err err)
      | Ok schedulesInProgress =>
        if match schedulesInProgress with
           | Some l => (0 <? length l)%nat
           | None => false
           end
        then
          (st, Err (NewAppError
             "cannot start schedule: another schedule is already in progress for this user"
             ValidationError))
        else
          match UpdateSchedule scheduleRepository scheduleID
                  (start_updates timestamp location) st with
          | (st', Err err) => (st', Err err)
          | (st', Ok updatedSchedule) => (st', Ok updatedSchedule)
          end
      end
  end.

(** The loop of [EndSchedule] over the task updates: every update is
    sent to the store, and its error, if any, is only logged. *)
Definition end_task_loop (tasks : list Task) (st : St) : St :=
  fold_left
    (fun st task =>
       fst (UpdateTask scheduleRepository (TaskID task)
              (end_task_updates task) st))
    tasks st.

(** After the loop the code tests [err] once more: that is the outer
    [err], which is nil there, since the loop declares its own. *)
Definition EndSchedule (scheduleID : UUID) (timestamp : Time)
    (location : Location) (tasks : list Task) (st : St)
    : St * result Schedule :=
  match GetScheduleByID scheduleRepository scheduleID st with
  | Err err => (st, Err err)
  | Ok schedule =>
    if negb (String.eqb (VisitStatus schedule) "in_progress") then
      (st, Err (NewAppError "schedule is not in 'in_progress' status"
                  ValidationError))
    else
      match UpdateSchedule scheduleRepository scheduleID
              (end_updates timestamp location) st with
      | (st', Err err) => (st', Err err)
      | (st', Ok updatedSchedule) =>
          (end_task_loop tasks st', Ok updatedSchedule)
      end
  end.

Definition UpdateTaskStatus (taskID : UUID) (status : string)
    (done : bool) (feedback : string) (st : St) : St * result Task :=
  match UpdateTask scheduleRepository taskID
          (task_status_updates status done feedback) st with
  | (st', Err err) => (st', Err err)
  | (st', Ok updatedTask) => (st', Ok updatedTask)
  end.

(** [CreateSchedule] writes into the schedule it is given before it
    hands it to the store; [prepare_schedule] is that schedule. *)
Definition prepare_schedule (rnd : Rand) (newSchedule : Schedule)
  : Schedule :=
  let s := set_VisitStatus "upcoming" newSchedule in
  set_Tasks (prepare_tasks rnd (Tasks s)) s.

Definition CreateSchedule (rnd : Rand) (newSchedule : Schedule) (st : St)
  : St * result Schedule :=
  match domainUser.GetByID userRepository (ClientUserID newSchedule) st with
  | Err _ => (st, Err (NewAppError "client user not found" NotFound))
  | Ok _ =>
    match domainUser.GetByID userRepository (AssignedUserID newSchedule) st with
    | Err _ => (st, Err (NewAppError "assigned user not found" NotFound))
    | Ok _ =>
      match Create scheduleRepository (prepare_schedule rnd newSchedule) st with
      | (st', Err err) => (st', Err err)
      | (st', Ok createdSchedule) => (st', Ok createdSchedule)
      end
    end
  end.

(** The three validation blocks of [UpdateSchedule]; each gives the
    error it returns with, if any. *)
Definition check_client_user (updates : gmap string Value) (st : St)
  : option error :=
  match as_UUID (updates !! "client_user_id") with
  | Some clientUserID =>
      match domainUser.GetByID userRepository clientUserID st with
      | Err _ => Some (NewAppError "new client user not found" NotFound)
      | Ok _ => None
      end
  | None => None
  end.

Definition check_assigned_user (updates : gmap string Value) (st : St)
  : option error :=
  match as_UUID (updates !! "assigned_user_id") with
  | Some assignedUserID =>
      match domainUser.GetByID userRepository assignedUserID st with
      | Err _ => Some (NewAppError "new assigned user not found" NotFound)
      | Ok _ => None
      end
  | None => None
  end.

Definition check_visit_status (existingSchedule : Schedule)
    (updates : gmap string Value) : option error :=
  match as_string (updates !! "visit_status") with
  | Some status =>
      if negb (index_bool validStatuses status) then
        Some (NewAppError "invalid visit status" ValidationError)
      else
        let currentStatus := VisitStatus existingSchedule in
        if String.eqb currentStatus "completed"
           && negb (String.eqb status "completed") then
          Some (NewAppError "cannot change status from completed"
                  ValidationError)
        else if String.eqb currentStatus "cancelled"
                && negb (String.eqb status "cancelled") then
          Some (NewAppError "cannot change status from cancelled"
                  ValidationError)
        else None
  | None => None
  end.

Definition UpdateSchedule (scheduleID : UUID)
    (updates : gmap string Value) (st : St) : St * result Schedule :=
  match GetScheduleByID scheduleRepository scheduleID st with
  | Err _ => (st, Err (NewAppError "schedule not found" NotFound))
  | Ok existingSchedule =>
    match check_client_user updates st with
    | Some err => (st, Err err)
    | None =>
      match check_assigned_user updates st with
      | Some err => (st, Err err)
      | None =>
        match check_visit_status existingSchedule updates with
        | Some err => (st, Err err)
        | None =>
          match domainSchedule.UpdateSchedule scheduleRepository
                  scheduleID updates st with
          | (st', Err err) => (st', Err err)
          | (st', Ok updatedSchedule) => (st', Ok updatedSchedule)
          end
        end
      end
    end
  end.

(** [GetScheduleWithClientInfo]: a client that cannot be found is not
    an error, the schedule is returned without it. *)
Definition GetScheduleWithClientInfo (id : UUID) (st : St)
  : result (Schedule * option domainUser.User) :=
  match GetScheduleByID scheduleRepository id st with
  | Err err => Err err
  | Ok schedule =>
      match domainUser.GetByID userRepository (ClientUserID schedule) st with
      | Err _ => Ok (schedule, None)
      | Ok client => Ok (schedule, Some client)
      end
  end.

End ScheduleUseCase.
End usecase.

(** ** infrastructure/repository/psql

    The gorm-backed repositories over an in-memory image of the database.
    What gorm and the database do is modelled as far as the repository
    relies on it:
    - [First] fails with [ErrRecordNotFound] when no row matches;
    - [Updates] with a map assigns the columns the keys name, by column
      name or by struct field name, the primary key and the creation
      time among them; it refreshes [updated_at] unless the map assigns
      it, refuses to run without a primary key ([ErrMissingWhereClause]),
      fails when it would give two rows one id, touches no row when none
      matches, and saves the tasks preloaded into the model with it;
    - [Create] fills a zero primary key from [gen_random_uuid()], fills
      zero creation and update times, and saves the tasks of the schedule
      with it, in one transaction;
    - any statement may fail in the driver, as the connection decides. *)
Module psql.

(** The gorm models. [User] has the fields of [domainUser.User] and its
    mapper copies them one by one, so the users table holds
    [domainUser.User] records. *)
Record Task : Type := mkTask {
  TaskID : UUID;
  ScheduleID : UUID;
  Title : string;
  Description : string;
  Status : string;
  Done : option bool;
  Feedback : option string;
  TaskCreatedAt : Time;
  TaskUpdatedAt : Time }.

Record Schedule : Type := mkSchedule {
  ID : UUID;
  ClientUserID : UUID;
  AssignedUserID : UUID;
  ServiceName : string;
  ScheduledSlotFrom : Time;
  ScheduledSlotTo : Time;
  VisitStatus : string;
  CheckinTime : option Time;
  CheckoutTime : option Time;
  CheckinLocationLat : option float64;
  CheckinLocationLong : option float64;
  CheckoutLocationLat : option float64;
  CheckoutLocationLong : option float64;
  Tasks : list Task;
  ServiceNote : option string;
  CreatedAt : Time;
  UpdatedAt : Time }.

Definition set_Tasks (v : list Task) (s : Schedule) : Schedule :=
  mkSchedule (ID s) (ClientUserID s) (AssignedUserID s) (ServiceName s)
    (ScheduledSlotFrom s) (ScheduledSlotTo s) (VisitStatus s)
    (CheckinTime s) (CheckoutTime s) (CheckinLocationLat s)
    (CheckinLocationLong s) (CheckoutLocationLat s)
    (CheckoutLocationLong s) v (ServiceNote s) (CreatedAt s) (UpdatedAt s).

(** *** Mappers *)
Definition Task_toDomainMapper (t : Task) : domainSchedule.Task :=
  domainSchedule.mkTask (TaskID t) (ScheduleID t) (Title t) (Description t)
    (Status t) (Done t) (Feedback t) (TaskCreatedAt t) (TaskUpdatedAt t).

Definition toDomainMapper (s : Schedule) : domainSchedule.Schedule :=
  domainSchedule.mkSchedule (ID s) (ClientUserID s) (AssignedUserID s)
    (ServiceName s)
    (domainSchedule.mkScheduledSlot (ScheduledSlotFrom s) (ScheduledSlotTo s))
    (VisitStatus s) (CheckinTime s) (CheckoutTime s)
    (domainSchedule.mkLocation (CheckinLocationLat s) (CheckinLocationLong s))
    (domainSchedule.mkLocation (CheckoutLocationLat s) (CheckoutLocationLong s))
    (map Task_toDomainMapper (Tasks s))
    (ServiceNote s) (CreatedAt s) (UpdatedAt s).

Definition arrayToDomainMapper (schedules : list Schedule)
  : list domainSchedule.Schedule :=
  map toDomainMapper schedules.

Definition Task_fromDomain (task : domainSchedule.Task) : Task :=
  mkTask (domainSchedule.TaskID task) (domainSchedule.ScheduleID task)
    (domainSchedule.Title task) (domainSchedule.Description task)
    (domainSchedule.Status task) (domainSchedule.Done task)
    (domainSchedule.Feedback task) (domainSchedule.TaskCreatedAt task)
    (domainSchedule.TaskUpdatedAt task).

Definition fromDomainMapper (s : domainSchedule.Schedule) : Schedule :=
  mkSchedule (domainSchedule.ID s) (domainSchedule.ClientUserID s)
    (domainSchedule.AssignedUserID s) (domainSchedule.ServiceName s)
    (domainSchedule.From (domainSchedule.ScheduledSlot_ s))
    (domainSchedule.To (domainSchedule.ScheduledSlot_ s))
    (domainSchedule.VisitStatus s)
    (domainSchedule.CheckinTime s) (domainSchedule.CheckoutTime s)
    (domainSchedule.Lat (domainSchedule.CheckinLocation s))
    (domainSchedule.Long (domainSchedule.CheckinLocation s))
    (domainSchedule.Lat (domainSchedule.CheckoutLocation s))
    (domainSchedule.Long (domainSchedule.CheckoutLocation s))
    (map Task_fromDomain (domainSchedule.Tasks s))
    (domainSchedule.ServiceNote s) (domainSchedule.CreatedAt s)
    (domainSchedule.UpdatedAt s).

(** *** The database *)

(** The tables, each a list of rows in the order the database returns
    them. A schedule row carries no tasks: they live in their own table
    and are attached by [Preload]. *)
Record Tables : Type := mkTables {
  schedules : list Schedule;
  tasks : list Task;
  users : list domainUser.User }.

Definition with_schedules (v : list Schedule) (db : Tables) : Tables :=
  mkTables v (tasks db) (users db).
Definition with_tasks (v : list Task) (db : Tables) : Tables :=
  mkTables (schedules db) v (users db).

(** The statements the repositories send. *)
Inductive Statement : Type :=
| SelectSchedule (id : UUID)
| SelectSchedulesInProgress (assignedUserID : UUID)
| UpdateScheduleRow (id : UUID)
| ReloadSchedule (id : UUID)
| InsertSchedule
| SelectTask (id : UUID)
| UpdateTaskRow (id : UUID)
| SelectUser (id : UUID).

(** An error of the database driver. The repository passes it through
    JSON into a [GormErr] and reads its [Number]; [Number] is [None]
    when that decoding fails. *)
Record DriverError : Type := mkDriverError {
  Message : string;
  Number : option Z }.

Inductive gorm_error : Type :=
| ErrRecordNotFound
| ErrMissingWhereClause
| ErrDriver (e : DriverError).

(** A gorm error handed to the caller as it is. *)
Definition raw (e : gorm_error) : error :=
  match e with
  | ErrRecordNotFound => OtherError "record not found"
  | ErrMissingWhereClause => OtherError "WHERE conditions required"
  | ErrDriver d => OtherError (Message d)
  end.

(** What the repository makes of a failed [Create] or [Updates]. *)
Definition write_error (e : gorm_error) : error :=
  match e with
  | ErrDriver (mkDriverError _ None) => OtherError "json: cannot unmarshal"
  | ErrDriver (mkDriverError _ (Some 1062)) =>
      NewAppErrorWithType ResourceAlreadyExists
  | _ => NewAppErrorWithType UnknownError
  end.

(** The connection: the clock of the session, the statements that fail
    in the driver, the random bits behind [gen_random_uuid()] and the
    conversion of a text parameter to the uuid type. *)
Record Conn : Type := mkConn {
  Now : Time;
  Fails : Statement -> option DriverError;
  GenRandom : Rand;
  TextToUUID : string -> option UUID }.

Definition duplicate_key : DriverError :=
  mkDriverError "duplicate key value violates unique constraint" (Some 0).
Definition bad_statement : DriverError :=
  mkDriverError "the database rejects the statement" (Some 0).

(** *** Column assignment by [Updates] *)

Definition to_uuid (conn : Conn) (v : Value) : option UUID :=
  match v with
  | VUUID u => Some u
  | VString s => TextToUUID conn s
  | _ => None
  end.
Definition to_string (v : Value) : option string :=
  match v with
  | VString s => Some s
  | VStringPtr (Some s) => Some s
  | _ => None
  end.
Definition to_time (v : Value) : option Time :=
  match v with VTime t => Some t | _ => None end.
Definition to_time_null (v : Value) : option (option Time) :=
  match v with VTime t => Some (Some t) | _ => None end.
Definition to_float_null (v : Value) : option (option float64) :=
  match v with VFloat64Ptr p => Some p | _ => None end.
Definition to_bool_null (v : Value) : option (option bool) :=
  match v with
  | VBool b => Some (Some b)
  | VBoolPtr p => Some p
  | _ => None
  end.
Definition to_string_null (v : Value) : option (option string) :=
  match v with
  | VString s => Some (Some s)
  | VStringPtr p => Some p
  | _ => None
  end.

(** The new value of one column: the map may name it by column name or
    by field name; naming it twice, or giving it a value the column
    type does not take, makes the statement fail ([None]). *)
Definition assign {A} (conv : Value -> option A) (dbName fieldName : string)
    (updates : gmap string Value) (old : A) : option A :=
  match updates !! dbName, updates !! fieldName with
  | None, None => Some old
  | Some v, None => conv v
  | None, Some v => conv v
  | Some _, Some _ => None
  end.

Definition schedule_columns : gset string :=
  list_to_set
    [ "id"; "ID";
      "client_user_id"; "ClientUserID"; "assigned_user_id"; "AssignedUserID";
      "service_name"; "ServiceName";
      "scheduled_slot_from"; "ScheduledSlotFrom";
      "scheduled_slot_to"; "ScheduledSlotTo";
      "visit_status"; "VisitStatus";
      "checkin_time"; "CheckinTime"; "checkout_time"; "CheckoutTime";
      "checkin_location_lat"; "CheckinLocationLat";
      "checkin_location_long"; "CheckinLocationLong";
      "checkout_location_lat"; "CheckoutLocationLat";
      "checkout_location_long"; "CheckoutLocationLong";
      "service_note"; "ServiceNote";
      "created_at"; "CreatedAt"; "updated_at"; "UpdatedAt" ].

Definition task_columns : gset string :=
  list_to_set
    [ "id"; "ID"; "schedule_id"; "ScheduleID"; "title"; "Title";
      "description"; "Description"; "status"; "Status"; "done"; "Done";
      "feedback"; "Feedback";
      "created_at"; "CreatedAt"; "updated_at"; "UpdatedAt" ].

(** The row [Updates] leaves behind. The field map goes to gorm as the
    caller made it, and every column of the model can be assigned: the
    primary key and the creation time as well as the others. The update
    time is the time of the statement when the map does not give one. A
    key that names no column makes the statement fail. *)
Definition update_schedule_row (conn : Conn) (updates : gmap string Value)
    (row : Schedule) : option Schedule :=
  if bool_decide (dom updates ⊆ schedule_columns) then
    id ← assign (to_uuid conn) "id" "ID" updates (ID row);
    clientUserID ← assign (to_uuid conn) "client_user_id" "ClientUserID"
                     updates (ClientUserID row);
    assignedUserID ← assign (to_uuid conn) "assigned_user_id" "AssignedUserID"
                       updates (AssignedUserID row);
    serviceName ← assign to_string "service_name" "ServiceName"
                    updates (ServiceName row);
    slotFrom ← assign to_time "scheduled_slot_from" "ScheduledSlotFrom"
                 updates (ScheduledSlotFrom row);
    slotTo ← assign to_time "scheduled_slot_to" "ScheduledSlotTo"
               updates (ScheduledSlotTo row);
    visitStatus ← assign to_string "visit_status" "VisitStatus"
                    updates (VisitStatus row);
    checkinTime ← assign to_time_null "checkin_time" "CheckinTime"
                    updates (CheckinTime row);
    checkoutTime ← assign to_time_null "checkout_time" "CheckoutTime"
                     updates (CheckoutTime row);
    checkinLat ← assign to_float_null "checkin_location_lat"
                   "CheckinLocationLat" updates (CheckinLocationLat row);
    checkinLong ← assign to_float_null "checkin_location_long"
                    "CheckinLocationLong" updates (CheckinLocationLong row);
    checkoutLat ← assign to_float_null "checkout_location_lat"
                    "CheckoutLocationLat" updates (CheckoutLocationLat row);
    checkoutLong ← assign to_float_null "checkout_location_long"
                     "CheckoutLocationLong" updates (CheckoutLocationLong row);
    serviceNote ← assign to_string_null "service_note" "ServiceNote"
                    updates (ServiceNote row);
    createdAt ← assign to_time "created_at" "CreatedAt" updates (CreatedAt row);
    updatedAt ← assign to_time "updated_at" "UpdatedAt" updates (Now conn);
    Some (mkSchedule id clientUserID assignedUserID serviceName
            slotFrom slotTo visitStatus checkinTime checkoutTime
            checkinLat checkinLong checkoutLat checkoutLong
            (Tasks row) serviceNote createdAt updatedAt)
  else None.

Definition update_task_row (conn : Conn) (updates : gmap string Value)
    (row : Task) : option Task :=
  if bool_decide (dom updates ⊆ task_columns) then
    id ← assign (to_uuid conn) "id" "ID" updates (TaskID row);
    scheduleID ← assign (to_uuid conn) "schedule_id" "ScheduleID"
                   updates (ScheduleID row);
    title ← assign to_string "title" "Title" updates (Title row);
    description ← assign to_string "description" "Description"
                    updates (Description row);
    status ← assign to_string "status" "Status" updates (Status row);
    done ← assign to_bool_null "done" "Done" updates (Done row);
    feedback ← assign to_string_null "feedback" "Feedback"
                 updates (Feedback row);
    createdAt ← assign to_time "created_at" "CreatedAt" updates
                  (TaskCreatedAt row);
    updatedAt ← assign to_time "updated_at" "UpdatedAt" updates (Now conn);
    Some (mkTask id scheduleID title description status done
            feedback createdAt updatedAt)
  else None.

(** *** The gorm calls of the schedule repository *)

Inductive gorm (A : Type) : Type :=
| Success (a : A)
| Failure (e : gorm_error).
Arguments Success {A} a.
Arguments Failure {A} e.

(** [Preload("Tasks")]: the tasks whose [schedule_id] is the row's id. *)
Definition preload (db : Tables) (row : Schedule) : Schedule :=
  set_Tasks (List.filter (fun t => ScheduleID t =? ID row) (tasks db)) row.

(** [DB.Preload("Tasks").Where("id = ?", id).First(&schedule)]. The read
    that follows an update is a statement of its own. *)
Definition First_schedule (conn : Conn) (stmt : Statement) (id : UUID)
    (db : Tables) : gorm Schedule :=
  match Fails conn stmt with
  | Some e => Failure (ErrDriver e)
  | None =>
      match List.find (fun row => ID row =? id) (schedules db) with
      | Some row => Success (preload db row)
      | None => Failure ErrRecordNotFound
      end
  end.

Definition First_task (conn : Conn) (id : UUID) (db : Tables) : gorm Task :=
  match Fails conn (SelectTask id) with
  | Some e => Failure (ErrDriver e)
  | None =>
      match List.find (fun row => TaskID row =? id) (tasks db) with
      | Some row => Success row
      | None => Failure ErrRecordNotFound
      end
  end.

(** [DB.Model(&scheduleObj).Updates(updates)]: the rows whose primary
    key is that of the model are rewritten, if there are any. *)
Definition rewrite_schedule (conn : Conn) (id : UUID)
    (updates : gmap string Value) (row : Schedule) : Schedule :=
  if ID row =? id
  then default row (update_schedule_row conn updates row)
  else row.

Definition rewrite_task (conn : Conn) (id : UUID)
    (updates : gmap string Value) (row : Task) : Task :=
  if TaskID row =? id
  then default row (update_task_row conn updates row)
  else row.

(** The store after [Updates] has rewritten the schedule [id]. *)
Definition rewritten (conn : Conn) (id : UUID) (updates : gmap string Value)
    (db : Tables) : Tables :=
  with_schedules (map (rewrite_schedule conn id updates) (schedules db)) db.

(** The id is the primary key of its table: a statement that gives a
    row the id of another row fails. *)
Definition schedule_id_taken (id new : UUID) (db : Tables) : bool :=
  negb (new =? id) && existsb (fun row => ID row =? new) (schedules db).

Definition task_id_taken (id new : UUID) (db : Tables) : bool :=
  negb (new =? id)
  && existsb (fun row => TaskID row =? id) (tasks db)
  && existsb (fun row => TaskID row =? new) (tasks db).

(** With the schedule, [Updates] saves the tasks that were preloaded into
    the model, as [Create] does: they are in the table already, and what
    is written to them is their [schedule_id], the id the model has after
    the assignment. The preloaded tasks are the rows whose [schedule_id]
    was the id of the model. *)
Definition set_ScheduleID (v : UUID) (t : Task) : Task :=
  mkTask (TaskID t) v (Title t) (Description t) (Status t) (Done t)
    (Feedback t) (TaskCreatedAt t) (TaskUpdatedAt t).

Definition save_preloaded (id new : UUID) (db : Tables) : Tables :=
  with_tasks
    (map (fun t => if ScheduleID t =? id then set_ScheduleID new t else t)
       (tasks db))
    db.

Definition Updates_schedule (conn : Conn) (scheduleObj : Schedule)
    (updates : gmap string Value) (db : Tables) : gorm Tables :=
  if ID scheduleObj =? Nil then Failure ErrMissingWhereClause
  else
    match Fails conn (UpdateScheduleRow (ID scheduleObj)) with
    | Some e => Failure (ErrDriver e)
    | None =>
        match update_schedule_row conn updates scheduleObj with
        | None => Failure (ErrDriver bad_statement)
        | Some updated =>
            if schedule_id_taken (ID scheduleObj) (ID updated) db then
              Failure (ErrDriver duplicate_key)
            else
              Success (save_preloaded (ID scheduleObj) (ID updated)
                         (rewritten conn (ID scheduleObj) updates db))
        end
    end.

Definition Updates_task (conn : Conn) (taskObj : Task)
    (updates : gmap string Value) (db : Tables) : gorm Tables :=
  if TaskID taskObj =? Nil then Failure ErrMissingWhereClause
  else
    match Fails conn (UpdateTaskRow (TaskID taskObj)) with
    | Some e => Failure (ErrDriver e)
    | None =>
        match update_task_row conn updates taskObj with
        | None => Failure (ErrDriver bad_statement)
        | Some updated =>
            if task_id_taken (TaskID taskObj) (TaskID updated) db then
              Failure (ErrDriver duplicate_key)
            else
              Success (with_tasks
                         (map (rewrite_task conn (TaskID taskObj) updates)
                            (tasks db))
                         db)
        end
    end.

(** [DB.Create(scheduleModel)]: the schedule row is appended, unless its
    id is taken, and its tasks are saved under the id of the schedule;
    two tasks with one id make the statement fail. *)
Definition fill_id (bits : Z) (id : UUID) : UUID :=
  if id =? Nil then uuid_New bits else id.
Definition fill_time (conn : Conn) (t : Time) : Time :=
  if IsZero t then Now conn else t.

Fixpoint create_tasks (conn : Conn) (scheduleID : UUID) (n : nat)
    (new : list Task) : list Task :=
  match new with
  | [] => []
  | t :: rest =>
      mkTask (fill_id (GenRandom conn n) (TaskID t)) scheduleID (Title t)
        (Description t) (Status t) (Done t) (Feedback t)
        (fill_time conn (TaskCreatedAt t)) (fill_time conn (TaskUpdatedAt t))
        :: create_tasks conn scheduleID (S n) rest
  end.

(** A task whose id is already in the table is not replaced: only its
    [schedule_id] is rewritten. *)
Definition upsert_task (tbl : list Task) (t : Task) : list Task :=
  if existsb (fun old => TaskID old =? TaskID t) tbl then
    map (fun old =>
           if TaskID old =? TaskID t
           then mkTask (TaskID old) (ScheduleID t) (Title old)
                  (Description old) (Status old) (Done old) (Feedback old)
                  (TaskCreatedAt old) (TaskUpdatedAt old)
           else old)
      tbl
  else tbl ++ [t].

Definition Create_schedule (conn : Conn) (scheduleModel : Schedule)
    (db : Tables) : gorm (Tables * Schedule) :=
  match Fails conn InsertSchedule with
  | Some e => Failure (ErrDriver e)
  | None =>
      let id := fill_id (GenRandom conn 0%nat) (ID scheduleModel) in
      if existsb (fun row => ID row =? id) (schedules db) then
        Failure (ErrDriver duplicate_key)
      else
        let saved := create_tasks conn id 1%nat (Tasks scheduleModel) in
        if bool_decide (NoDup (map TaskID saved)) then
          let row :=
            mkSchedule id (ClientUserID scheduleModel)
              (AssignedUserID scheduleModel) (ServiceName scheduleModel)
              (ScheduledSlotFrom scheduleModel)
              (ScheduledSlotTo scheduleModel) (VisitStatus scheduleModel)
              (CheckinTime scheduleModel) (CheckoutTime scheduleModel)
              (CheckinLocationLat scheduleModel)
              (CheckinLocationLong scheduleModel)
              (CheckoutLocationLat scheduleModel)
              (CheckoutLocationLong scheduleModel) []
              (ServiceNote scheduleModel)
              (fill_time conn (CreatedAt scheduleModel))
              (fill_time conn (UpdatedAt scheduleModel)) in
          Success (mkTables (schedules db ++ [row])
                     (fold_left upsert_task saved (tasks db)) (users db),
                   set_Tasks saved row)
        else Failure (ErrDriver bad_statement)
  end.

(** *** Repository (schedule) *)

Definition GetScheduleByID (conn : Conn) (id : UUID) (db : Tables)
  : result domainSchedule.Schedule :=
  match First_schedule conn (SelectSchedule id) id db with
  | Failure ErrRecordNotFound => Err (NewAppErrorWithType NotFound)
  | Failure _ => Err (NewAppErrorWithType UnknownError)
  | Success schedule => Ok (toDomainMapper schedule)
  end.

(** After [Updates] the schedule is read again under the id of the call:
    a schedule to which the field map gave another id is not found. *)
Definition UpdateSchedule (conn : Conn) (id : UUID)
    (updates : gmap string Value) (db : Tables)
  : Tables * result domainSchedule.Schedule :=
  match First_schedule conn (SelectSchedule id) id db with
  | Failure ErrRecordNotFound => (db, Err (NewAppErrorWithType NotFound))
  | Failure _ => (db, Err (NewAppErrorWithType UnknownError))
  | Success scheduleObj =>
      match Updates_schedule conn scheduleObj updates db with
      | Failure e => (db, Err (write_error e))
      | Success db' =>
          match First_schedule conn (ReloadSchedule id) id db' with
          | Failure e => (db', Err (raw e))
          | Success updated => (db', Ok (toDomainMapper updated))
          end
      end
  end.

Definition UpdateTask (conn : Conn) (taskID : UUID)
    (updates : gmap string Value) (db : Tables)
  : Tables * result domainSchedule.Task :=
  let taskObj := mkTask taskID Nil "" "" "" None None 0 0 in
  match Updates_task conn taskObj updates db with
  | Failure _ => (db, Err (NewAppErrorWithType UnknownError))
  | Success db' =>
      match First_task conn taskID db' with
      | Failure e => (db', Err (raw e))
      | Success updated => (db', Ok (Task_toDomainMapper updated))
      end
  end.

Definition Create (conn : Conn) (newSchedule : domainSchedule.Schedule)
    (db : Tables) : Tables * result domainSchedule.Schedule :=
  match Create_schedule conn (fromDomainMapper newSchedule) db with
  | Failure e => (db, Err (write_error e))
  | Success (db', scheduleModel) => (db', Ok (toDomainMapper scheduleModel))
  end.

Definition GetSchedulesInProgressByAssignedUserID (conn : Conn)
    (assignedUserID : UUID) (db : Tables)
  : result (option (list domainSchedule.Schedule)) :=
  match Fails conn (SelectSchedulesInProgress assignedUserID) with
  | Some _ => Err (NewAppErrorWithType UnknownError)
  | None =>
      Ok (Some (arrayToDomainMapper
                  (map (preload db)
                     (List.filter
                        (fun row =>
                           (AssignedUserID row =? assignedUserID)
                           && String.eqb (VisitStatus row) "in_progress")
                        (schedules db)))))
  end.

(** *** Repository (user) *)
Definition GetByID (conn : Conn) (id : UUID) (db : Tables)
  : result domainUser.User :=
  match Fails conn (SelectUser id) with
  | Some _ => Err (NewAppErrorWithType UnknownError)
  | None =>
      match List.find (fun user => domainUser.ID user =? id) (users db) with
      | Some user => Ok user
      | None => Err (NewAppErrorWithType NotFound)
      end
  end.

Definition NewScheduleRepository (conn : Conn)
  : domainSchedule.IScheduleRepository Tables :=
  {| domainSchedule.GetScheduleByID := GetScheduleByID conn;
     domainSchedule.GetSchedulesInProgressByAssignedUserID :=
       GetSchedulesInProgressByAssignedUserID conn;
     domainSchedule.UpdateSchedule := UpdateSchedule conn;
     domainSchedule.UpdateTask := UpdateTask conn;
     domainSchedule.Create := Create conn |}.

Definition NewUserRepository (conn : Conn)
  : domainUser.IUserRepository Tables :=
  {| domainUser.GetByID := GetByID conn |}.

End psql.

(** ** infrastructure/rest/controllers/schedule

    The two handlers that write a scheduled slot. What gin hands to a
    handler is an argument: the [id] path parameter as [uuid.Parse] reads
    it ([None] when it is no UUID) and the outcome of [BindJSON], which is
    the bound request or the message of the binding error. A handler ends
    in [ctx.JSON] or in [ctx.Error]. *)
Module controller.

Record TaskRequest : Type := mkTaskRequest {
  TaskRequest_Title : string;
  TaskRequest_Description : string }.

Record ScheduledSlot : Type := mkScheduledSlot {
  From : Time;
  To : Time }.

Record Location : Type := mkLocation {
  Lat : option float64;
  Long : option float64 }.

Record Task : Type := mkTask {
  TaskID : UUID;
  Title : string;
  Description : string;
  Status : string;
  Done : option bool;
  Feedback : option string }.

Record ClientLocation : Type := mkClientLocation {
  HouseNumber : string;
  Street : string;
  City : string;
  State : string;
  Pincode : string;
  ClientLat : float64;
  ClientLong : float64 }.

Record ClientInfo : Type := mkClientInfo {
  ClientID : UUID;
  UserName : string;
  Email : string;
  FirstName : string;
  LastName : string;
  ProfilePicture : string;
  ClientLocation_ : ClientLocation }.

Record CreateScheduleRequest : Type := mkCreateScheduleRequest {
  Create_ClientUserID : UUID;
  Create_AssignedUserID : UUID;
  Create_ServiceName : string;
  Create_ScheduledSlot : ScheduledSlot;
  Create_Tasks : list TaskRequest }.

Record UpdateScheduleRequest : Type := mkUpdateScheduleRequest {
  Update_ClientUserID : UUID;
  Update_AssignedUserID : UUID;
  Update_ServiceName : string;
  Update_ScheduledSlot : option ScheduledSlot;
  Update_VisitStatus : string }.

Record ScheduleResponse : Type := mkScheduleResponse {
  ID : UUID;
  ClientUserID : UUID;
  ClientInfo_ : option ClientInfo;
  AssignedUserID : UUID;
  ServiceName : string;
  ScheduledSlot_ : ScheduledSlot;
  VisitStatus : string;
  CheckinTime : option Time;
  CheckoutTime : option Time;
  CheckinLocation : Location;
  CheckoutLocation : Location;
  Tasks : list Task;
  ServiceNote : option string }.

Definition set_ClientInfo (v : option ClientInfo) (r : ScheduleResponse)
  : ScheduleResponse :=
  mkScheduleResponse (ID r) (ClientUserID r) v (AssignedUserID r)
    (ServiceName r) (ScheduledSlot_ r) (VisitStatus r) (CheckinTime r)
    (CheckoutTime r) (CheckinLocation r) (CheckoutLocation r) (Tasks r)
    (ServiceNote r).

Record UpdateScheduleResponse : Type := mkUpdateScheduleResponse {
  Message : string;
  Schedule : ScheduleResponse }.

Inductive Written (A : Type) : Type :=
| JSON (status : Z) (body : A)
| CtxError (e : error).
Arguments JSON {A} status body.
Arguments CtxError {A} e.

Definition StatusOK : Z := 200.

Definition clientToResponseMapper (u : option domainUser.User)
  : option ClientInfo :=
  match u with
  | None => None
  | Some u =>
      Some (mkClientInfo (domainUser.ID u) (domainUser.UserName u)
              (domainUser.Email u) (domainUser.FirstName u)
              (domainUser.LastName u) (domainUser.ProfilePicture u)
              (mkClientLocation
                 (domainUser.HouseNumber (domainUser.Location_ u))
                 (domainUser.Street (domainUser.Location_ u))
                 (domainUser.City (domainUser.Location_ u))
                 (domainUser.State (domainUser.Location_ u))
                 (domainUser.Pincode (domainUser.Location_ u))
                 (domainUser.Lat (domainUser.Location_ u))
                 (domainUser.Long (domainUser.Location_ u))))
  end.

Definition domainToResponseMapper (s : domainSchedule.Schedule)
  : ScheduleResponse :=
  mkScheduleResponse (domainSchedule.ID s) (domainSchedule.ClientUserID s)
    None (domainSchedule.AssignedUserID s) (domainSchedule.ServiceName s)
    (mkScheduledSlot
       (domainSchedule.From (domainSchedule.ScheduledSlot_ s))
       (domainSchedule.To (domainSchedule.ScheduledSlot_ s)))
    (domainSchedule.VisitStatus s) (domainSchedule.CheckinTime s)
    (domainSchedule.CheckoutTime s)
    (mkLocation (domainSchedule.Lat (domainSchedule.CheckinLocation s))
       (domainSchedule.Long (domainSchedule.CheckinLocation s)))
    (mkLocation (domainSchedule.Lat (domainSchedule.CheckoutLocation s))
       (domainSchedule.Long (domainSchedule.CheckoutLocation s)))
    (map (fun task =>
            mkTask (domainSchedule.TaskID task) (domainSchedule.Title task)
              (domainSchedule.Description task) (domainSchedule.Status task)
              (domainSchedule.Done task) (domainSchedule.Feedback task))
       (domainSchedule.Tasks s))
    (domainSchedule.ServiceNote s).

(** The schedule [CreateSchedule] builds from a request: fields the
    composite literal leaves out hold their zero value. *)
Definition new_schedule (request : CreateScheduleRequest)
  : domainSchedule.Schedule :=
  domainSchedule.mkSchedule Nil (Create_ClientUserID request)
    (Create_AssignedUserID request) (Create_ServiceName request)
    (domainSchedule.mkScheduledSlot
       (From (Create_ScheduledSlot request))
       (To (Create_ScheduledSlot request)))
    "upcoming" None None
    (domainSchedule.mkLocation None None)
    (domainSchedule.mkLocation None None)
    (map (fun taskReq =>
            domainSchedule.mkTask Nil Nil (TaskRequest_Title taskReq)
              (TaskRequest_Description taskReq) "pending" None None 0 0)
       (Create_Tasks request))
    None 0 0.

(** The field map [UpdateSchedule] collects before it looks at the slot:
    a field left at its zero value is not updated. *)
Definition collect_updates (request : UpdateScheduleRequest)
  : gmap string Value :=
  let updates : gmap string Value := ∅ in
  let updates :=
    if negb (Update_ClientUserID request =? Nil)
    then <["client_user_id" := VUUID (Update_ClientUserID request)]> updates
    else updates in
  let updates :=
    if negb (Update_AssignedUserID request =? Nil)
    then <["assigned_user_id" := VUUID (Update_AssignedUserID request)]> updates
    else updates in
  let updates :=
    if negb (String.eqb (Update_ServiceName request) "")
    then <["service_name" := VString (Update_ServiceName request)]> updates
    else updates in
  if negb (String.eqb (Update_VisitStatus request) "")
  then <["visit_status" := VString (Update_VisitStatus request)]> updates
  else updates.

Section Controller.
Context {St : Type}.
Variable scheduleRepository : domainSchedule.IScheduleRepository St.
Variable userRepository : domainUser.IUserRepository St.

Definition CreateSchedule (rnd : Rand)
    (bound : string + CreateScheduleRequest) (st : St)
  : St * Written ScheduleResponse :=
  match bound with
  | inl err => (st, CtxError (NewAppError err ValidationError))
  | inr request =>
    if Create_ClientUserID request =? Nil then
      (st, CtxError (NewAppError "ClientUserID is required" ValidationError))
    else if IsZero (From (Create_ScheduledSlot request))
            || IsZero (To (Create_ScheduledSlot request)) then
      (st, CtxError (NewAppError "ScheduledSlot (From, To) is required"
                       ValidationError))
    else if After (From (Create_ScheduledSlot request))
              (To (Create_ScheduledSlot request)) then
      (st, CtxError (NewAppError "ScheduledSlot 'From' cannot be after 'To'"
                       ValidationError))
    else if (length (Create_Tasks request) =? 0)%nat then
      (st, CtxError (NewAppError "at least one task is required"
                       ValidationError))
    else
      match usecase.CreateSchedule scheduleRepository userRepository rnd
              (new_schedule request) st with
      | (st', Err err) => (st', CtxError err)
      | (st', Ok createdSchedule) =>
          (st', JSON StatusOK (domainToResponseMapper createdSchedule))
      end
  end.

(** The end of [UpdateSchedule], once the field map is complete. *)
Definition send_updates (scheduleID : UUID) (updates : gmap string Value)
    (st : St) : St * Written UpdateScheduleResponse :=
  if (size updates =? 0)%nat then
    (st, CtxError (NewAppError "No valid fields to update" ValidationError))
  else
    match usecase.UpdateSchedule scheduleRepository userRepository
            scheduleID updates st with
    | (st', Err err) => (st', CtxError err)
    | (st', Ok updatedSchedule) =>
        let client :=
          match usecase.GetScheduleWithClientInfo scheduleRepository
                  userRepository scheduleID st' with
          | Ok (_, client) => client
          | Err _ => None
          end in
        (st', JSON StatusOK
                (mkUpdateScheduleResponse "Schedule updated successfully"
                   (set_ClientInfo (clientToResponseMapper client)
                      (domainToResponseMapper updatedSchedule))))
    end.

Definition UpdateSchedule (id : option UUID)
    (bound : string + UpdateScheduleRequest) (st : St)
  : St * Written UpdateScheduleResponse :=
  match id with
  | None =>
      (st, CtxError (NewAppError "schedule id is invalid" ValidationError))
  | Some scheduleID =>
    match usecase.GetScheduleWithClientInfo scheduleRepository
            userRepository scheduleID st with
    | Err err => (st, CtxError err)
    | Ok _ =>
      match bound with
      | inl err => (st, CtxError (NewAppError err ValidationError))
      | inr request =>
        let updates := collect_updates request in
        match Update_ScheduledSlot request with
        | Some slot =>
          if IsZero (From slot) || IsZero (To slot) then
            (st, CtxError (NewAppError
                   "Both From and To dates must be provided for ScheduledSlot"
                   ValidationError))
          else if After (From slot) (To slot) then
            (st, CtxError (NewAppError
                   "ScheduledSlot 'From' cannot be after 'To'"
                   ValidationError))
          else
            send_updates scheduleID
              (<["scheduled_slot_to" := VTime (To slot)]>
                 (<["scheduled_slot_from" := VTime (From slot)]> updates))
              st
        | None => send_updates scheduleID updates st
        end
      end
    end
  end.

End Controller.
End controller.

(** ** infrastructure/di: the use case wired to the psql repositories *)
Module di.

Definition StartSchedule (conn : psql.Conn) :=
  usecase.StartSchedule (psql.NewScheduleRepository conn).
Definition EndSchedule (conn : psql.Conn) :=
  usecase.EndSchedule (psql.NewScheduleRepository conn).
Definition UpdateTaskStatus (conn : psql.Conn) :=
  usecase.UpdateTaskStatus (psql.NewScheduleRepository conn).
Definition CreateSchedule (conn : psql.Conn) :=
  usecase.CreateSchedule (psql.NewScheduleRepository conn)
    (psql.NewUserRepository conn).
Definition UpdateSchedule (conn : psql.Conn) :=
  usecase.UpdateSchedule (psql.NewScheduleRepository conn)
    (psql.NewUserRepository conn).
Definition CreateScheduleHandler (conn : psql.Conn) :=
  controller.CreateSchedule (psql.NewScheduleRepository conn)
    (psql.NewUserRepository conn).
Definition UpdateScheduleHandler (conn : psql.Conn) :=
  controller.UpdateSchedule (psql.NewScheduleRepository conn)
    (psql.NewUserRepository conn).

End di.

(** ** A small database to run the program on

    Two users, caregiver 2 and client 1; schedule 10 is upcoming, 11 is in
    progress (for another caregiver), 12 is completed; schedule 11 has one
    task. The connection never fails and its clock reads 5000. *)
Module sample.

Definition client : domainUser.User :=
  domainUser.mkUser 1 "client" "client@example.com" "Cara" "Client" true ""
    "client" "" (domainUser.mkLocation "1" "Main" "Town" "ST" "00001" 0 0)
    0 0.
Definition caregiver : domainUser.User :=
  domainUser.mkUser 2 "carer" "carer@example.com" "Gus" "Giver" true ""
    "caregiver" "" (domainUser.mkLocation "2" "Side" "Town" "ST" "00002" 0 0)
    0 0.

Definition row (id assignee : UUID) (status : string) : psql.Schedule :=
  psql.mkSchedule id 1 assignee "Home visit" 1000 2000 status None None
    None None None None [] None 10 10.

Definition medication : psql.Task :=
  psql.mkTask 20 11 "Give medication" "" "pending" None None 10 10.

Definition db : psql.Tables :=
  psql.mkTables
    [ row 10 2 "upcoming"; row 11 3 "in_progress"; row 12 2 "completed" ]
    [ medication ]
    [ client; caregiver ].

(** The database reads one text as a uuid: that of the unknown user 99. *)
Definition text_to_uuid (s : string) : option UUID :=
  if String.eqb s "00000000-0000-0000-0000-000000000063" then Some 99
  else None.

Definition conn_at (now : Time) : psql.Conn :=
  psql.mkConn now (fun _ => None) (fun n => Z.of_nat n) text_to_uuid.
Definition conn : psql.Conn := conn_at 5000.

Definition here : domainSchedule.Location :=
  domainSchedule.mkLocation (Some 7) (Some 8).

End sample.

(** * The vocabulary of the properties *)

(** ** Field maps *)
Module field_map.

(** A field map that does not name the primary key, neither by its
    column nor by its field. The maps the use case and the controller
    build are of this kind. *)
Definition keeps_id (updates : gmap string Value) : Prop :=
  updates !! "id" = None /\ updates !! "ID" = None.

Definition keeps_created_at (updates : gmap string Value) : Prop :=
  updates !! "created_at" = None /\ updates !! "CreatedAt" = None.

End field_map.

(** ** Precondition failures write nothing *)
Module fail_fast.
Import domainSchedule.

(** The three mutations of the engine that check preconditions. *)
Inductive Mutation : Type :=
| Creating (rnd : Rand) (newSchedule : Schedule)
| Starting (scheduleID : UUID) (timestamp : Time) (location : Location)
| Ending (scheduleID : UUID) (timestamp : Time) (location : Location)
    (tasks : list Task).

Definition run (conn : psql.Conn) (m : Mutation) (db : psql.Tables)
  : psql.Tables * result Schedule :=
  match m with
  | Creating rnd s => di.CreateSchedule conn rnd s db
  | Starting id ts loc => di.StartSchedule conn id ts loc db
  | Ending id ts loc tasks => di.EndSchedule conn id ts loc tasks db
  end.

(** The precondition failures, each with the error it is reported
    with. A schedule or a user is missing when the store finds no row
    for it (or cannot be asked). *)
Inductive fails (conn : psql.Conn) (db : psql.Tables)
  : Mutation -> error -> Prop :=
| client_missing rnd s e :
    psql.GetByID conn (ClientUserID s) db = Err e ->
    fails conn db (Creating rnd s) (AppError "client user not found" NotFound)
| assignee_missing rnd s e :
    is_ok (psql.GetByID conn (ClientUserID s) db) = true ->
    psql.GetByID conn (AssignedUserID s) db = Err e ->
    fails conn db (Creating rnd s)
      (AppError "assigned user not found" NotFound)
| start_missing id ts loc :
    psql.Fails conn (psql.SelectSchedule id) = None ->
    List.find (fun row => psql.ID row =? id) (psql.schedules db) = None ->
    fails conn db (Starting id ts loc) (AppErrorWithType NotFound)
| start_wrong_status id ts loc s :
    psql.GetScheduleByID conn id db = Ok s ->
    VisitStatus s <> "upcoming" ->
    fails conn db (Starting id ts loc)
      (AppError "schedule is not in 'upcoming' status" ValidationError)
| start_early id ts loc s :
    psql.GetScheduleByID conn id db = Ok s ->
    VisitStatus s = "upcoming" ->
    ts < From (ScheduledSlot_ s) ->
    fails conn db (Starting id ts loc)
      (AppError "cannot start schedule before the scheduled start time"
         ValidationError)
| start_occupied id ts loc s busy :
    psql.GetScheduleByID conn id db = Ok s ->
    VisitStatus s = "upcoming" ->
    From (ScheduledSlot_ s) <= ts ->
    psql.GetSchedulesInProgressByAssignedUserID conn (AssignedUserID s) db
      = Ok (Some busy) ->
    busy <> [] ->
    fails conn db (Starting id ts loc)
      (AppError
         "cannot start schedule: another schedule is already in progress for this user"
         ValidationError)
| end_wrong_status id ts loc tasks s :
    psql.GetScheduleByID conn id db = Ok s ->
    VisitStatus s <> "in_progress" ->
    fails conn db (Ending id ts loc tasks)
      (AppError "schedule is not in 'in_progress' status" ValidationError).

End fail_fast.

(** ** Starting a visit *)
Module start.

Definition early : error :=
  AppError "cannot start schedule before the scheduled start time"
    ValidationError.
Definition occupied : error :=
  AppError
    "cannot start schedule: another schedule is already in progress for this user"
    ValidationError.

End start.

(** ** Creating a schedule *)
Module create.
Import domainSchedule.

(** How a created task relates to the task the caller gave. *)
Definition prepared (input output : Task) : Prop :=
  Status output = "pending"
  /\ (TaskID input <> Nil -> TaskID output = TaskID input)
  /\ (TaskID input = Nil ->
      TaskID output <> Nil /\ exists bits, TaskID output = uuid_New bits)
  /\ Title output = Title input
  /\ Description output = Description input
  /\ Done output = Done input
  /\ Feedback output = Feedback input.

(** A schedule with one task that arrives with an identifier and with
    the status "done". *)
Definition done_task : Task := mkTask 21 0 "Give medication" "" "done" None None 0 0.
Definition with_done_task : Schedule :=
  mkSchedule 0 1 2 "Home visit" (mkScheduledSlot 3000 4000) "completed"
    None None (mkLocation None None) (mkLocation None None) [ done_task ]
    None 0 0.

(** A schedule whose slot ends before it begins. *)
Definition backwards : Schedule :=
  mkSchedule 0 1 2 "Home visit" (mkScheduledSlot 3000 2000) "upcoming"
    None None (mkLocation None None) (mkLocation None None) [ done_task ]
    None 0 0.

End create.

(** ** Updating a task *)
Module task_time.

Definition set_TaskUpdatedAt (now : Time) (row : psql.Task) : psql.Task :=
  psql.mkTask (psql.TaskID row) (psql.ScheduleID row) (psql.Title row)
    (psql.Description row) (psql.Status row) (psql.Done row)
    (psql.Feedback row) (psql.TaskCreatedAt row) now.

(** The same row, with the update time the store stamps on it. *)
Definition touch (now : Time) (id : UUID) (row : psql.Task) : psql.Task :=
  if psql.TaskID row =? id then set_TaskUpdatedAt now row else row.

Definition set_UpdatedAt (now : Time) (t : domainSchedule.Task)
  : domainSchedule.Task :=
  domainSchedule.mkTask (domainSchedule.TaskID t) (domainSchedule.ScheduleID t)
    (domainSchedule.Title t) (domainSchedule.Description t)
    (domainSchedule.Status t) (domainSchedule.Done t)
    (domainSchedule.Feedback t) (domainSchedule.TaskCreatedAt t) now.

End task_time.

(** ** The life cycle of a visit *)
Module lifecycle.
Import domainSchedule.

(** The operations of the engine that write to the store. *)
Inductive Operation : Type :=
| Create (rnd : Rand) (newSchedule : Schedule)
| Start (scheduleID : UUID) (timestamp : Time) (location : Location)
| End_ (scheduleID : UUID) (timestamp : Time) (location : Location)
    (tasks : list Task)
| UpdateTask (taskID : UUID) (status : string) (done : bool)
    (feedback : string)
| Update (scheduleID : UUID) (updates : gmap string Value).

(** The store an operation leaves behind. *)
Definition run (conn : psql.Conn) (op : Operation) (db : psql.Tables)
  : psql.Tables :=
  match op with
  | Create rnd s => fst (di.CreateSchedule conn rnd s db)
  | Start id ts loc => fst (di.StartSchedule conn id ts loc db)
  | End_ id ts loc tasks => fst (di.EndSchedule conn id ts loc tasks db)
  | UpdateTask id status done feedback =>
      fst (di.UpdateTaskStatus conn id status done feedback db)
  | Update id updates => fst (di.UpdateSchedule conn id updates db)
  end.

Definition label (s : string) : Prop :=
  s = "upcoming" \/ s = "in_progress" \/ s = "completed" \/ s = "cancelled".

(** The changes of visitStatus the code lets an operation make. The
    status block of [UpdateSchedule] looks at a string under
    "visit_status" ([moves]). An entry under the field name "VisitStatus",
    and an entry under "visit_status" that is no string (a pointer to a
    string, for example), pass it unseen: the store gets them as they
    are, and nothing is said here of the status it makes of them
    ([slips_by_field], [slips_by_value]). *)
Inductive may_change : Operation -> string -> string -> Prop :=
| stays op s : may_change op s s
| starts id ts loc : may_change (Start id ts loc) "upcoming" "in_progress"
| ends id ts loc tasks :
    may_change (End_ id ts loc tasks) "in_progress" "completed"
| moves id updates current requested :
    updates !! "visit_status" = Some (VString requested) ->
    label requested ->
    current <> "completed" ->
    current <> "cancelled" ->
    may_change (Update id updates) current requested
| slips_by_field id updates current v written :
    updates !! "visit_status" = None ->
    updates !! "VisitStatus" = Some v ->
    may_change (Update id updates) current written
| slips_by_value id updates current v written :
    updates !! "visit_status" = Some v ->
    (forall requested, v <> VString requested) ->
    may_change (Update id updates) current written.

End lifecycle.

(** ** The scheduled slot *)
Module slot.

(** Every stored schedule has its slot in order. *)
Definition slots_ok (db : psql.Tables) : Prop :=
  Forall (fun row => psql.ScheduledSlotFrom row <= psql.ScheduledSlotTo row)
    (psql.schedules db).

Definition in_order (s : controller.ScheduledSlot) : Prop :=
  controller.From s <= controller.To s.

(** A request to create, or to update, with a slot that ends before it
    begins. *)
Definition create_violates (bound : string + controller.CreateScheduleRequest)
  : Prop :=
  exists request,
    bound = inr request
    /\ ~ in_order (controller.Create_ScheduledSlot request).

Definition update_violates (bound : string + controller.UpdateScheduleRequest)
  : Prop :=
  exists request s,
    bound = inr request
    /\ controller.Update_ScheduledSlot request = Some s
    /\ ~ in_order s.

(** An update of the slot of a schedule to a window that ends before
    it begins. *)
Definition backwards_update : controller.UpdateScheduleRequest :=
  controller.mkUpdateScheduleRequest 0 0 ""
    (Some (controller.mkScheduledSlot 3000 2000)) "".

End slot.

(** ** The scenarios of the specification, run on the sample

    Schedule 10 is upcoming with the slot 1000 to 2000, for caregiver 2. *)
Module scenarios.
Import sample.

Definition started : psql.Tables :=
  fst (di.StartSchedule conn 10 1000 here db).

Definition second_visit : psql.Tables :=
  psql.with_schedules (psql.schedules started ++ [ row 13 2 "upcoming" ])%list
    started.

Definition with_task : psql.Tables :=
  psql.with_tasks
    [ psql.mkTask 30 10 "Give medication" "" "pending" None None 10 10 ]
    started.

Definition ended : psql.Tables :=
  fst (di.EndSchedule conn 10 1900 here
         [ domainSchedule.mkTask 30 10 "" "" "completed" (Some true) None 0 0 ]
         with_task).

End scenarios.

(** * The reading operations and the remaining handlers *)

(** ** domain/schedule: the listing methods of [IScheduleRepository]

    [GetSchedules] and [GetTodaySchedules], which the reading operations
    of the use case call. Each returns a pointer to a slice, which may be
    nil. *)
Module domainScheduleLists.
Import domainSchedule.

Record IScheduleLists (St : Type) : Type := {
  GetSchedules : St -> result (option (list Schedule));
  GetTodaySchedules : UUID -> St -> result (option (list Schedule)) }.
Arguments GetSchedules {St} _ _.
Arguments GetTodaySchedules {St} _ _ _.

End domainScheduleLists.

(** ** application/usecases/schedule: the reading operations *)
Module usecaseReads.
Import domainSchedule.

(** The set [clientIDs] the three [...WithClientInfo] operations build:
    [clientIDs[schedule.ClientUserID] = true], schedule by schedule. *)
Definition collect_clientIDs (schedules : list Schedule) : gmap Z bool :=
  fold_left
    (fun clientIDs schedule => <[ClientUserID schedule := true]> clientIDs)
    schedules ∅.

Section ScheduleUseCase.
Context {St : Type}.
Variable scheduleRepository : IScheduleRepository St.
Variable scheduleLists : domainScheduleLists.IScheduleLists St.
Variable userRepository : domainUser.IUserRepository St.

(** [for clientID := range clientIDs] visits the keys of the map in an
    order the Go runtime chooses; [rangeKeys] is that choice. *)
Variable rangeKeys : gmap Z bool -> list UUID.

Definition GetSchedules (st : St) : result (option (list Schedule)) :=
  domainScheduleLists.GetSchedules scheduleLists st.

Definition GetScheduleByID (id : UUID) (st : St) : result Schedule :=
  domainSchedule.GetScheduleByID scheduleRepository id st.

Definition GetTodaySchedules (userID : UUID) (st : St)
  : result (option (list Schedule)) :=
  match domainUser.GetByID userRepository userID st with
  | Err _ => Err (NewAppError "user not found" NotFound)
  | Ok _ => domainScheduleLists.GetTodaySchedules scheduleLists userID st
  end.

(** The loop over [clientIDs]: a client that cannot be found is logged
    and left out. *)
Fixpoint lookup_clients (clientIDs : list UUID) (st : St)
  : list domainUser.User :=
  match clientIDs with
  | [] => []
  | clientID :: rest =>
      match domainUser.GetByID userRepository clientID st with
      | Err _ => lookup_clients rest st
      | Ok client => client :: lookup_clients rest st
      end
  end.

(** What the three [...WithClientInfo] operations do, in the same words,
    once they hold the schedules: a nil or empty slice is returned with
    an empty slice of clients, and no user is looked up. *)
Definition with_clients (schedules : option (list Schedule)) (st : St)
  : option (list Schedule) * list domainUser.User :=
  match schedules with
  | None => (schedules, [])
  | Some l =>
      if (length l =? 0)%nat then (schedules, [])
      else (schedules, lookup_clients (rangeKeys (collect_clientIDs l)) st)
  end.

Definition GetSchedulesWithClientInfo (st : St)
  : result (option (list Schedule) * list domainUser.User) :=
  match domainScheduleLists.GetSchedules scheduleLists st with
  | Err err => Err err
  | Ok schedules => Ok (with_clients schedules st)
  end.

Definition GetTodaySchedulesWithClientInfo (userID : UUID) (st : St)
  : result (option (list Schedule) * list domainUser.User) :=
  match GetTodaySchedules userID st with
  | Err err => Err err
  | Ok schedules => Ok (with_clients schedules st)
  end.

Definition GetSchedulesInProgressByAssignedUserID (assignedUserID : UUID)
    (st : St) : result (option (list Schedule)) :=
  domainSchedule.GetSchedulesInProgressByAssignedUserID scheduleRepository
    assignedUserID st.

End ScheduleUseCase.
End usecaseReads.

(** ** infrastructure/repository/psql: the listing methods *)
Module psqlReads.
Import psql.

(** The two statements of the listing methods; [fails] below says which
    of them the driver fails. *)
Inductive Query : Type :=
| SelectSchedules
| SelectTodaySchedules (userID : UUID).

(** [time.Hour], in nanoseconds, and the two methods of [time.Time] the
    repository uses: [t.Truncate(d)] rounds [t] down to a multiple of [d]
    since the zero time, and returns [t] when [d <= 0]. *)
Definition Hour : Z := 3600 * 1000000000.
Definition Truncate (t : Time) (d : Z) : Time :=
  if d <=? 0 then t else t - t mod d.
Definition Add (t : Time) (d : Z) : Time := t + d.

(** [DB.Preload("Tasks").Find(&schedules)]. *)
Definition GetSchedules (fails : Query -> option DriverError) (db : Tables)
  : result (option (list domainSchedule.Schedule)) :=
  match fails SelectSchedules with
  | Some _ => Err (NewAppErrorWithType UnknownError)
  | None => Ok (Some (arrayToDomainMapper (map (preload db) (schedules db))))
  end.

(** The schedules of a client whose slot begins on the day of
    [time.Now()]; the day is the one [Truncate] cuts out. *)
Definition GetTodaySchedules (conn : Conn) (fails : Query -> option DriverError)
    (userID : UUID) (db : Tables)
  : result (option (list domainSchedule.Schedule)) :=
  let today := Truncate (Now conn) (24 * Hour) in
  let tomorrow := Add today (24 * Hour) in
  match fails (SelectTodaySchedules userID) with
  | Some _ => Err (NewAppErrorWithType UnknownError)
  | None =>
      Ok (Some (arrayToDomainMapper
                  (map (preload db)
                     (List.filter
                        (fun row =>
                           (ClientUserID row =? userID)
                           && ((today <=? ScheduledSlotFrom row)
                               && (ScheduledSlotFrom row <? tomorrow)))
                        (schedules db)))))
  end.

Definition NewScheduleLists (conn : Conn) (fails : Query -> option DriverError)
  : domainScheduleLists.IScheduleLists Tables :=
  {| domainScheduleLists.GetSchedules := GetSchedules fails;
     domainScheduleLists.GetTodaySchedules := GetTodaySchedules conn fails |}.

End psqlReads.

(** ** infrastructure/rest/controllers/schedule: the remaining handlers

    A path or query parameter reaches a handler as the string gin read;
    [Parse] is [uuid.Parse], which gives no UUID for a string that does
    not spell one. *)
Module handlers.

Record StartScheduleRequest : Type := mkStartScheduleRequest {
  Start_Timestamp : Time;
  Start_Location : controller.Location }.

Record StartScheduleResponse : Type := mkStartScheduleResponse {
  Start_Message : string;
  Start_CheckinTime : option Time;
  Start_CheckinLocation : option controller.Location }.

Record EndScheduleTaskRequest : Type := mkEndScheduleTaskRequest {
  EndTask_ID : UUID;
  EndTask_Title : string;
  EndTask_Description : string;
  EndTask_Status : string;
  EndTask_Done : option bool;
  EndTask_Feedback : option string }.

Record EndScheduleRequest : Type := mkEndScheduleRequest {
  End_Timestamp : Time;
  End_Location : controller.Location;
  End_Tasks : list EndScheduleTaskRequest }.

Record EndScheduleResponse : Type := mkEndScheduleResponse {
  End_Message : string;
  End_CheckoutTime : option Time;
  End_CheckoutLocation : option controller.Location;
  End_ServiceNote : option string }.

Record UpdateTaskRequest : Type := mkUpdateTaskRequest {
  UpdateTask_Title : string;
  UpdateTask_Description : string;
  UpdateTask_Status : string;
  UpdateTask_Done : option bool;
  UpdateTask_Feedback : option string }.

Record UpdateTaskResponse : Type := mkUpdateTaskResponse {
  UpdateTask_Message : string;
  UpdateTask_Task : controller.Task }.

(** [p == nil], for a pointer. *)
Definition is_nil {A : Type} (p : option A) : bool :=
  match p with Some _ => false | None => true end.

(** A handler that dereferences a nil pointer panics instead of
    answering. *)
Inductive Handled (A : Type) : Type :=
| Answered (w : controller.Written A)
| Panicked.
Arguments Answered {A} w.
Arguments Panicked {A}.

Definition arrayDomainToResponseMapper
    (schedules : list domainSchedule.Schedule)
  : list controller.ScheduleResponse :=
  map controller.domainToResponseMapper schedules.

(** [clientMap[clients[i].ID] = &clients[i]], client by client. *)
Definition collect_clientMap (clients : list domainUser.User)
  : gmap Z domainUser.User :=
  fold_left
    (fun clientMap client => <[domainUser.ID client := client]> clientMap)
    clients ∅.

Definition arrayDomainToResponseMapperWithClients
    (schedules : list domainSchedule.Schedule)
    (clients : list domainUser.User) : list controller.ScheduleResponse :=
  let clientMap := collect_clientMap clients in
  map (fun s =>
         let response := controller.domainToResponseMapper s in
         match clientMap !! domainSchedule.ClientUserID s with
         | Some client =>
             controller.set_ClientInfo
               (controller.clientToResponseMapper (Some client)) response
         | None => response
         end)
    schedules.

(** The tasks [EndSchedule] hands to the use case. *)
Definition end_tasks (requests : list EndScheduleTaskRequest)
  : list domainSchedule.Task :=
  map (fun taskReq =>
         domainSchedule.mkTask (EndTask_ID taskReq) Nil (EndTask_Title taskReq)
           (EndTask_Description taskReq) (EndTask_Status taskReq)
           (EndTask_Done taskReq) (EndTask_Feedback taskReq) 0 0)
    requests.

Section Controller.
Context {St : Type}.
Variable scheduleRepository : domainSchedule.IScheduleRepository St.
Variable scheduleLists : domainScheduleLists.IScheduleLists St.
Variable userRepository : domainUser.IUserRepository St.
Variable rangeKeys : gmap Z bool -> list UUID.
Variable Parse : string -> option UUID.

Definition GetSchedules (st : St)
  : Handled (list controller.ScheduleResponse) :=
  match usecaseReads.GetSchedulesWithClientInfo scheduleLists userRepository
          rangeKeys st with
  | Err err => Answered (controller.CtxError err)
  | Ok (None, _) => Panicked
  | Ok (Some schedules, clients) =>
      Answered (controller.JSON controller.StatusOK
                  (arrayDomainToResponseMapperWithClients schedules clients))
  end.

Definition GetTodaySchedules (userIDStr : string) (st : St)
  : Handled (list controller.ScheduleResponse) :=
  if String.eqb userIDStr "" then
    Answered (controller.CtxError
                (NewAppError "ClientUserID query parameter is required"
                   ValidationError))
  else
    match Parse userIDStr with
    | None =>
        Answered (controller.CtxError
                    (NewAppError "Invalid ClientUserID format" ValidationError))
    | Some userID =>
        match usecaseReads.GetTodaySchedulesWithClientInfo scheduleLists
                userRepository rangeKeys userID st with
        | Err err => Answered (controller.CtxError err)
        | Ok (None, _) => Panicked
        | Ok (Some schedules, clients) =>
            Answered (controller.JSON controller.StatusOK
                        (arrayDomainToResponseMapperWithClients schedules
                           clients))
        end
    end.

Definition GetScheduleByID (scheduleIDStr : string) (st : St)
  : controller.Written controller.ScheduleResponse :=
  match Parse scheduleIDStr with
  | None =>
      controller.CtxError (NewAppError "schedule id is invalid" ValidationError)
  | Some scheduleID =>
      match usecase.GetScheduleWithClientInfo scheduleRepository
              userRepository scheduleID st with
      | Err err => controller.CtxError err
      | Ok (schedule, client) =>
          controller.JSON controller.StatusOK
            (controller.set_ClientInfo
               (controller.clientToResponseMapper client)
               (controller.domainToResponseMapper schedule))
      end
  end.

Definition StartSchedule (scheduleIDStr : string)
    (bound : string + StartScheduleRequest) (st : St)
  : St * controller.Written StartScheduleResponse :=
  match Parse scheduleIDStr with
  | None =>
      (st, controller.CtxError
             (NewAppError "schedule id is invalid" ValidationError))
  | Some scheduleID =>
    match bound with
    | inl err => (st, controller.CtxError (NewAppError err ValidationError))
    | inr request =>
      if IsZero (Start_Timestamp request) then
        (st, controller.CtxError
               (NewAppError "Timestamp is required" ValidationError))
      else
      if is_nil (controller.Lat (Start_Location request))
              || is_nil (controller.Long (Start_Location request)) then
        (st, controller.CtxError
               (NewAppError "Location (Lat, Long) is required" ValidationError))
      else
        match usecase.StartSchedule scheduleRepository scheduleID
                (Start_Timestamp request)
                (domainSchedule.mkLocation
                   (controller.Lat (Start_Location request))
                   (controller.Long (Start_Location request)))
                st with
        | (st', Err err) => (st', controller.CtxError err)
        | (st', Ok schedule) =>
            (st', controller.JSON controller.StatusOK
                    (mkStartScheduleResponse "Check-in recorded successfully"
                       (domainSchedule.CheckinTime schedule)
                       (Some (controller.mkLocation
                                (domainSchedule.Lat
                                   (domainSchedule.CheckinLocation schedule))
                                (domainSchedule.Long
                                   (domainSchedule.CheckinLocation schedule))))))
        end
    end
  end.

Definition EndSchedule (scheduleIDStr : string)
    (bound : string + EndScheduleRequest) (st : St)
  : St * controller.Written EndScheduleResponse :=
  match Parse scheduleIDStr with
  | None =>
      (st, controller.CtxError
             (NewAppError "schedule id is invalid" ValidationError))
  | Some scheduleID =>
    match bound with
    | inl err => (st, controller.CtxError (NewAppError err ValidationError))
    | inr request =>
      if IsZero (End_Timestamp request) then
        (st, controller.CtxError
               (NewAppError "Timestamp is required" ValidationError))
      else
      if is_nil (controller.Lat (End_Location request))
              || is_nil (controller.Long (End_Location request)) then
        (st, controller.CtxError
               (NewAppError "Location (Lat, Long) is required" ValidationError))
      else
        match usecase.EndSchedule scheduleRepository scheduleID
                (End_Timestamp request)
                (domainSchedule.mkLocation
                   (controller.Lat (End_Location request))
                   (controller.Long (End_Location request)))
                (end_tasks (End_Tasks request)) st with
        | (st', Err err) => (st', controller.CtxError err)
        | (st', Ok schedule) =>
            (st', controller.JSON controller.StatusOK
                    (mkEndScheduleResponse "Check-out recorded successfully"
                       (domainSchedule.CheckoutTime schedule)
                       (Some (controller.mkLocation
                                (domainSchedule.Lat
                                   (domainSchedule.CheckoutLocation schedule))
                                (domainSchedule.Long
                                   (domainSchedule.CheckoutLocation schedule))))
                       None))
        end
    end
  end.

Definition UpdateTask (taskIDStr : string)
    (bound : string + UpdateTaskRequest) (st : St)
  : St * controller.Written UpdateTaskResponse :=
  match Parse taskIDStr with
  | None =>
      (st, controller.CtxError (NewAppError "task id is invalid" ValidationError))
  | Some taskID =>
    match bound with
    | inl err => (st, controller.CtxError (NewAppError err ValidationError))
    | inr request =>
      if String.eqb (UpdateTask_Status request) "" then
        (st, controller.CtxError
               (NewAppError "Status is required" ValidationError))
      else
        match UpdateTask_Done request with
        | None =>
          (st, controller.CtxError
                 (NewAppError "Done field is required" ValidationError))
        | Some done =>
          let feedback :=
            match UpdateTask_Feedback request with
            | Some text => text
            | None => ""
            end in
          match usecase.UpdateTaskStatus scheduleRepository taskID
                  (UpdateTask_Status request) done feedback st with
          | (st', Err err) => (st', controller.CtxError err)
          | (st', Ok updatedTask) =>
              (st', controller.JSON controller.StatusOK
                      (mkUpdateTaskResponse "Task updated successfully"
                         (controller.mkTask (domainSchedule.TaskID updatedTask)
                            "" "" (domainSchedule.Status updatedTask)
                            (domainSchedule.Done updatedTask)
                            (domainSchedule.Feedback updatedTask))))
          end
        end
    end
  end.

End Controller.
End handlers.

(** ** infrastructure/di: the reading operations and the handlers, wired
    to the psql repositories *)
Module app.

Definition GetSchedules (conn : psql.Conn)
    (fails : psqlReads.Query -> option psql.DriverError) :=
  handlers.GetSchedules (psqlReads.NewScheduleLists conn fails)
    (psql.NewUserRepository conn).
Definition GetTodaySchedules (conn : psql.Conn)
    (fails : psqlReads.Query -> option psql.DriverError) :=
  handlers.GetTodaySchedules (psqlReads.NewScheduleLists conn fails)
    (psql.NewUserRepository conn).
Definition GetScheduleByID (conn : psql.Conn) :=
  handlers.GetScheduleByID (psql.NewScheduleRepository conn)
    (psql.NewUserRepository conn).
Definition StartSchedule (conn : psql.Conn) :=
  handlers.StartSchedule (psql.NewScheduleRepository conn).
Definition EndSchedule (conn : psql.Conn) :=
  handlers.EndSchedule (psql.NewScheduleRepository conn).
Definition UpdateTask (conn : psql.Conn) :=
  handlers.UpdateTask (psql.NewScheduleRepository conn).

End app.

(** * The vocabulary of the further properties *)

(** ** Listings *)
Module listing.

(** Go visits each key of a map once, in some order. *)
Definition visits_keys (rangeKeys : gmap Z bool -> list UUID) : Prop :=
  forall m, rangeKeys m ≡ₚ (map_to_list m).*1.

(** A stored schedule as the repository reads it: with its tasks. *)
Definition read (db : psql.Tables) (row : psql.Schedule)
  : domainSchedule.Schedule :=
  psql.toDomainMapper (psql.preload db row).

(** The client of a schedule, if the store gives one. *)
Definition stored_client (conn : psql.Conn) (db : psql.Tables)
    (s : domainSchedule.Schedule) : option domainUser.User :=
  match psql.GetByID conn (domainSchedule.ClientUserID s) db with
  | Ok client => Some client
  | Err _ => None
  end.

(** The response for a schedule, with the client [client]. *)
Definition response_with (client : option domainUser.User)
    (s : domainSchedule.Schedule) : controller.ScheduleResponse :=
  controller.set_ClientInfo (controller.clientToResponseMapper client)
    (controller.domainToResponseMapper s).

(** The last client of a slice that has the id [id]. *)
Definition last_with_id (id : UUID) (clients : list domainUser.User)
  : option domainUser.User :=
  List.find (fun client => domainUser.ID client =? id) (rev clients).

(** The day of [now]: from [today], a multiple of 24 hours counted from
    the zero time, up to and without [today] + 24 hours. *)
Definition today (now : Time) : Time := now - now mod (24 * psqlReads.Hour).
Definition begins_today (now : Time) (from : Time) : Prop :=
  today now <= from < today now + 24 * psqlReads.Hour.

(** The stored schedules of a client that begin today, in the order of
    the table. *)
Definition todays (now : Time) (userID : UUID) (db : psql.Tables)
  : list psql.Schedule :=
  List.filter
    (fun row =>
       bool_decide (psql.ClientUserID row = userID
                    /\ begins_today now (psql.ScheduledSlotFrom row)))
    (psql.schedules db).

End listing.

(** ** One visit at a time *)
Module occupancy.

(** The id is the primary key of the schedules. *)
Definition keyed (db : psql.Tables) : Prop :=
  NoDup (map psql.ID (psql.schedules db)).

(** No assignee has two visits in progress. *)
Definition one_visit_at_a_time (db : psql.Tables) : Prop :=
  forall r1 r2,
    In r1 (psql.schedules db) -> In r2 (psql.schedules db) ->
    psql.VisitStatus r1 = "in_progress" ->
    psql.VisitStatus r2 = "in_progress" ->
    psql.AssignedUserID r1 = psql.AssignedUserID r2 ->
    psql.ID r1 = psql.ID r2.

End occupancy.

(** ** Requests to update a schedule *)
Module update_request.

(** The keys the handler [UpdateSchedule] can put in a field map. *)
Definition keys : list string :=
  [ "client_user_id"; "assigned_user_id"; "service_name"; "visit_status";
    "scheduled_slot_from"; "scheduled_slot_to" ].

End update_request.

(** * Properties *)

(** ** Primitive data *)

Lemma uuid_New_not_Nil (random : Z) : uuid_New random <> Nil.
Proof.
  unfold uuid_New, Nil. intros H.
  apply Z.lor_eq_0_iff in H as [_ H]. discriminate H.
Qed.

Lemma eqb_string_false (s t : string) : s <> t -> String.eqb s t = false.
Proof. intros H. apply String.eqb_neq. exact H. Qed.

Lemma result_eta {St A} (p : St * result A) :
  match p with
  | (st', Err err) => (st', Err err)
  | (st', Ok a) => (st', Ok a)
  end = p.
Proof. destruct p as [st' [a | e]]; reflexivity. Qed.

(** ** The use case over any store *)
Module usecase_facts.
Import domainSchedule usecase.

Section Facts.
Context {St : Type}.
Variable repo : IScheduleRepository St.
Variable urepo : domainUser.IUserRepository St.

(** *** StartSchedule, check by check *)
Lemma StartSchedule_missing id ts loc st e :
  GetScheduleByID repo id st = Err e ->
  StartSchedule repo id ts loc st = (st, Err e).
Proof. intros H. unfold StartSchedule. rewrite H. reflexivity. Qed.

Lemma StartSchedule_wrong_status id ts loc st s :
  GetScheduleByID repo id st = Ok s ->
  VisitStatus s <> "upcoming" ->
  StartSchedule repo id ts loc st =
    (st, Err (AppError "schedule is not in 'upcoming' status" ValidationError)).
Proof.
  intros H Hs. unfold StartSchedule. rewrite H.
  rewrite (eqb_string_false _ _ Hs). reflexivity.
Qed.

Lemma StartSchedule_early id ts loc st s :
  GetScheduleByID repo id st = Ok s ->
  VisitStatus s = "upcoming" ->
  Before ts (From (ScheduledSlot_ s)) = true ->
  StartSchedule repo id ts loc st =
    (st, Err (AppError
                "cannot start schedule before the scheduled start time"
                ValidationError)).
Proof.
  intros H Hs Hb. unfold StartSchedule. rewrite H, Hs, Hb. reflexivity.
Qed.

Lemma StartSchedule_query_fails id ts loc st s e :
  GetScheduleByID repo id st = Ok s ->
  VisitStatus s = "upcoming" ->
  Before ts (From (ScheduledSlot_ s)) = false ->
  GetSchedulesInProgressByAssignedUserID repo (AssignedUserID s) st = Err e ->
  StartSchedule repo id ts loc st = (st, Err e).
Proof.
  intros H Hs Hb Hq. unfold StartSchedule. rewrite H, Hs, Hb, Hq.
  reflexivity.
Qed.

Lemma StartSchedule_occupied id ts loc st s l :
  GetScheduleByID repo id st = Ok s ->
  VisitStatus s = "upcoming" ->
  Before ts (From (ScheduledSlot_ s)) = false ->
  GetSchedulesInProgressByAssignedUserID repo (AssignedUserID s) st
    = Ok (Some l) ->
  l <> [] ->
  StartSchedule repo id ts loc st =
    (st, Err (AppError
       "cannot start schedule: another schedule is already in progress for this user"
       ValidationError)).
Proof.
  intros H Hs Hb Hq Hl. unfold StartSchedule. rewrite H, Hs, Hb, Hq.
  destruct l; [congruence | reflexivity].
Qed.

Lemma StartSchedule_free id ts loc st s found :
  GetScheduleByID repo id st = Ok s ->
  VisitStatus s = "upcoming" ->
  Before ts (From (ScheduledSlot_ s)) = false ->
  GetSchedulesInProgressByAssignedUserID repo (AssignedUserID s) st
    = Ok found ->
  found = None \/ found = Some [] ->
  StartSchedule repo id ts loc st =
    domainSchedule.UpdateSchedule repo id (start_updates ts loc) st.
Proof.
  intros H Hs Hb Hq Hl. unfold StartSchedule. rewrite H, Hs, Hb, Hq.
  destruct Hl as [-> | ->]; cbn; apply result_eta.
Qed.

(** Either a check turns the call down and the store is left alone,
    or the store is asked to record the check-in. *)
Lemma StartSchedule_cases id ts loc st :
  (exists e, StartSchedule repo id ts loc st = (st, Err e))
  \/ (exists s,
         GetScheduleByID repo id st = Ok s
         /\ VisitStatus s = "upcoming"
         /\ StartSchedule repo id ts loc st =
              domainSchedule.UpdateSchedule repo id (start_updates ts loc) st).
Proof.
  unfold StartSchedule.
  destruct (GetScheduleByID repo id st) as [s | e]; [| eauto].
  destruct (String.eqb_spec (VisitStatus s) "upcoming") as [Hs | Hs];
    cbn [negb]; [| eauto].
  destruct (Before ts (From (ScheduledSlot_ s))); [eauto |].
  destruct (GetSchedulesInProgressByAssignedUserID repo _ st)
    as [[[| x l] |] | e]; cbn; eauto;
    right; exists s; rewrite result_eta; auto.
Qed.

(** *** EndSchedule *)
Lemma EndSchedule_cases id ts loc tasks st :
  (exists e, EndSchedule repo id ts loc tasks st = (st, Err e))
  \/ (exists s,
         GetScheduleByID repo id st = Ok s
         /\ VisitStatus s = "in_progress"
         /\ let st' := fst (domainSchedule.UpdateSchedule repo id
                              (end_updates ts loc) st) in
            fst (EndSchedule repo id ts loc tasks st) = st'
            \/ fst (EndSchedule repo id ts loc tasks st)
                 = end_task_loop repo tasks st').
Proof.
  unfold EndSchedule.
  destruct (GetScheduleByID repo id st) as [s | e]; [| eauto].
  destruct (String.eqb_spec (VisitStatus s) "in_progress") as [Hs | Hs];
    cbn [negb]; [| eauto].
  right. exists s. split; [reflexivity |]. split; [exact Hs |].
  destruct (domainSchedule.UpdateSchedule repo id (end_updates ts loc) st)
    as [st' [u | e]]; cbn; auto.
Qed.

Lemma EndSchedule_missing id ts loc tasks st e :
  GetScheduleByID repo id st = Err e ->
  EndSchedule repo id ts loc tasks st = (st, Err e).
Proof. intros H. unfold EndSchedule. rewrite H. reflexivity. Qed.

Lemma EndSchedule_wrong_status id ts loc tasks st s :
  GetScheduleByID repo id st = Ok s ->
  VisitStatus s <> "in_progress" ->
  EndSchedule repo id ts loc tasks st =
    (st, Err (AppError "schedule is not in 'in_progress' status"
                ValidationError)).
Proof.
  intros H Hs. unfold EndSchedule. rewrite H.
  rewrite (eqb_string_false _ _ Hs). reflexivity.
Qed.

Lemma EndSchedule_update_fails id ts loc tasks st s st' e :
  GetScheduleByID repo id st = Ok s ->
  VisitStatus s = "in_progress" ->
  domainSchedule.UpdateSchedule repo id (end_updates ts loc) st = (st', Err e) ->
  EndSchedule repo id ts loc tasks st = (st', Err e).
Proof.
  intros H Hs Hu. unfold EndSchedule. rewrite H, Hs, Hu. reflexivity.
Qed.

Lemma EndSchedule_completes id ts loc tasks st s st' updated :
  GetScheduleByID repo id st = Ok s ->
  VisitStatus s = "in_progress" ->
  domainSchedule.UpdateSchedule repo id (end_updates ts loc) st = (st', Ok updated) ->
  EndSchedule repo id ts loc tasks st =
    (end_task_loop repo tasks st', Ok updated).
Proof.
  intros H Hs Hu. unfold EndSchedule. rewrite H, Hs, Hu. reflexivity.
Qed.

Lemma end_task_loop_cons task tasks st :
  end_task_loop repo (task :: tasks) st =
    end_task_loop repo tasks
      (fst (UpdateTask repo (TaskID task) (end_task_updates task) st)).
Proof. reflexivity. Qed.

Lemma end_task_loop_app tasks1 tasks2 st :
  end_task_loop repo (tasks1 ++ tasks2) st =
    end_task_loop repo tasks2 (end_task_loop repo tasks1 st).
Proof. unfold end_task_loop. apply fold_left_app. Qed.

(** *** CreateSchedule *)
Lemma CreateSchedule_no_client rnd s st e :
  domainUser.GetByID urepo (ClientUserID s) st = Err e ->
  CreateSchedule repo urepo rnd s st =
    (st, Err (AppError "client user not found" NotFound)).
Proof. intros H. unfold CreateSchedule. rewrite H. reflexivity. Qed.

Lemma CreateSchedule_no_assignee rnd s st client e :
  domainUser.GetByID urepo (ClientUserID s) st = Ok client ->
  domainUser.GetByID urepo (AssignedUserID s) st = Err e ->
  CreateSchedule repo urepo rnd s st =
    (st, Err (AppError "assigned user not found" NotFound)).
Proof. intros H1 H2. unfold CreateSchedule. rewrite H1, H2. reflexivity. Qed.

Lemma CreateSchedule_creates rnd s st client assignee :
  domainUser.GetByID urepo (ClientUserID s) st = Ok client ->
  domainUser.GetByID urepo (AssignedUserID s) st = Ok assignee ->
  CreateSchedule repo urepo rnd s st =
    Create repo (prepare_schedule rnd s) st.
Proof.
  intros H1 H2. unfold CreateSchedule. rewrite H1, H2. apply result_eta.
Qed.

(** A failed [CreateSchedule] that wrote nothing, or the store's own
    answer to [Create]. *)
Lemma CreateSchedule_cases rnd s st :
  (exists msg,
      CreateSchedule repo urepo rnd s st = (st, Err (AppError msg NotFound)))
  \/ CreateSchedule repo urepo rnd s st =
       Create repo (prepare_schedule rnd s) st.
Proof.
  destruct (domainUser.GetByID urepo (ClientUserID s) st) as [c | e] eqn:H1.
  - destruct (domainUser.GetByID urepo (AssignedUserID s) st) as [a | e] eqn:H2.
    + right. eapply CreateSchedule_creates; eassumption.
    + left. eexists. eapply CreateSchedule_no_assignee; eassumption.
  - left. eexists. eapply CreateSchedule_no_client; eassumption.
Qed.

(** *** UpdateSchedule *)
Lemma UpdateSchedule_checked id updates st s :
  GetScheduleByID repo id st = Ok s ->
  check_client_user urepo updates st = None ->
  check_assigned_user urepo updates st = None ->
  check_visit_status s updates = None ->
  usecase.UpdateSchedule repo urepo id updates st =
    domainSchedule.UpdateSchedule repo id updates st.
Proof.
  intros H H1 H2 H3. unfold usecase.UpdateSchedule.
  rewrite H, H1, H2, H3. apply result_eta.
Qed.

Lemma UpdateSchedule_status_rejected id updates st s e :
  GetScheduleByID repo id st = Ok s ->
  check_client_user urepo updates st = None ->
  check_assigned_user urepo updates st = None ->
  check_visit_status s updates = Some e ->
  usecase.UpdateSchedule repo urepo id updates st = (st, Err e).
Proof.
  intros H H1 H2 H3. unfold usecase.UpdateSchedule.
  rewrite H, H1, H2, H3. reflexivity.
Qed.

(** Whatever the user checks say, a status the third block rejects
    never reaches the store. *)
Lemma UpdateSchedule_status_blocks id updates st s e :
  GetScheduleByID repo id st = Ok s ->
  check_visit_status s updates = Some e ->
  exists e', usecase.UpdateSchedule repo urepo id updates st = (st, Err e').
Proof.
  intros H H3. unfold usecase.UpdateSchedule. rewrite H, H3.
  destruct (check_client_user urepo updates st); [eauto |].
  destruct (check_assigned_user urepo updates st); eauto.
Qed.

Lemma UpdateSchedule_cases id updates st :
  (exists e, usecase.UpdateSchedule repo urepo id updates st = (st, Err e))
  \/ (exists s,
         GetScheduleByID repo id st = Ok s
         /\ check_visit_status s updates = None
         /\ usecase.UpdateSchedule repo urepo id updates st =
              domainSchedule.UpdateSchedule repo id updates st).
Proof.
  unfold usecase.UpdateSchedule.
  destruct (GetScheduleByID repo id st) as [s | e]; [| eauto].
  destruct (check_client_user urepo updates st); [eauto |].
  destruct (check_assigned_user urepo updates st); [eauto |].
  destruct (check_visit_status s updates) eqn:Hv; [eauto |].
  right. exists s. rewrite result_eta. auto.
Qed.

(** The type assertion decides alone whether a user is looked up. *)
Lemma check_client_user_skipped updates st :
  as_UUID (updates !! "client_user_id") = None ->
  check_client_user urepo updates st = None.
Proof. intros H. unfold check_client_user. rewrite H. reflexivity. Qed.

Lemma check_assigned_user_skipped updates st :
  as_UUID (updates !! "assigned_user_id") = None ->
  check_assigned_user urepo updates st = None.
Proof. intros H. unfold check_assigned_user. rewrite H. reflexivity. Qed.

Lemma check_visit_status_skipped s updates :
  as_string (updates !! "visit_status") = None ->
  check_visit_status s updates = None.
Proof. intros H. unfold check_visit_status. rewrite H. reflexivity. Qed.

End Facts.
End usecase_facts.

(** ** The gorm-backed store *)
Module psql_facts.
Import psql.

Ltac bind_step H :=
  match type of H with
  | (match ?o with Some _ => _ | None => _ end) = Some _ =>
      let E := fresh "E" in destruct o eqn:E; [| discriminate H]
  | (?o ≫= _) = Some _ =>
      let E := fresh "E" in destruct o eqn:E; [| discriminate H]; cbn [mbind option_bind] in H
  end.

(** What a successful [Updates] on a schedule row amounts to, column
    by column. *)
Lemma update_schedule_row_Some conn updates row row' :
  update_schedule_row conn updates row = Some row' ->
  assign (to_uuid conn) "id" "ID" updates (ID row) = Some (ID row')
  /\ Tasks row' = Tasks row
  /\ assign to_time "created_at" "CreatedAt" updates (CreatedAt row)
       = Some (CreatedAt row')
  /\ assign to_string "visit_status" "VisitStatus" updates (VisitStatus row)
       = Some (VisitStatus row')
  /\ assign to_time "scheduled_slot_from" "ScheduledSlotFrom" updates
       (ScheduledSlotFrom row) = Some (ScheduledSlotFrom row')
  /\ assign to_time "scheduled_slot_to" "ScheduledSlotTo" updates
       (ScheduledSlotTo row) = Some (ScheduledSlotTo row')
  /\ assign to_time_null "checkin_time" "CheckinTime" updates
       (CheckinTime row) = Some (CheckinTime row')
  /\ assign to_float_null "checkin_location_lat" "CheckinLocationLat" updates
       (CheckinLocationLat row) = Some (CheckinLocationLat row')
  /\ assign to_float_null "checkin_location_long" "CheckinLocationLong"
       updates (CheckinLocationLong row) = Some (CheckinLocationLong row')
  /\ assign to_time_null "checkout_time" "CheckoutTime" updates
       (CheckoutTime row) = Some (CheckoutTime row')
  /\ assign to_float_null "checkout_location_lat" "CheckoutLocationLat"
       updates (CheckoutLocationLat row) = Some (CheckoutLocationLat row')
  /\ assign to_float_null "checkout_location_long" "CheckoutLocationLong"
       updates (CheckoutLocationLong row) = Some (CheckoutLocationLong row').
Proof.
  unfold update_schedule_row. intros H.
  case_bool_decide; [| discriminate H].
  repeat bind_step H.
  injection H as <-. cbn. repeat split; assumption || reflexivity.
Qed.

Lemma assign_indep {A} (conv : Value -> option A) a b updates old1 old2 v :
  assign conv a b updates old1 = Some v ->
  is_Some (assign conv a b updates old2).
Proof.
  unfold assign. destruct (updates !! a), (updates !! b); intros H; eauto.
Qed.

Lemma assign_absent {A} (conv : Value -> option A) a b updates old :
  updates !! a = None -> updates !! b = None ->
  assign conv a b updates old = Some old.
Proof. intros Ha Hb. unfold assign. rewrite Ha, Hb. reflexivity. Qed.

Lemma assign_by_column {A} (conv : Value -> option A) a b updates old v :
  updates !! a = Some v -> updates !! b = None ->
  assign conv a b updates old = conv v.
Proof. intros Ha Hb. unfold assign. rewrite Ha, Hb. reflexivity. Qed.

(** Whether [Updates] succeeds depends on the field map, not on the
    row it rewrites. *)
Lemma update_schedule_row_indep conn updates row1 row2 row1' :
  update_schedule_row conn updates row1 = Some row1' ->
  is_Some (update_schedule_row conn updates row2).
Proof.
  unfold update_schedule_row. intros H.
  case_bool_decide; [| discriminate H].
  repeat bind_step H.
  repeat match goal with
         | E : assign ?c ?a ?b ?u _ = Some _
           |- context [assign ?c ?a ?b ?u ?o2] =>
             destruct (assign_indep c a b u _ o2 _ E) as [? ->]; clear E;
             cbn [mbind option_bind]
         end.
  eauto.
Qed.

Lemma update_task_row_indep conn updates row1 row2 row1' :
  update_task_row conn updates row1 = Some row1' ->
  is_Some (update_task_row conn updates row2).
Proof.
  unfold update_task_row. intros H.
  case_bool_decide; [| discriminate H].
  repeat bind_step H.
  repeat match goal with
         | E : assign ?c ?a ?b ?u _ = Some _
           |- context [assign ?c ?a ?b ?u ?o2] =>
             destruct (assign_indep c a b u _ o2 _ E) as [? ->]; clear E;
             cbn [mbind option_bind]
         end.
  eauto.
Qed.

Lemma find_map_same {A} (p : A -> bool) (f : A -> A) (l : list A) :
  (forall x, p (f x) = p x) ->
  List.find p (map f l) = option_map f (List.find p l).
Proof.
  intros Hp. induction l as [| x l IH]; [reflexivity |].
  cbn. rewrite Hp. destruct (p x); [reflexivity | exact IH].
Qed.

(** *** The primary key under [Updates] *)

(** A field map that does not name the id leaves it as it is. *)
Lemma update_schedule_row_ID conn updates row row' :
  field_map.keeps_id updates ->
  update_schedule_row conn updates row = Some row' ->
  ID row' = ID row.
Proof.
  intros [Ha Hb] H. apply update_schedule_row_Some in H as [H _].
  rewrite assign_absent in H by assumption. congruence.
Qed.

Lemma update_schedule_row_CreatedAt conn updates row row' :
  field_map.keeps_created_at updates ->
  update_schedule_row conn updates row = Some row' ->
  CreatedAt row' = CreatedAt row.
Proof.
  intros [Ha Hb] H. apply update_schedule_row_Some in H as (_ & _ & H & _).
  rewrite assign_absent in H by assumption. congruence.
Qed.

(** The id a row gets depends on the field map and on the id it had. *)
Lemma update_schedule_row_new_id conn updates row1 row2 row1' row2' :
  update_schedule_row conn updates row1 = Some row1' ->
  update_schedule_row conn updates row2 = Some row2' ->
  ID row1 = ID row2 ->
  ID row1' = ID row2'.
Proof.
  intros H1 H2 Hid.
  apply update_schedule_row_Some in H1 as [H1 _].
  apply update_schedule_row_Some in H2 as [H2 _].
  rewrite Hid in H1. congruence.
Qed.

Lemma update_task_row_ID conn updates row row' :
  field_map.keeps_id updates ->
  update_task_row conn updates row = Some row' ->
  TaskID row' = TaskID row.
Proof.
  intros [Ha Hb] H. unfold update_task_row in H.
  case_bool_decide; [| discriminate H].
  repeat bind_step H. injection H as <-. cbn.
  rewrite assign_absent in E by assumption. congruence.
Qed.

Lemma rewrite_schedule_ID conn id updates row :
  field_map.keeps_id updates ->
  ID (rewrite_schedule conn id updates row) = ID row.
Proof.
  intros Hk. unfold rewrite_schedule. destruct (ID row =? id); [| reflexivity].
  destruct (update_schedule_row conn updates row) as [row' |] eqn:E;
    [| reflexivity].
  cbn. eapply update_schedule_row_ID; eassumption.
Qed.

Lemma rewrite_task_ID conn id updates row :
  field_map.keeps_id updates ->
  TaskID (rewrite_task conn id updates row) = TaskID row.
Proof.
  intros Hk. unfold rewrite_task. destruct (TaskID row =? id); [| reflexivity].
  destruct (update_task_row conn updates row) as [row' |] eqn:E;
    [| reflexivity].
  cbn. eapply update_task_row_ID; eassumption.
Qed.

(** Saving the preloaded tasks of a schedule that kept its id changes
    nothing. *)
Lemma save_preloaded_same id db : save_preloaded id id db = db.
Proof.
  unfold save_preloaded, with_tasks. destruct db as [ss ts us]. cbn. f_equal.
  induction ts as [| t ts IH]; [reflexivity |].
  cbn. rewrite IH. f_equal.
  destruct (Z.eqb_spec (ScheduleID t) id) as [<- |]; [| reflexivity].
  destruct t; reflexivity.
Qed.

Lemma save_preloaded_schedules id new db :
  schedules (save_preloaded id new db) = schedules db
  /\ users (save_preloaded id new db) = users db.
Proof. split; reflexivity. Qed.

Lemma preload_keeps_ID db row : ID (preload db row) = ID row.
Proof. reflexivity. Qed.

(** A row that keeps its id takes the id of no other row. *)
Lemma schedule_id_kept id db : schedule_id_taken id id db = false.
Proof. unfold schedule_id_taken. rewrite Z.eqb_refl. reflexivity. Qed.

Lemma task_id_kept id db : task_id_taken id id db = false.
Proof. unfold task_id_taken. rewrite Z.eqb_refl. reflexivity. Qed.

(** The field maps of the use case do not name the id. *)
Lemma start_updates_keep_id ts loc :
  field_map.keeps_id (usecase.start_updates ts loc).
Proof. split; reflexivity. Qed.

Lemma end_updates_keep_id ts loc :
  field_map.keeps_id (usecase.end_updates ts loc).
Proof. split; reflexivity. Qed.

Lemma end_task_updates_keep_id task :
  field_map.keeps_id (usecase.end_task_updates task).
Proof. split; reflexivity. Qed.

Lemma task_status_updates_keep_id status done feedback :
  field_map.keeps_id (usecase.task_status_updates status done feedback).
Proof. split; reflexivity. Qed.

(** *** Reads *)
Lemma First_schedule_Success conn stmt id db s :
  First_schedule conn stmt id db = Success s ->
  exists row,
    List.find (fun row => ID row =? id) (schedules db) = Some row
    /\ ID row = id /\ s = preload db row.
Proof.
  unfold First_schedule. destruct (Fails conn stmt); [discriminate |].
  destruct (List.find _ _) as [row |] eqn:E; [| discriminate].
  intros [= <-]. exists row. repeat split.
  apply find_some in E as [_ E]. apply Z.eqb_eq in E. exact E.
Qed.

Lemma GetScheduleByID_Ok conn id db s :
  GetScheduleByID conn id db = Ok s ->
  exists row,
    List.find (fun row => ID row =? id) (schedules db) = Some row
    /\ ID row = id /\ s = toDomainMapper (preload db row).
Proof.
  unfold GetScheduleByID.
  destruct (First_schedule conn (SelectSchedule id) id db) as [m | e] eqn:E.
  - intros [= <-]. apply First_schedule_Success in E as (row & ? & ? & ->).
    eauto.
  - destruct e; discriminate.
Qed.

Lemma GetScheduleByID_missing conn id db :
  Fails conn (SelectSchedule id) = None ->
  List.find (fun row => ID row =? id) (schedules db) = None ->
  GetScheduleByID conn id db = Err (AppErrorWithType NotFound).
Proof.
  intros Hf Hm. unfold GetScheduleByID, First_schedule.
  rewrite Hf, Hm. reflexivity.
Qed.

Lemma GetScheduleByID_Err conn id db e :
  GetScheduleByID conn id db = Err e ->
  e = AppErrorWithType NotFound \/ e = AppErrorWithType UnknownError.
Proof.
  unfold GetScheduleByID.
  destruct (First_schedule _ _ _ _) as [m | []]; intros [= <-]; auto.
Qed.

Lemma raw_from_store e : from_store (raw e).
Proof. intros msg ty. destruct e; discriminate. Qed.

Lemma write_error_from_store e : from_store (write_error e).
Proof.
  intros msg ty. destruct e as [| | [m [n |]]]; try discriminate.
  cbn. destruct n as [| p | p]; try discriminate.
  repeat (destruct p as [p | p |]; try discriminate).
Qed.

Ltac store_error :=
  first [ apply write_error_from_store
        | apply raw_from_store
        | intros ? ?; cbv; discriminate ].

Lemma GetScheduleByID_from_store conn id db e :
  GetScheduleByID conn id db = Err e -> from_store e.
Proof.
  unfold GetScheduleByID.
  destruct (First_schedule _ _ _ _) as [m | []]; intros [= <-];
    intros msg ty; discriminate.
Qed.

Lemma GetSchedulesInProgress_from_store conn uid db e :
  GetSchedulesInProgressByAssignedUserID conn uid db = Err e -> from_store e.
Proof.
  unfold GetSchedulesInProgressByAssignedUserID.
  destruct (Fails _ _); intros [= <-]. intros msg ty; discriminate.
Qed.

(** *** Writes *)

(** Rows that do not have the id are not rewritten; rows that have it
    all get the new id. *)
Lemma rewrite_schedule_other conn id updates row :
  ID row <> id -> rewrite_schedule conn id updates row = row.
Proof.
  intros H. unfold rewrite_schedule.
  destruct (Z.eqb_spec (ID row) id); [contradiction | reflexivity].
Qed.

Lemma rewrite_schedule_same conn id updates row row0 row0' :
  update_schedule_row conn updates row0 = Some row0' ->
  ID row0 = id -> ID row = id ->
  exists row',
    update_schedule_row conn updates row = Some row'
    /\ rewrite_schedule conn id updates row = row'
    /\ ID row' = ID row0'.
Proof.
  intros H0 Hid0 Hid.
  destruct (update_schedule_row_indep _ _ _ row _ H0) as [row' Hrow'].
  exists row'. split; [exact Hrow' |]. split.
  - unfold rewrite_schedule. rewrite Hid, Z.eqb_refl, Hrow'. reflexivity.
  - eapply update_schedule_row_new_id; [exact Hrow' | exact H0 | congruence].
Qed.

(** Looking a schedule up by an id [j] after the rows with the id [id]
    were rewritten, when the id they got is not [j], unless [j] is [id]. *)
Lemma find_rewritten conn id updates row0 row0' l j :
  update_schedule_row conn updates row0 = Some row0' ->
  ID row0 = id ->
  (ID row0' = j -> j = id) ->
  List.find (fun row => ID row =? j) (map (rewrite_schedule conn id updates) l)
  = if j =? id
    then if ID row0' =? id
         then option_map (rewrite_schedule conn id updates)
                (List.find (fun row => ID row =? j) l)
         else None
    else List.find (fun row => ID row =? j) l.
Proof.
  intros H0 Hid0 Hnew.
  induction l as [| x l IH].
  { cbn. destruct (j =? id), (ID row0' =? id); reflexivity. }
  cbn [map List.find]. rewrite IH. clear IH.
  destruct (Z.eqb_spec (ID x) id) as [Hx | Hx].
  - destruct (rewrite_schedule_same _ _ _ x _ _ H0 Hid0 Hx)
      as (x' & _ & Hrw & Hx').
    rewrite Hrw, Hx'.
    destruct (Z.eqb_spec j id) as [Hj | Hj].
    + subst j. rewrite Hx.
      destruct (Z.eqb_spec (ID row0') id) as [Hn | Hn].
      * rewrite Z.eqb_refl. cbn. rewrite Hrw. reflexivity.
      * reflexivity.
    + destruct (Z.eqb_spec (ID row0') j) as [Hn | Hn].
      * exfalso. apply Hj. apply Hnew. exact Hn.
      * rewrite Hx. destruct (Z.eqb_spec id j); [congruence | reflexivity].
  - rewrite rewrite_schedule_other by exact Hx.
    destruct (Z.eqb_spec (ID x) j) as [Hxj | Hxj]; [| reflexivity].
    destruct (Z.eqb_spec j id) as [Hj | Hj]; [congruence | reflexivity].
Qed.

(** What [UpdateSchedule] of the repository does, for any field map. *)
Lemma UpdateSchedule_any conn id updates db db' r :
  UpdateSchedule conn id updates db = (db', r) ->
  (db' = db /\ exists e, r = Err e /\ from_store e)
  \/ (exists row row',
         List.find (fun row => ID row =? id) (schedules db) = Some row
         /\ update_schedule_row conn updates row = Some row'
         /\ schedule_id_taken id (ID row') db = false
         /\ db' = save_preloaded id (ID row') (rewritten conn id updates db)
         /\ match r with
            | Ok s =>
                ID row' = id
                /\ List.find (fun row => ID row =? id) (schedules db')
                   = Some row'
                /\ s = toDomainMapper (preload db' row')
            | Err e => from_store e
            end).
Proof.
  unfold UpdateSchedule.
  destruct (First_schedule conn (SelectSchedule id) id db) as [obj | e] eqn:E1.
  - apply First_schedule_Success in E1 as (row & Hrow & Hid & ->).
    unfold Updates_schedule. cbn [preload set_Tasks ID]. rewrite Hid.
    destruct (id =? Nil).
    { intros [= <- <-]. left. split; [reflexivity |]. eexists. split;
        [reflexivity | store_error]. }
    destruct (Fails conn (UpdateScheduleRow id)) as [d |].
    { intros [= <- <-]. left. split; [reflexivity |]. eexists. split;
        [reflexivity | apply (write_error_from_store (ErrDriver d))]. }
    destruct (update_schedule_row conn updates _) as [r0 |] eqn:E2.
    2:{ intros [= <- <-]. left. split; [reflexivity |]. eexists. split;
        [reflexivity | store_error]. }
    destruct (update_schedule_row_indep _ _ _ row _ E2) as [row' Hrow'].
    assert (Hnew : ID r0 = ID row')
      by (eapply update_schedule_row_new_id; [exact E2 | exact Hrow' |];
          reflexivity).
    rewrite Hnew.
    destruct (schedule_id_taken id (ID row') db) eqn:Htaken.
    { intros [= <- <-]. left. split; [reflexivity |]. eexists. split;
        [reflexivity | store_error]. }
    assert (Hfind :
      List.find (fun row => ID row =? id)
        (schedules (save_preloaded id (ID row') (rewritten conn id updates db)))
      = if ID row' =? id then Some row' else None).
    { cbn [save_preloaded with_tasks schedules rewritten with_schedules].
      rewrite (find_rewritten conn id updates row row') by auto.
      rewrite Z.eqb_refl, Hrow.
      destruct (ID row' =? id); [| reflexivity].
      cbn. unfold rewrite_schedule. rewrite Hid, Z.eqb_refl, Hrow'. reflexivity. }
    unfold First_schedule. rewrite Hfind.
    destruct (Fails conn (ReloadSchedule id)).
    { intros [= <- <-]. right. exists row, row'.
      repeat split; try assumption. apply (raw_from_store (ErrDriver _)). }
    destruct (Z.eqb_spec (ID row') id) as [Hsame | Hdiff].
    + intros [= <- <-]. right. exists row, row'.
      split; [exact Hrow |]. split; [exact Hrow' |]. split; [exact Htaken |].
      split; [reflexivity |]. split; [exact Hsame |]. split; [| reflexivity].
      exact Hfind.
    + intros [= <- <-]. right. exists row, row'.
      repeat split; try assumption. apply (raw_from_store ErrRecordNotFound).
  - destruct e; intros [= <- <-]; left; (split; [reflexivity |]);
      eexists; (split; [reflexivity |]); intros msg ty; discriminate.
Qed.

(** The same for a field map that does not name the id. *)
Lemma UpdateSchedule_effect conn id updates db db' r :
  field_map.keeps_id updates ->
  UpdateSchedule conn id updates db = (db', r) ->
  (db' = db /\ exists e, r = Err e /\ from_store e)
  \/ (db' = rewritten conn id updates db
      /\ (exists row row',
             List.find (fun row => ID row =? id) (schedules db) = Some row
             /\ update_schedule_row conn updates row = Some row'
             /\ List.find (fun row => ID row =? id) (schedules db')
                = Some row'
             /\ match r with
                | Ok s => s = toDomainMapper (preload db' row')
                | Err e => from_store e
                end)).
Proof.
  intros Hk H.
  apply UpdateSchedule_any in H
    as [H | (row & row' & Hrow & Hup & _ & Hdb & Hr)]; [left; exact H |].
  assert (Hid : ID row' = id).
  { rewrite (update_schedule_row_ID _ _ _ _ Hk Hup).
    apply find_some in Hrow as [_ Hrow]. apply Z.eqb_eq in Hrow. exact Hrow. }
  rewrite Hid, save_preloaded_same in Hdb. right. split; [exact Hdb |].
  exists row, row'. split; [exact Hrow |]. split; [exact Hup |]. split.
  - rewrite Hdb. cbn.
    rewrite find_map_same
      by (intros x; now rewrite rewrite_schedule_ID by exact Hk).
    rewrite Hrow. cbn. unfold rewrite_schedule.
    apply find_some in Hrow as [_ Hrow]. rewrite Hrow, Hup. reflexivity.
  - destruct r as [s | e]; [| exact Hr]. tauto.
Qed.

Lemma UpdateSchedule_from_store conn id updates db db' e :
  UpdateSchedule conn id updates db = (db', Err e) -> from_store e.
Proof.
  intros H. apply UpdateSchedule_any in H as [[_ (e' & [= <-] & He)] | H].
  - exact He.
  - destruct H as (row & row' & _ & _ & _ & _ & He). exact He.
Qed.

(** A successful [UpdateSchedule] has kept the id, whatever the field
    map: the schedule is read again under the id of the call. *)
Lemma UpdateSchedule_Ok conn id updates db db' s :
  UpdateSchedule conn id updates db = (db', Ok s) ->
  db' = rewritten conn id updates db
  /\ exists row row',
       List.find (fun row => ID row =? id) (schedules db) = Some row
       /\ update_schedule_row conn updates row = Some row'
       /\ List.find (fun row => ID row =? id) (schedules db') = Some row'
       /\ s = toDomainMapper (preload db' row').
Proof.
  intros H. apply UpdateSchedule_any in H as [[_ (e' & [=] & _)] | H].
  destruct H as (row & row' & Hrow & Hup & _ & Hdb & Hid & Hfind & ->).
  rewrite Hid, save_preloaded_same in Hdb. split; [exact Hdb |].
  exists row, row'. repeat split; assumption.
Qed.

(** Updating a task leaves the schedules and the users alone. *)
Lemma UpdateTask_schedules conn id updates db :
  schedules (fst (UpdateTask conn id updates db)) = schedules db
  /\ users (fst (UpdateTask conn id updates db)) = users db.
Proof.
  unfold UpdateTask, Updates_task. cbn [TaskID].
  destruct (id =? Nil); [split; reflexivity |].
  destruct (Fails conn (UpdateTaskRow id)); [split; reflexivity |].
  destruct (update_task_row conn updates _); [| split; reflexivity].
  destruct (task_id_taken _ _ _); [split; reflexivity |].
  destruct (First_task conn id _); split; reflexivity.
Qed.

End psql_facts.

(** ** Precondition failures write nothing *)
Module fail_fast_facts.
Import domainSchedule fail_fast.

Lemma fails_type conn db m e :
  fails conn db m e ->
  error_type e = Some NotFound \/ error_type e = Some ValidationError.
Proof. destruct 1; cbn; auto. Qed.

End fail_fast_facts.


(** C5. A mutation of the engine whose precondition fails (creation with
    a missing client or assigned user; start of a missing schedule, of a
    schedule that is not upcoming, before the slot begins, or while the
    assignee has a visit in progress; end of a schedule that is not in
    progress) returns that NotFound or ValidationError error and leaves
    every table of the store as it was: no schedule is created, none is
    modified, and the check-in and check-out fields stay as they were. *)
Theorem precondition_failure_writes_nothing
    (conn : psql.Conn) (db : psql.Tables) (m : fail_fast.Mutation) (e : error) :
  fail_fast.fails conn db m e ->
  fail_fast.run conn m db = (db, Err e)
  /\ (error_type e = Some NotFound \/ error_type e = Some ValidationError).
Proof.
  intros H. split; [| eapply fail_fast_facts.fails_type; exact H].
  destruct H; cbn [fail_fast.run].
  - eapply usecase_facts.CreateSchedule_no_client. eassumption.
  - destruct (psql.GetByID conn (domainSchedule.ClientUserID s) db) eqn:E;
      [| discriminate].
    eapply usecase_facts.CreateSchedule_no_assignee; eassumption.
  - apply usecase_facts.StartSchedule_missing.
    apply psql_facts.GetScheduleByID_missing; assumption.
  - eapply usecase_facts.StartSchedule_wrong_status; eassumption.
  - eapply usecase_facts.StartSchedule_early; try eassumption.
    apply Z.ltb_lt. assumption.
  - eapply usecase_facts.StartSchedule_occupied; try eassumption.
    apply Z.ltb_ge. assumption.
  - eapply usecase_facts.EndSchedule_wrong_status; eassumption.
Qed.

Lemma precondition_failure_writes_nothing_witness :
  fail_fast.run sample.conn (fail_fast.Ending 10 1800 sample.here []) sample.db
  = (sample.db,
     Err (AppError "schedule is not in 'in_progress' status" ValidationError))
  /\ (error_type
        (AppError "schedule is not in 'in_progress' status" ValidationError)
      = Some NotFound
      \/ error_type
           (AppError "schedule is not in 'in_progress' status" ValidationError)
         = Some ValidationError).
Proof.
  apply (precondition_failure_writes_nothing sample.conn sample.db
           (fail_fast.Ending 10 1800 sample.here [])).
  eapply fail_fast.end_wrong_status.
  - vm_compute. reflexivity.
  - vm_compute. discriminate.
Defined.


(** ** Starting a visit *)
Module start_facts.
Import domainSchedule start.

(** What [StartSchedule] does once the status and the time have been
    accepted. *)
Lemma after_time_check conn db id ts loc s :
  psql.GetScheduleByID conn id db = Ok s ->
  VisitStatus s = "upcoming" ->
  From (ScheduledSlot_ s) <= ts ->
  match psql.GetSchedulesInProgressByAssignedUserID conn
          (AssignedUserID s) db with
  | Err e => di.StartSchedule conn id ts loc db = (db, Err e)
  | Ok (Some (_ :: _)) => di.StartSchedule conn id ts loc db = (db, Err occupied)
  | Ok _ =>
      di.StartSchedule conn id ts loc db =
        psql.UpdateSchedule conn id (usecase.start_updates ts loc) db
  end.
Proof.
  intros Hs Hu Ht. apply Z.ltb_ge in Ht.
  destruct (psql.GetSchedulesInProgressByAssignedUserID conn
              (AssignedUserID s) db) as [[[| x l] |] | e] eqn:Hq.
  - eapply usecase_facts.StartSchedule_free; try eassumption. auto.
  - eapply usecase_facts.StartSchedule_occupied; try eassumption. discriminate.
  - eapply usecase_facts.StartSchedule_free; try eassumption. auto.
  - eapply usecase_facts.StartSchedule_query_fails; eassumption.
Qed.

(** The row the check-in leaves behind. *)
Lemma start_updates_row conn ts loc row row' :
  psql.update_schedule_row conn (usecase.start_updates ts loc) row = Some row' ->
  psql.VisitStatus row' = "in_progress"
  /\ psql.CheckinTime row' = Some ts
  /\ psql.CheckinLocationLat row' = Lat loc
  /\ psql.CheckinLocationLong row' = Long loc.
Proof.
  intros H. apply psql_facts.update_schedule_row_Some in H.
  destruct H as (_ & _ & _ & Hv & _ & _ & Ht & Hlat & Hlong & _).
  change (Some "in_progress" = Some (psql.VisitStatus row')) in Hv.
  change (Some (Some ts) = Some (psql.CheckinTime row')) in Ht.
  change (Some (Lat loc) = Some (psql.CheckinLocationLat row')) in Hlat.
  change (Some (Long loc) = Some (psql.CheckinLocationLong row')) in Hlong.
  repeat split; congruence.
Qed.

Lemma start_updates_accepted conn ts loc row :
  is_Some (psql.update_schedule_row conn (usecase.start_updates ts loc) row).
Proof. vm_compute. eauto. Qed.

End start_facts.

(** C7. For an existing upcoming schedule, [StartSchedule] answers with
    the ValidationError "cannot start schedule before the scheduled start
    time" exactly when the timestamp is strictly before scheduledSlot.from.
    From scheduledSlot.from on, also after scheduledSlot.to, the
    timestamp is accepted: what follows is the occupancy query and the
    update of the store, and the end of the slot is never looked at. *)
Theorem StartSchedule_lower_bound_only
    (conn : psql.Conn) (db : psql.Tables) (id : UUID) (ts : Time)
    (loc : domainSchedule.Location) (s : domainSchedule.Schedule) :
  psql.GetScheduleByID conn id db = Ok s ->
  domainSchedule.VisitStatus s = "upcoming" ->
  (di.StartSchedule conn id ts loc db = (db, Err start.early)
   <-> ts < domainSchedule.From (domainSchedule.ScheduledSlot_ s))
  /\ (domainSchedule.From (domainSchedule.ScheduledSlot_ s) <= ts ->
      match psql.GetSchedulesInProgressByAssignedUserID conn
              (domainSchedule.AssignedUserID s) db with
      | Err e => di.StartSchedule conn id ts loc db = (db, Err e)
      | Ok (Some (_ :: _)) =>
          di.StartSchedule conn id ts loc db = (db, Err start.occupied)
      | Ok _ =>
          di.StartSchedule conn id ts loc db =
            psql.UpdateSchedule conn id (usecase.start_updates ts loc) db
      end).
Proof.
  intros Hs Hu. split; [| apply start_facts.after_time_check; assumption].
  split.
  - intros H.
    destruct (Z.lt_ge_cases ts
                (domainSchedule.From (domainSchedule.ScheduledSlot_ s)))
      as [Hlt | Hge]; [exact Hlt | exfalso].
    pose proof (start_facts.after_time_check conn db id ts loc s Hs Hu Hge) as Hc.
    destruct (psql.GetSchedulesInProgressByAssignedUserID conn
                (domainSchedule.AssignedUserID s) db) as [[[| x l] |] | e] eqn:Hq.
    + rewrite Hc in H. apply psql_facts.UpdateSchedule_from_store in H.
      eapply H. reflexivity.
    + rewrite Hc in H. discriminate H.
    + rewrite Hc in H. apply psql_facts.UpdateSchedule_from_store in H.
      eapply H. reflexivity.
    + rewrite Hc in H. injection H as ->.
      apply psql_facts.GetSchedulesInProgress_from_store in Hq.
      eapply Hq. reflexivity.
  - intros Hlt. eapply usecase_facts.StartSchedule_early; try eassumption.
    apply Z.ltb_lt. exact Hlt.
Qed.

(** Schedule 10 of the sample runs from 1000 to 2000; a start at 99999 is
    accepted. *)
Lemma StartSchedule_lower_bound_only_witness :
  (di.StartSchedule sample.conn 10 99999 sample.here sample.db
     = (sample.db, Err start.early)
   <-> 99999 < 1000)
  /\ (1000 <= 99999 ->
      di.StartSchedule sample.conn 10 99999 sample.here sample.db =
        psql.UpdateSchedule sample.conn 10
          (usecase.start_updates 99999 sample.here) sample.db).
Proof.
  exact (StartSchedule_lower_bound_only sample.conn sample.db 10 99999
           sample.here
           (psql.toDomainMapper (psql.preload sample.db (sample.row 10 2 "upcoming")))
           eq_refl eq_refl).
Defined.

(** C3. An upcoming schedule is started at a timestamp not before its
    slot begins. If the store reports a schedule in progress for its
    assignee, [StartSchedule] fails with the ValidationError "another
    schedule is already in progress for this user" and nothing is
    written. If the store reports none and its update succeeds,
    [StartSchedule] succeeds with the updated schedule, whose visitStatus
    is "in_progress", whose checkinTime is the timestamp and whose
    checkinLocation is the location; the store holds that schedule. *)
Theorem StartSchedule_single_occupancy
    (conn : psql.Conn) (db : psql.Tables) (id : UUID) (ts : Time)
    (loc : domainSchedule.Location) (s : domainSchedule.Schedule)
    (busy : list domainSchedule.Schedule) :
  psql.GetScheduleByID conn id db = Ok s ->
  domainSchedule.VisitStatus s = "upcoming" ->
  domainSchedule.From (domainSchedule.ScheduledSlot_ s) <= ts ->
  psql.GetSchedulesInProgressByAssignedUserID conn
    (domainSchedule.AssignedUserID s) db = Ok (Some busy) ->
  (busy <> [] ->
   di.StartSchedule conn id ts loc db = (db, Err start.occupied))
  /\ (busy = [] ->
      forall db' updated,
        psql.UpdateSchedule conn id (usecase.start_updates ts loc) db
          = (db', Ok updated) ->
        di.StartSchedule conn id ts loc db = (db', Ok updated)
        /\ domainSchedule.VisitStatus updated = "in_progress"
        /\ domainSchedule.CheckinTime updated = Some ts
        /\ domainSchedule.CheckinLocation updated = loc
        /\ psql.GetScheduleByID conn id db' = Ok updated).
Proof.
  intros Hs Hu Ht Hq.
  pose proof (start_facts.after_time_check conn db id ts loc s Hs Hu Ht) as Hc.
  rewrite Hq in Hc. split.
  - intros Hb. destruct busy; [congruence | exact Hc].
  - intros -> db' updated Hup. split; [congruence |].
    apply psql_facts.UpdateSchedule_Ok in Hup
      as (-> & row & row' & Hrow & Hrow' & Hfind & ->).
    apply start_facts.start_updates_row in Hrow' as (Hv & Hci & Hlat & Hlong).
    repeat split.
    + exact Hv.
    + exact Hci.
    + cbn. rewrite Hlat, Hlong. destruct loc; reflexivity.
    + unfold psql.GetScheduleByID, psql.First_schedule in Hs |- *.
      destruct (psql.Fails conn (psql.SelectSchedule id)); [discriminate Hs |].
      rewrite Hfind. reflexivity.
Qed.

(** Schedule 10 of the sample is upcoming and its assignee, caregiver 2,
    has no visit in progress. *)
Lemma StartSchedule_single_occupancy_witness :
  exists db' updated,
    di.StartSchedule sample.conn 10 1500 sample.here sample.db = (db', Ok updated)
    /\ domainSchedule.VisitStatus updated = "in_progress"
    /\ domainSchedule.CheckinTime updated = Some 1500
    /\ domainSchedule.CheckinLocation updated = sample.here
    /\ psql.GetScheduleByID sample.conn 10 db' = Ok updated.
Proof.
  eexists. eexists.
  refine (proj2 (StartSchedule_single_occupancy sample.conn sample.db 10 1500
                   sample.here _ [] _ _ _ _) eq_refl _ _ _).
  - vm_compute. reflexivity.
  - vm_compute. reflexivity.
  - vm_compute. discriminate.
  - vm_compute. reflexivity.
  - vm_compute. reflexivity.
Defined.


(** ** Ending a visit *)
Module end_facts.
Import domainSchedule.

Lemma end_task_loop_schedules conn tasks db :
  psql.schedules (usecase.end_task_loop (psql.NewScheduleRepository conn) tasks db)
  = psql.schedules db.
Proof.
  revert db. induction tasks as [| task tasks IH]; intros db; [reflexivity |].
  rewrite usecase_facts.end_task_loop_cons, IH.
  apply psql_facts.UpdateTask_schedules.
Qed.

Lemma end_updates_row conn ts loc row row' :
  psql.update_schedule_row conn (usecase.end_updates ts loc) row = Some row' ->
  psql.VisitStatus row' = "completed"
  /\ psql.CheckoutTime row' = Some ts
  /\ psql.CheckoutLocationLat row' = Lat loc
  /\ psql.CheckoutLocationLong row' = Long loc.
Proof.
  intros H. apply psql_facts.update_schedule_row_Some in H.
  destruct H as (_ & _ & _ & Hv & _ & _ & _ & _ & _ & Ht & Hlat & Hlong).
  change (Some "completed" = Some (psql.VisitStatus row')) in Hv.
  change (Some (Some ts) = Some (psql.CheckoutTime row')) in Ht.
  change (Some (Lat loc) = Some (psql.CheckoutLocationLat row')) in Hlat.
  change (Some (Long loc) = Some (psql.CheckoutLocationLong row')) in Hlong.
  repeat split; congruence.
Qed.

(** In the sample, task 99 does not exist: its update fails, and the
    update of task 20, which comes after it, is applied all the same. *)
Example failing_task_update :
  snd (psql.UpdateTask sample.conn 99
         (usecase.end_task_updates (mkTask 99 11 "" "" "lost" None None 0 0))
         sample.db)
  = Err (OtherError "record not found").
Proof. vm_compute. reflexivity. Qed.

End end_facts.

(** C6. [EndSchedule] on a schedule in progress, once the store has
    recorded the completion: whatever the updates of the tasks do, each of
    them is sent to the store in turn, a failing one stops none of those
    after it, the schedules table stays as the completion left it (the
    schedule reads back as "completed"), and the caller gets the updated
    schedule and no error. *)
Theorem EndSchedule_ignores_task_failures
    (conn : psql.Conn) (db db1 : psql.Tables) (id : UUID) (ts : Time)
    (loc : domainSchedule.Location) (tasks : list domainSchedule.Task)
    (s updated : domainSchedule.Schedule) :
  psql.GetScheduleByID conn id db = Ok s ->
  domainSchedule.VisitStatus s = "in_progress" ->
  psql.UpdateSchedule conn id (usecase.end_updates ts loc) db = (db1, Ok updated) ->
  let repo := psql.NewScheduleRepository conn in
  let db2 := usecase.end_task_loop repo tasks db1 in
  di.EndSchedule conn id ts loc tasks db = (db2, Ok updated)
  /\ domainSchedule.VisitStatus updated = "completed"
  /\ psql.schedules db2 = psql.schedules db1
  /\ (exists stored,
         psql.GetScheduleByID conn id db2 = Ok stored
         /\ domainSchedule.VisitStatus stored = "completed"
         /\ domainSchedule.CheckoutTime stored = Some ts)
  /\ (forall before task after,
         tasks = (before ++ task :: after)%list ->
         db2 = usecase.end_task_loop repo after
                 (fst (psql.UpdateTask conn (domainSchedule.TaskID task)
                         (usecase.end_task_updates task)
                         (usecase.end_task_loop repo before db1)))).
Proof.
  intros Hs Hp Hup repo db2.
  split; [eapply usecase_facts.EndSchedule_completes; eassumption |].
  pose proof (end_facts.end_task_loop_schedules conn tasks db1) as Hsch.
  apply psql_facts.UpdateSchedule_Ok in Hup
    as (Hdb1 & row & row' & Hrow & Hrow' & Hfind & ->).
  apply end_facts.end_updates_row in Hrow' as (Hv & Hco & _ & _).
  repeat split.
  - exact Hv.
  - exact Hsch.
  - exists (psql.toDomainMapper (psql.preload db2 row')). repeat split.
    + unfold psql.GetScheduleByID, psql.First_schedule in Hs |- *.
      destruct (psql.Fails conn (psql.SelectSchedule id)); [discriminate Hs |].
      fold repo in Hsch. fold db2 in Hsch. rewrite Hsch, Hfind. reflexivity.
    + exact Hv.
    + exact Hco.
  - intros before task after ->. unfold db2.
    rewrite usecase_facts.end_task_loop_app. reflexivity.
Qed.

(** Schedule 11 of the sample is in progress; of the two task updates the
    first, for the unknown task 99, fails. *)
Lemma EndSchedule_ignores_task_failures_witness :
  exists db2 updated,
    di.EndSchedule sample.conn 11 1800 sample.here
      [ domainSchedule.mkTask 99 11 "" "" "lost" None None 0 0;
        domainSchedule.mkTask 20 11 "" "" "done" (Some true) None 0 0 ]
      sample.db
    = (db2, Ok updated)
    /\ domainSchedule.VisitStatus updated = "completed"
    /\ map psql.Status (psql.tasks db2) = [ "done" ].
Proof.
  eexists. eexists.
  split; [| split].
  - refine (proj1 (EndSchedule_ignores_task_failures sample.conn sample.db _ 11
                     1800 sample.here _ _ _ _ _ _)).
    + vm_compute. reflexivity.
    + vm_compute. reflexivity.
    + vm_compute. reflexivity.
  - vm_compute. reflexivity.
  - vm_compute. reflexivity.
Defined.

(** ** Updating a schedule *)

(** C2, as stated, fails: the user references of the field map are
    checked before the status. Schedule 12 of the sample is completed and
    the sample has no user 99. A field map that asks for "upcoming" and
    names user 99 as the client is turned down with NotFound, not with a
    ValidationError; the handler builds this field map from a request
    with these two fields. *)
Lemma UpdateSchedule_terminal_status_after_user_checks :
  (exists s,
      psql.GetScheduleByID sample.conn 12 sample.db = Ok s
      /\ domainSchedule.VisitStatus s = "completed")
  /\ di.UpdateSchedule sample.conn 12
       {[ "client_user_id" := VUUID 99; "visit_status" := VString "upcoming" ]}
       sample.db
     = (sample.db, Err (AppError "new client user not found" NotFound))
  /\ di.UpdateScheduleHandler sample.conn (Some 12)
       (inr (controller.mkUpdateScheduleRequest 99 Nil "" None "upcoming"))
       sample.db
     = (sample.db,
        controller.CtxError (AppError "new client user not found" NotFound)).
Proof.
  split; [eexists; split; [vm_compute; reflexivity | reflexivity] |].
  split; vm_compute; reflexivity.
Qed.

(** C2, amended. A schedule is completed or cancelled and the field map
    asks, with a string under "visit_status", for another status. Then
    [UpdateSchedule] fails and the store is untouched, so the stored
    visitStatus stays. The error is that of the first check that fails:
    the NotFound "new client user not found" or "new assigned user not
    found" when the map names, as a [uuid.UUID], a user that the lookup
    does not find; otherwise a ValidationError, which reads "invalid
    visit status" for a status that is none of the four labels and
    "cannot change status from completed" or "cannot change status from
    cancelled" for one of them. Asking for the status the schedule
    already has passes the status check: the field map goes to the
    store. *)
Theorem UpdateSchedule_terminal_status
    {St : Type} (repo : domainSchedule.IScheduleRepository St)
    (urepo : domainUser.IUserRepository St)
    (id : UUID) (updates : gmap string Value) (st : St)
    (s : domainSchedule.Schedule) (requested : string) :
  domainSchedule.GetScheduleByID repo id st = Ok s ->
  domainSchedule.VisitStatus s = "completed"
    \/ domainSchedule.VisitStatus s = "cancelled" ->
  updates !! "visit_status" = Some (VString requested) ->
  (requested <> domainSchedule.VisitStatus s ->
   usecase.UpdateSchedule repo urepo id updates st
   = (st,
      Err
        match usecase.check_client_user urepo updates st with
        | Some _ => AppError "new client user not found" NotFound
        | None =>
            match usecase.check_assigned_user urepo updates st with
            | Some _ => AppError "new assigned user not found" NotFound
            | None =>
                if usecase.index_bool usecase.validStatuses requested
                then AppError
                       ("cannot change status from "
                        ++ domainSchedule.VisitStatus s)
                       ValidationError
                else AppError "invalid visit status" ValidationError
            end
        end))
  /\ (usecase.check_client_user urepo updates st <> None <->
      exists u,
        updates !! "client_user_id" = Some (VUUID u)
        /\ is_ok (domainUser.GetByID urepo u st) = false)
  /\ (usecase.check_assigned_user urepo updates st <> None <->
      exists u,
        updates !! "assigned_user_id" = Some (VUUID u)
        /\ is_ok (domainUser.GetByID urepo u st) = false)
  /\ (requested = domainSchedule.VisitStatus s ->
      usecase.check_client_user urepo updates st = None ->
      usecase.check_assigned_user urepo updates st = None ->
      usecase.UpdateSchedule repo urepo id updates st
        = domainSchedule.UpdateSchedule repo id updates st).
Proof.
  intros Hs Hterm Hreq. split; [| split; [| split]].
  - intros Hne. unfold usecase.UpdateSchedule. rewrite Hs.
    unfold usecase.check_client_user at 1.
    destruct (usecase.check_client_user urepo updates st) as [e1 |] eqn:H1.
    { unfold usecase.check_client_user in H1.
      destruct (as_UUID _); [| discriminate H1].
      destruct (domainUser.GetByID urepo _ st); [discriminate H1 |].
      reflexivity. }
    unfold usecase.check_client_user in H1.
    assert (Hc : match as_UUID (updates !! "client_user_id") with
                 | Some clientUserID =>
                     match domainUser.GetByID urepo clientUserID st with
                     | Ok _ => None
                     | Err _ =>
                         Some (NewAppError "new client user not found" NotFound)
                     end
                 | None => None
                 end = None) by exact H1.
    rewrite Hc. clear Hc H1.
    destruct (usecase.check_assigned_user urepo updates st) as [e2 |] eqn:H2.
    { unfold usecase.check_assigned_user in H2.
      destruct (as_UUID _); [| discriminate H2].
      destruct (domainUser.GetByID urepo _ st); [discriminate H2 |].
      injection H2 as <-. reflexivity. }
    unfold usecase.check_visit_status. rewrite Hreq. cbn [as_string].
    destruct (usecase.index_bool usecase.validStatuses requested);
      cbn [negb]; [| reflexivity].
    destruct Hterm as [Ht | Ht]; rewrite Ht in *;
      rewrite (eqb_string_false _ _ Hne); reflexivity.
  - unfold usecase.check_client_user. split.
    + destruct (updates !! "client_user_id") as [[| u | | | | |] |];
        cbn [as_UUID]; try congruence.
      destruct (domainUser.GetByID urepo u st) eqn:Hu; [congruence |].
      intros _. exists u. rewrite Hu. split; reflexivity.
    + intros (u & -> & Hmiss). cbn [as_UUID].
      destruct (domainUser.GetByID urepo u st);
        [discriminate Hmiss | discriminate].
  - unfold usecase.check_assigned_user. split.
    + destruct (updates !! "assigned_user_id") as [[| u | | | | |] |];
        cbn [as_UUID]; try congruence.
      destruct (domainUser.GetByID urepo u st) eqn:Hu; [congruence |].
      intros _. exists u. rewrite Hu. split; reflexivity.
    + intros (u & -> & Hmiss). cbn [as_UUID].
      destruct (domainUser.GetByID urepo u st);
        [discriminate Hmiss | discriminate].
  - intros -> H1 H2. apply (usecase_facts.UpdateSchedule_checked _ _ _ _ _ s);
      try assumption.
    unfold usecase.check_visit_status. rewrite Hreq. cbn [as_string].
    destruct Hterm as [Ht | Ht]; rewrite Ht; reflexivity.
Qed.

(** Schedule 12 of the sample is completed. *)
Lemma UpdateSchedule_terminal_status_witness :
  di.UpdateSchedule sample.conn 12 {[ "visit_status" := VString "upcoming" ]}
    sample.db
  = (sample.db, Err (AppError "cannot change status from completed" ValidationError)).
Proof.
  refine (proj1 (UpdateSchedule_terminal_status
                   (psql.NewScheduleRepository sample.conn)
                   (psql.NewUserRepository sample.conn) 12
                   {[ "visit_status" := VString "upcoming" ]} sample.db
                   (psql.toDomainMapper
                      (psql.preload sample.db (sample.row 12 2 "completed")))
                   "upcoming" _ _ _) _).
  - vm_compute. reflexivity.
  - left. reflexivity.
  - vm_compute. reflexivity.
  - vm_compute. discriminate.
Defined.


(** C10. [UpdateSchedule] looks a user up only when the entry of the
    field map under "client_user_id" or "assigned_user_id" holds a
    [uuid.UUID]. When the entry holds a value of another dynamic type, a
    string for example, the block for that field does nothing: the call
    goes on with the other checks, whatever users exist, and the field
    map, with the value as it came, is what the store receives. *)
Theorem UpdateSchedule_checks_only_UUID_typed_users
    {St : Type} (repo : domainSchedule.IScheduleRepository St)
    (urepo : domainUser.IUserRepository St)
    (id : UUID) (updates : gmap string Value) (st : St)
    (s : domainSchedule.Schedule) (v : Value) :
  domainSchedule.GetScheduleByID repo id st = Ok s ->
  (forall u, v <> VUUID u) ->
  (updates !! "client_user_id" = Some v ->
   usecase.UpdateSchedule repo urepo id updates st =
     match usecase.check_assigned_user urepo updates st with
     | Some err => (st, Err err)
     | None =>
         match usecase.check_visit_status s updates with
         | Some err => (st, Err err)
         | None => domainSchedule.UpdateSchedule repo id updates st
         end
     end)
  /\ (updates !! "assigned_user_id" = Some v ->
      usecase.UpdateSchedule repo urepo id updates st =
        match usecase.check_client_user urepo updates st with
        | Some err => (st, Err err)
        | None =>
            match usecase.check_visit_status s updates with
            | Some err => (st, Err err)
            | None => domainSchedule.UpdateSchedule repo id updates st
            end
        end)
  /\ (updates !! "client_user_id" = Some v ->
      as_UUID (updates !! "assigned_user_id") = None ->
      usecase.check_visit_status s updates = None ->
      usecase.UpdateSchedule repo urepo id updates st =
        domainSchedule.UpdateSchedule repo id updates st).
Proof.
  intros Hs Hv.
  assert (Hskip : as_UUID (Some v) = None).
  { destruct v; try reflexivity. exfalso. eapply Hv. reflexivity. }
  split; [| split].
  - intros Hc. unfold usecase.UpdateSchedule. rewrite Hs.
    rewrite usecase_facts.check_client_user_skipped by (rewrite Hc; exact Hskip).
    destruct (usecase.check_assigned_user urepo updates st); [reflexivity |].
    destruct (usecase.check_visit_status s updates); [reflexivity |].
    apply result_eta.
  - intros Ha. unfold usecase.UpdateSchedule. rewrite Hs.
    rewrite (usecase_facts.check_assigned_user_skipped urepo updates)
      by (rewrite Ha; exact Hskip).
    destruct (usecase.check_client_user urepo updates st); [reflexivity |].
    destruct (usecase.check_visit_status s updates); [reflexivity |].
    apply result_eta.
  - intros Hc Ha Hst. eapply usecase_facts.UpdateSchedule_checked; try eassumption.
    + apply usecase_facts.check_client_user_skipped. rewrite Hc. exact Hskip.
    + apply usecase_facts.check_assigned_user_skipped. exact Ha.
Qed.

(** In the sample no user 99 exists; named by a string, it becomes the
    client of schedule 10. *)
Lemma UpdateSchedule_checks_only_UUID_typed_users_witness :
  di.UpdateSchedule sample.conn 10
    {[ "client_user_id" := VString "00000000-0000-0000-0000-000000000063" ]}
    sample.db
  = psql.UpdateSchedule sample.conn 10
      {[ "client_user_id" := VString "00000000-0000-0000-0000-000000000063" ]}
      sample.db
  /\ psql.GetByID sample.conn 99 sample.db = Err (AppErrorWithType NotFound)
  /\ map psql.ClientUserID
       (psql.schedules
          (fst (di.UpdateSchedule sample.conn 10
                  {[ "client_user_id" :=
                       VString "00000000-0000-0000-0000-000000000063" ]}
                  sample.db)))
     = [ 99; 1; 1 ].
Proof.
  split; [| split].
  - refine (proj2 (proj2 (UpdateSchedule_checks_only_UUID_typed_users
                            (psql.NewScheduleRepository sample.conn)
                            (psql.NewUserRepository sample.conn) 10 _ sample.db
                            (psql.toDomainMapper
                               (psql.preload sample.db (sample.row 10 2 "upcoming")))
                            (VString "00000000-0000-0000-0000-000000000063")
                            _ _)) _ _ _).
    + vm_compute. reflexivity.
    + intros u. discriminate.
    + vm_compute. reflexivity.
    + vm_compute. reflexivity.
    + vm_compute. reflexivity.
  - vm_compute. reflexivity.
  - vm_compute. reflexivity.
Defined.


(** ** Creating a schedule *)
Module create_facts.
Import domainSchedule create.

Lemma fill_id_present bits id : id <> Nil -> psql.fill_id bits id = id.
Proof.
  intros H. unfold psql.fill_id.
  destruct (Z.eqb_spec id Nil); [contradiction | reflexivity].
Qed.

(** The tasks of the schedule [Create] returns, from the tasks
    [CreateSchedule] was given. *)
Lemma created_tasks conn id rnd n tasks :
  Forall2 prepared tasks
    (map psql.Task_toDomainMapper
       (psql.create_tasks conn id n
          (map psql.Task_fromDomain (usecase.prepare_tasks rnd tasks)))).
Proof.
  revert rnd n. induction tasks as [| task tasks IH]; intros rnd n;
    [constructor |].
  cbn [usecase.prepare_tasks].
  destruct (Z.eqb_spec (TaskID task) Nil) as [Hnil | Hid];
    cbn [map psql.create_tasks]; constructor; try apply IH.
  - unfold prepared. cbn.
    rewrite fill_id_present by apply uuid_New_not_Nil.
    split; [reflexivity |]. split; [intros Hne; contradiction |].
    split; [| repeat split].
    intros _. split; [apply uuid_New_not_Nil | eauto].
  - unfold prepared. cbn. rewrite fill_id_present by exact Hid.
    split; [reflexivity |]. split; [reflexivity |].
    split; [| repeat split].
    intros Hne. contradiction.
Qed.

Lemma Create_Ok conn s db db' created :
  psql.Create conn s db = (db', Ok created) ->
  exists id row,
    VisitStatus created = VisitStatus s
    /\ ID created = id
    /\ Tasks created =
         map psql.Task_toDomainMapper
           (psql.create_tasks conn id 1 (map psql.Task_fromDomain (Tasks s)))
    /\ psql.schedules db' = (psql.schedules db ++ [row])%list
    /\ psql.ID row = id
    /\ psql.VisitStatus row = VisitStatus s
    /\ psql.ScheduledSlotFrom row = From (ScheduledSlot_ s)
    /\ psql.ScheduledSlotTo row = To (ScheduledSlot_ s)
    /\ From (ScheduledSlot_ created) = From (ScheduledSlot_ s)
    /\ To (ScheduledSlot_ created) = To (ScheduledSlot_ s).
Proof.
  unfold psql.Create, psql.Create_schedule.
  destruct (psql.Fails conn psql.InsertSchedule); [discriminate |].
  destruct (existsb _ _); [discriminate |].
  case_bool_decide; [| discriminate].
  intros [= <- <-]. eexists. eexists. cbn. repeat split.
Qed.

Lemma Create_Err conn s db db' e :
  psql.Create conn s db = (db', Err e) -> db' = db.
Proof.
  unfold psql.Create. destruct (psql.Create_schedule conn _ db) as [[? ?] |];
    intros [= <- _]; reflexivity.
Qed.

(** A successful [CreateSchedule], taken apart. *)
Lemma CreateSchedule_Ok conn rnd newSchedule db db' created :
  di.CreateSchedule conn rnd newSchedule db = (db', Ok created) ->
  VisitStatus created = "upcoming"
  /\ Forall2 prepared (Tasks newSchedule) (Tasks created)
  /\ exists row,
       psql.schedules db' = (psql.schedules db ++ [row])%list
       /\ psql.ID row = ID created
       /\ psql.VisitStatus row = "upcoming".
Proof.
  intros H.
  destruct (usecase_facts.CreateSchedule_cases (psql.NewScheduleRepository conn)
              (psql.NewUserRepository conn) rnd newSchedule db)
    as [[msg Hf] | Hc]; unfold di.CreateSchedule in H.
  - rewrite Hf in H. discriminate H.
  - rewrite Hc in H. cbn [domainSchedule.Create psql.NewScheduleRepository] in H.
    apply Create_Ok in H
      as (id & row & Hv & Hid & Ht & Hs & Hrid & Hrv & _).
    split; [exact Hv |]. split.
    + rewrite Ht. apply created_tasks.
    + exists row. split; [exact Hs |]. split; [congruence | exact Hrv].
Qed.

End create_facts.

(** C8, as stated, fails: a task that arrives with a status does not keep
    it. The schedule is created, its task keeps the identifier 21 it came
    with, and its status "done" is replaced by "pending". *)
Lemma CreateSchedule_overwrites_task_status :
  exists db' created,
    di.CreateSchedule sample.conn (fun _ => 0) create.with_done_task
      sample.db = (db', Ok created)
    /\ map domainSchedule.Status (domainSchedule.Tasks create.with_done_task)
       = [ "done" ]
    /\ map domainSchedule.Status (domainSchedule.Tasks created) = [ "pending" ]
    /\ map domainSchedule.TaskID (domainSchedule.Tasks created) = [ 21 ].
Proof.
  eexists. eexists. split; [vm_compute; reflexivity |].
  repeat split.
Qed.

(** C8, amended. When [CreateSchedule] succeeds, the created schedule has
    visitStatus "upcoming" whatever the input said, in what is returned
    and in the row the store holds; and task by task: the status is
    "pending" whatever status the task came with, a task that came with
    an identifier keeps it, a task that came without one has a new one,
    made by [uuid.New()] and not [uuid.Nil]; title, description, done and
    feedback are as given. *)
Theorem CreateSchedule_forces_upcoming_and_pending
    (conn : psql.Conn) (rnd : Rand) (newSchedule : domainSchedule.Schedule)
    (db db' : psql.Tables) (created : domainSchedule.Schedule) :
  di.CreateSchedule conn rnd newSchedule db = (db', Ok created) ->
  domainSchedule.VisitStatus created = "upcoming"
  /\ Forall2 create.prepared (domainSchedule.Tasks newSchedule)
       (domainSchedule.Tasks created)
  /\ exists row,
       psql.schedules db' = (psql.schedules db ++ [row])%list
       /\ psql.ID row = domainSchedule.ID created
       /\ psql.VisitStatus row = "upcoming".
Proof. apply create_facts.CreateSchedule_Ok. Qed.

Lemma CreateSchedule_forces_upcoming_and_pending_witness :
  exists db' created,
    di.CreateSchedule sample.conn (fun _ => 0) create.with_done_task
      sample.db = (db', Ok created)
    /\ domainSchedule.VisitStatus created = "upcoming"
    /\ Forall2 create.prepared
         (domainSchedule.Tasks create.with_done_task)
         (domainSchedule.Tasks created).
Proof.
  eexists. eexists.
  assert (H : di.CreateSchedule sample.conn (fun _ => 0)
                create.with_done_task sample.db
              = (_, Ok _)) by (vm_compute; reflexivity).
  split; [exact H |].
  destruct (CreateSchedule_forces_upcoming_and_pending _ _ _ _ _ _ H)
    as (Hv & Ht & _).
  split; [exact Hv | exact Ht].
Defined.


(** ** Updating a task *)
Module task_facts.
Import task_time.

(** The row [UpdateTaskStatus] leaves behind. *)
Lemma status_updates_row conn status done feedback row :
  psql.update_task_row conn
    (usecase.task_status_updates status done feedback) row
  = Some (psql.mkTask (psql.TaskID row) (psql.ScheduleID row)
            (psql.Title row) (psql.Description row) status (Some done)
            (Some feedback) (psql.TaskCreatedAt row) (psql.Now conn)).
Proof. destruct row, conn. vm_compute. reflexivity. Qed.

Lemma rewrite_twice conn1 conn2 id status done feedback row :
  psql.rewrite_task conn2 id
    (usecase.task_status_updates status done feedback)
    (psql.rewrite_task conn1 id
       (usecase.task_status_updates status done feedback) row)
  = touch (psql.Now conn2) id
      (psql.rewrite_task conn1 id
         (usecase.task_status_updates status done feedback) row).
Proof.
  unfold psql.rewrite_task, touch.
  destruct (psql.TaskID row =? id) eqn:E.
  - rewrite status_updates_row. cbn. rewrite E.
    rewrite status_updates_row. reflexivity.
  - rewrite E. reflexivity.
Qed.

Lemma touch_same conn id status done feedback row :
  touch (psql.Now conn) id
    (psql.rewrite_task conn id
       (usecase.task_status_updates status done feedback) row)
  = psql.rewrite_task conn id
      (usecase.task_status_updates status done feedback) row.
Proof.
  unfold psql.rewrite_task, touch.
  destruct (psql.TaskID row =? id) eqn:E.
  - rewrite status_updates_row. cbn. rewrite E. reflexivity.
  - rewrite E. reflexivity.
Qed.

Lemma touch_ID now id row : psql.TaskID (touch now id row) = psql.TaskID row.
Proof. unfold touch. destruct (psql.TaskID row =? id); reflexivity. Qed.

(** A successful [UpdateTaskStatus], taken apart. *)
Lemma UpdateTaskStatus_Ok conn id status done feedback db db' t :
  di.UpdateTaskStatus conn id status done feedback db = (db', Ok t) ->
  (id =? Nil) = false
  /\ db' = psql.with_tasks
             (map (psql.rewrite_task conn id
                     (usecase.task_status_updates status done feedback))
                (psql.tasks db))
             db
  /\ exists row,
       List.find (fun row => psql.TaskID row =? id) (psql.tasks db') = Some row
       /\ t = psql.Task_toDomainMapper row.
Proof.
  unfold di.UpdateTaskStatus, usecase.UpdateTaskStatus.
  rewrite result_eta.
  cbn [domainSchedule.UpdateTask psql.NewScheduleRepository].
  unfold psql.UpdateTask, psql.Updates_task. cbn [psql.TaskID].
  destruct (id =? Nil); [discriminate |].
  destruct (psql.Fails conn (psql.UpdateTaskRow id)); [discriminate |].
  rewrite status_updates_row. cbn [psql.TaskID].
  rewrite psql_facts.task_id_kept.
  unfold psql.First_task.
  destruct (psql.Fails conn (psql.SelectTask id)); [discriminate |].
  destruct (List.find _ _) as [row |] eqn:E; [| discriminate].
  intros [= <- <-]. repeat split. exists row. split; [exact E | reflexivity].
Qed.

End task_facts.

(** C9, as stated, fails: the store stamps the time of every update on
    the task. Task 20 of the sample is updated at 5000 and, with the same
    arguments, again at 6000: the second call returns a task other than
    the first did, and the store holds another task than after one call. *)
Lemma UpdateTaskStatus_twice_differs :
  let once := di.UpdateTaskStatus (sample.conn_at 5000) 20 "done" true "ok"
                sample.db in
  let twice := di.UpdateTaskStatus (sample.conn_at 6000) 20 "done" true "ok"
                 (fst once) in
  is_ok (snd once) = true
  /\ is_ok (snd twice) = true
  /\ snd twice <> snd once
  /\ psql.tasks (fst twice) <> psql.tasks (fst once)
  /\ map psql.TaskUpdatedAt (psql.tasks (fst once)) = [ 5000 ]
  /\ map psql.TaskUpdatedAt (psql.tasks (fst twice)) = [ 6000 ].
Proof.
  vm_compute. repeat split; discriminate.
Qed.

(** C9, amended. [UpdateTaskStatus] is idempotent up to the update time
    the store keeps: after a successful call, a second call with the same
    arguments (whose statements the driver does not fail) succeeds; the
    stored tasks and the returned task are those of the first call in
    every field but UpdatedAt, which is the time of the second call; when
    both calls read the same time nothing changes at all. *)
Theorem UpdateTaskStatus_idempotent_up_to_update_time
    (conn1 conn2 : psql.Conn) (id : UUID) (status : string) (done : bool)
    (feedback : string) (db db1 : psql.Tables) (t1 : domainSchedule.Task) :
  di.UpdateTaskStatus conn1 id status done feedback db = (db1, Ok t1) ->
  psql.Fails conn2 (psql.UpdateTaskRow id) = None ->
  psql.Fails conn2 (psql.SelectTask id) = None ->
  di.UpdateTaskStatus conn2 id status done feedback db1
    = (psql.with_tasks
         (map (task_time.touch (psql.Now conn2) id) (psql.tasks db1)) db1,
       Ok (task_time.set_UpdatedAt (psql.Now conn2) t1))
  /\ (psql.Now conn2 = psql.Now conn1 ->
      di.UpdateTaskStatus conn2 id status done feedback db1 = (db1, Ok t1)).
Proof.
  intros H1 Hf1 Hf2.
  apply task_facts.UpdateTaskStatus_Ok in H1 as (Hid & Hdb1 & row & Hrow & ->).
  set (u := usecase.task_status_updates status done feedback) in *.
  assert (Hmap :
    map (psql.rewrite_task conn2 id u) (psql.tasks db1)
    = map (task_time.touch (psql.Now conn2) id) (psql.tasks db1)).
  { rewrite Hdb1. cbn [psql.tasks psql.with_tasks]. rewrite !map_map.
    apply map_ext. intros r. apply task_facts.rewrite_twice. }
  assert (Hrun :
    di.UpdateTaskStatus conn2 id status done feedback db1
    = (psql.with_tasks
         (map (task_time.touch (psql.Now conn2) id) (psql.tasks db1)) db1,
       Ok (task_time.set_UpdatedAt (psql.Now conn2)
             (psql.Task_toDomainMapper row)))).
  { unfold di.UpdateTaskStatus, usecase.UpdateTaskStatus.
    rewrite result_eta.
    cbn [domainSchedule.UpdateTask psql.NewScheduleRepository].
    unfold psql.UpdateTask, psql.Updates_task. cbn [psql.TaskID].
    rewrite Hid, Hf1. fold u. unfold u at 1.
    rewrite task_facts.status_updates_row. cbn [psql.TaskID].
    rewrite psql_facts.task_id_kept. fold u. rewrite Hmap.
    unfold psql.First_task. rewrite Hf2. cbn [psql.tasks psql.with_tasks].
    rewrite psql_facts.find_map_same
      by (intros x; now rewrite task_facts.touch_ID).
    rewrite Hrow. cbn [option_map].
    apply find_some in Hrow as [_ Hrid].
    unfold task_time.touch. rewrite Hrid. reflexivity. }
  split; [exact Hrun |].
  intros Hnow. rewrite Hrun, Hnow.
  assert (Hsame :
    map (task_time.touch (psql.Now conn1) id) (psql.tasks db1) = psql.tasks db1).
  { rewrite Hdb1. cbn [psql.tasks psql.with_tasks]. rewrite map_map.
    apply map_ext. intros r. apply task_facts.touch_same. }
  rewrite Hsame.
  assert (Hin : In row (psql.tasks db1)) by (eapply find_some; exact Hrow).
  assert (Hrid : (psql.TaskID row =? id) = true)
    by (apply find_some in Hrow as [_ Hrid]; exact Hrid).
  rewrite Hdb1 in Hin. cbn [psql.tasks psql.with_tasks] in Hin.
  apply in_map_iff in Hin as (r0 & <- & _).
  rewrite psql_facts.rewrite_task_ID in Hrid
    by apply psql_facts.task_status_updates_keep_id.
  f_equal.
  - destruct db1; reflexivity.
  - f_equal. unfold psql.rewrite_task. rewrite Hrid.
    unfold u. rewrite task_facts.status_updates_row. reflexivity.
Qed.

(** Task 20 of the sample, updated at 5000 and again at 6000. *)
Lemma UpdateTaskStatus_idempotent_up_to_update_time_witness :
  exists db1 t1,
    di.UpdateTaskStatus (sample.conn_at 5000) 20 "done" true "ok" sample.db
      = (db1, Ok t1)
    /\ di.UpdateTaskStatus (sample.conn_at 6000) 20 "done" true "ok" db1
       = (psql.with_tasks (map (task_time.touch 6000 20) (psql.tasks db1)) db1,
          Ok (task_time.set_UpdatedAt 6000 t1)).
Proof.
  eexists. eexists.
  assert (H : di.UpdateTaskStatus (sample.conn_at 5000) 20 "done" true "ok"
                sample.db = (_, Ok _)) by (vm_compute; reflexivity).
  split; [exact H |].
  exact (proj1 (UpdateTaskStatus_idempotent_up_to_update_time
                  (sample.conn_at 5000) (sample.conn_at 6000) 20 "done" true
                  "ok" sample.db _ _ H eq_refl eq_refl)).
Defined.

(** ** The life cycle of a visit *)
Module lifecycle_facts.
Import domainSchedule lifecycle.

Lemma index_valid_label s :
  usecase.index_bool usecase.validStatuses s = true <-> label s.
Proof.
  unfold label. split.
  - intros H.
    destruct (String.eqb_spec s "upcoming"); [auto |].
    destruct (String.eqb_spec s "in_progress"); [auto |].
    destruct (String.eqb_spec s "completed"); [auto |].
    destruct (String.eqb_spec s "cancelled"); [auto |].
    exfalso. unfold usecase.index_bool, usecase.validStatuses in H.
    rewrite !lookup_insert_ne, lookup_singleton_ne in H by congruence.
    discriminate H.
  - intros [-> | [-> | [-> | ->]]]; reflexivity.
Qed.

(** What the status block of [UpdateSchedule] accepts. *)
Lemma check_visit_status_None s updates requested :
  updates !! "visit_status" = Some (VString requested) ->
  usecase.check_visit_status s updates = None ->
  label requested
  /\ (requested = VisitStatus s
      \/ (VisitStatus s <> "completed" /\ VisitStatus s <> "cancelled")).
Proof.
  intros Hreq. unfold usecase.check_visit_status. rewrite Hreq. cbn [as_string].
  destruct (usecase.index_bool usecase.validStatuses requested) eqn:Hl;
    cbn [negb]; [| discriminate].
  apply index_valid_label in Hl. intros H. split; [exact Hl |].
  destruct (String.eqb_spec (VisitStatus s) "completed") as [Hc | Hc].
  - destruct (String.eqb_spec requested "completed") as [-> | ];
      [auto | discriminate H].
  - destruct (String.eqb_spec (VisitStatus s) "cancelled") as [Hx | Hx].
    + destruct (String.eqb_spec requested "cancelled") as [-> | ];
        [auto | discriminate H].
    + auto.
Qed.

Lemma check_visit_status_Some s updates requested :
  updates !! "visit_status" = Some (VString requested) ->
  ~ label requested
  \/ (requested <> VisitStatus s
      /\ (VisitStatus s = "completed" \/ VisitStatus s = "cancelled")) ->
  exists msg,
    usecase.check_visit_status s updates = Some (AppError msg ValidationError).
Proof.
  intros Hreq H. unfold usecase.check_visit_status. rewrite Hreq.
  cbn [as_string].
  destruct (usecase.index_bool usecase.validStatuses requested) eqn:Hl;
    cbn [negb]; [| eauto].
  apply index_valid_label in Hl.
  destruct H as [H | [Hne [Ht | Ht]]]; [contradiction | |]; rewrite Ht in *.
  - rewrite (eqb_string_false _ _ Hne). cbn. eauto.
  - rewrite (eqb_string_false _ _ Hne). cbn. eauto.
Qed.

Lemma find_app_stays {A} (p : A -> bool) (l : list A) (x r : A) :
  List.find p l = Some r -> List.find p (l ++ [x]) = Some r.
Proof.
  induction l as [| y l IH]; [discriminate |].
  cbn. destruct (p y); [trivial | exact IH].
Qed.

(** Reading a schedule gives the status of the first row with its id. *)
Lemma read_status conn j db s :
  psql.GetScheduleByID conn j db = Ok s ->
  exists row,
    List.find (fun row => psql.ID row =? j) (psql.schedules db) = Some row
    /\ psql.ID row = j
    /\ VisitStatus s = psql.VisitStatus row.
Proof.
  intros H. apply psql_facts.GetScheduleByID_Ok in H as (row & Hf & Hid & ->).
  exists row. repeat split; assumption.
Qed.

(** A schedule that is read under an id before and after
    [UpdateSchedule] of the store, whatever the field map: it is the row
    it was, or the row of the call, rewritten. A row that got another id
    is read under neither. *)
Lemma UpdateSchedule_rows conn id updates db db' r j row row' :
  psql.UpdateSchedule conn id updates db = (db', r) ->
  List.find (fun row => psql.ID row =? j) (psql.schedules db) = Some row ->
  List.find (fun row => psql.ID row =? j) (psql.schedules db') = Some row' ->
  row' = row
  \/ (j = id /\ psql.update_schedule_row conn updates row = Some row').
Proof.
  intros H Hrow Hrow'.
  apply psql_facts.UpdateSchedule_any in H
    as [[-> _] | (row0 & row0' & Hrow0 & Hup & Htaken & -> & _)].
  - left. congruence.
  - cbn [psql.save_preloaded psql.with_tasks psql.schedules psql.rewritten
           psql.with_schedules] in Hrow'.
    assert (Hid0 : psql.ID row0 = id).
    { apply find_some in Hrow0 as [_ H0]. apply Z.eqb_eq in H0. exact H0. }
    assert (Hj : psql.ID row = j).
    { apply find_some in Hrow as [_ H0]. apply Z.eqb_eq in H0. exact H0. }
    assert (Hnew : psql.ID row0' = j -> j = id).
    { intros Hn. unfold psql.schedule_id_taken in Htaken.
      apply andb_false_iff in Htaken as [Ht | Ht].
      - apply negb_false_iff, Z.eqb_eq in Ht. congruence.
      - exfalso. apply not_true_iff_false in Ht. apply Ht.
        apply existsb_exists. exists row. split.
        + eapply find_some. exact Hrow.
        + apply Z.eqb_eq. congruence. }
    rewrite (psql_facts.find_rewritten conn id updates row0 row0' _ j Hup Hid0
               Hnew) in Hrow'.
    destruct (Z.eqb_spec j id) as [-> | Hne].
    + destruct (psql.ID row0' =? id); [| discriminate Hrow'].
      rewrite Hrow in Hrow'. cbn in Hrow'. injection Hrow' as <-.
      right. split; [reflexivity |].
      unfold psql.rewrite_schedule. rewrite Hj, Z.eqb_refl.
      destruct (psql_facts.update_schedule_row_indep _ _ _ row _ Hup)
        as [r1 Hr1].
      rewrite Hr1. reflexivity.
    + left. congruence.
Qed.

(** The status [Updates] writes: the one the field map gives, under the
    column or under the field; none, when the map gives none. *)
Lemma update_row_status conn updates row row' :
  psql.update_schedule_row conn updates row = Some row' ->
  match updates !! "visit_status", updates !! "VisitStatus" with
  | None, None => psql.VisitStatus row' = psql.VisitStatus row
  | Some v, None | None, Some v =>
      psql.to_string v = Some (psql.VisitStatus row')
  | Some _, Some _ => False
  end.
Proof.
  intros H. apply psql_facts.update_schedule_row_Some in H.
  destruct H as (_ & _ & _ & Hv & _). unfold psql.assign in Hv.
  destruct (updates !! "visit_status"), (updates !! "VisitStatus");
    congruence.
Qed.

(** A status that passed the status block and was written. *)
Lemma written_status id updates s row row' conn :
  usecase.check_visit_status s updates = None ->
  VisitStatus s = psql.VisitStatus row ->
  psql.update_schedule_row conn updates row = Some row' ->
  may_change (Update id updates) (psql.VisitStatus row)
    (psql.VisitStatus row').
Proof.
  intros Hcheck Hs Hup. apply update_row_status in Hup.
  destruct (updates !! "visit_status") as [v |] eqn:Hcol;
    destruct (updates !! "VisitStatus") as [w |] eqn:Hfield;
    [contradiction | | |].
  - destruct v as [requested | | | | | |];
      try (eapply slips_by_value; [exact Hcol | discriminate]).
    injection Hup as <-.
    destruct (check_visit_status_None _ _ _ Hcol Hcheck)
      as [Hl [-> | [Hc Hx]]].
    + rewrite Hs. constructor.
    + rewrite Hs in Hc, Hx. eapply moves; eassumption.
  - eapply slips_by_field; eassumption.
  - rewrite Hup. constructor.
Qed.

End lifecycle_facts.


(** C1, as stated, fails: [UpdateSchedule] turns down only an unknown
    label and a change away from "completed" or "cancelled". In the sample
    it takes the upcoming schedule 10 to "completed" and the schedule 11,
    which is in progress, back to "upcoming". *)
Lemma UpdateSchedule_accepts_other_transitions :
  (exists db' updated,
      di.UpdateSchedule sample.conn 10 {[ "visit_status" := VString "completed" ]}
        sample.db = (db', Ok updated)
      /\ map psql.VisitStatus (psql.schedules sample.db)
         = [ "upcoming"; "in_progress"; "completed" ]
      /\ map psql.VisitStatus (psql.schedules db')
         = [ "completed"; "in_progress"; "completed" ])
  /\ (exists db' updated,
         di.UpdateSchedule sample.conn 11 {[ "visit_status" := VString "upcoming" ]}
           sample.db = (db', Ok updated)
         /\ map psql.VisitStatus (psql.schedules db')
            = [ "upcoming"; "upcoming"; "completed" ]).
Proof.
  split; eexists; eexists; (split; [vm_compute; reflexivity |]); repeat split.
Qed.

(** C1, amended. For every operation of the engine, every field map and
    every id under which a schedule is read, by [GetScheduleByID], before
    the operation and after it, the visitStatus read after differs from
    the one read before in these ways only: not at all; "upcoming" to
    "in_progress", by [StartSchedule]; "in_progress" to "completed", by
    [EndSchedule]; and by [UpdateSchedule], either with a string under
    "visit_status", from any status but "completed" and "cancelled" to
    the requested one of the four labels (so also "upcoming" to
    "completed" or "in_progress" to "upcoming"), or with an entry the
    status block does not look at, which is an entry under the field name
    "VisitStatus" or an entry under "visit_status" that is no string,
    from any status, "completed" and "cancelled" too, to whatever the
    store makes of the entry. A string under "visit_status" that asks for
    a change outside these is turned down before the store is written:
    with a ValidationError, when the user references of the field map
    pass their checks. *)
Theorem visit_status_transitions
    (conn : psql.Conn) (op : lifecycle.Operation) (db : psql.Tables) :
  (forall j before after,
      psql.GetScheduleByID conn j db = Ok before ->
      psql.GetScheduleByID conn j (lifecycle.run conn op db) = Ok after ->
      lifecycle.may_change op (domainSchedule.VisitStatus before)
        (domainSchedule.VisitStatus after))
  /\ (forall id updates s requested,
         op = lifecycle.Update id updates ->
         psql.GetScheduleByID conn id db = Ok s ->
         updates !! "visit_status" = Some (VString requested) ->
         ~ lifecycle.may_change op (domainSchedule.VisitStatus s) requested ->
         (exists e, di.UpdateSchedule conn id updates db = (db, Err e))
         /\ (usecase.check_client_user (psql.NewUserRepository conn) updates db
               = None ->
             usecase.check_assigned_user (psql.NewUserRepository conn) updates db
               = None ->
             exists msg,
               di.UpdateSchedule conn id updates db
                 = (db, Err (AppError msg ValidationError)))).
Proof.
  split.
  - intros j before after Hb Ha.
    destruct (lifecycle_facts.read_status _ _ _ _ Hb) as (row & Hrow & Hrid & Hsb).
    destruct (lifecycle_facts.read_status _ _ _ _ Ha) as (row' & Hrow' & _ & Hsa).
    rewrite Hsb, Hsa. clear Hsb Hsa Ha.
    destruct op as [rnd s | id ts loc | id ts loc tasks | tid st d f | id updates];
      cbn [lifecycle.run] in Hrow'.
    + (* CreateSchedule *)
      destruct (di.CreateSchedule conn rnd s db) as [db' [created | e]] eqn:Hc.
      * apply create_facts.CreateSchedule_Ok in Hc
          as (_ & _ & new & Hnew & _).
        cbn [fst] in Hrow'. rewrite Hnew in Hrow'.
        rewrite (lifecycle_facts.find_app_stays _ _ _ _ Hrow) in Hrow'.
        injection Hrow' as <-. constructor.
      * assert (db' = db) as ->.
        { unfold di.CreateSchedule in Hc.
          destruct (usecase_facts.CreateSchedule_cases
                      (psql.NewScheduleRepository conn)
                      (psql.NewUserRepository conn) rnd s db) as [[msg Hf] | Hf];
            rewrite Hf in Hc.
          - congruence.
          - eapply create_facts.Create_Err. exact Hc. }
        cbn [fst] in Hrow'. rewrite Hrow in Hrow'. injection Hrow' as <-.
        constructor.
    + (* StartSchedule *)
      destruct (usecase_facts.StartSchedule_cases
                  (psql.NewScheduleRepository conn) id ts loc db)
        as [[e He] | (s & Hs & Hup & Hrun)]; unfold di.StartSchedule in Hrow'.
      * rewrite He in Hrow'. cbn [fst] in Hrow'. rewrite Hrow in Hrow'.
        injection Hrow' as <-. constructor.
      * rewrite Hrun in Hrow'.
        cbn [domainSchedule.UpdateSchedule psql.NewScheduleRepository] in Hrow'.
        destruct (psql.UpdateSchedule conn id (usecase.start_updates ts loc) db)
          as [db' r] eqn:Hu. cbn [fst] in Hrow'.
        destruct (lifecycle_facts.UpdateSchedule_rows _ _ _ _ _ _ _ _ _ Hu Hrow Hrow')
          as [-> | [-> Hr]]; [constructor |].
        apply start_facts.start_updates_row in Hr as (Hv & _). rewrite Hv.
        destruct (lifecycle_facts.read_status _ _ _ _ Hs) as (row0 & Hrow0 & _ & Hs0).
        rewrite Hrow in Hrow0. injection Hrow0 as <-.
        rewrite <- Hs0, Hup. constructor.
    + (* EndSchedule *)
      destruct (usecase_facts.EndSchedule_cases
                  (psql.NewScheduleRepository conn) id ts loc tasks db)
        as [[e He] | (s & Hs & Hin & Hrun)]; unfold di.EndSchedule in Hrow'.
      * rewrite He in Hrow'. cbn [fst] in Hrow'. rewrite Hrow in Hrow'.
        injection Hrow' as <-. constructor.
      * cbn [domainSchedule.UpdateSchedule psql.NewScheduleRepository] in Hrun.
        destruct (psql.UpdateSchedule conn id (usecase.end_updates ts loc) db)
          as [db' r] eqn:Hu. cbn [fst] in Hrun.
        assert (Hsch : psql.schedules
                         (fst (usecase.EndSchedule
                                 (psql.NewScheduleRepository conn) id ts loc
                                 tasks db))
                       = psql.schedules db').
        { destruct Hrun as [-> | ->]; [reflexivity |].
          apply end_facts.end_task_loop_schedules. }
        rewrite Hsch in Hrow'.
        destruct (lifecycle_facts.UpdateSchedule_rows _ _ _ _ _ _ _ _ _ Hu Hrow Hrow')
          as [-> | [-> Hr]]; [constructor |].
        apply end_facts.end_updates_row in Hr as (Hv & _). rewrite Hv.
        destruct (lifecycle_facts.read_status _ _ _ _ Hs) as (row0 & Hrow0 & _ & Hs0).
        rewrite Hrow in Hrow0. injection Hrow0 as <-.
        rewrite <- Hs0, Hin. constructor.
    + (* UpdateTaskStatus *)
      unfold di.UpdateTaskStatus, usecase.UpdateTaskStatus in Hrow'.
      rewrite result_eta in Hrow'.
      cbn [domainSchedule.UpdateTask psql.NewScheduleRepository] in Hrow'.
      rewrite (proj1 (psql_facts.UpdateTask_schedules _ _ _ _)) in Hrow'.
      rewrite Hrow in Hrow'. injection Hrow' as <-. constructor.
    + (* UpdateSchedule *)
      destruct (usecase_facts.UpdateSchedule_cases
                  (psql.NewScheduleRepository conn)
                  (psql.NewUserRepository conn) id updates db)
        as [[e He] | (s & Hs & Hcheck & Hrun)]; unfold di.UpdateSchedule in Hrow'.
      * rewrite He in Hrow'. cbn [fst] in Hrow'. rewrite Hrow in Hrow'.
        injection Hrow' as <-. constructor.
      * rewrite Hrun in Hrow'.
        cbn [domainSchedule.UpdateSchedule psql.NewScheduleRepository] in Hrow'.
        destruct (psql.UpdateSchedule conn id updates db) as [db' r] eqn:Hu.
        cbn [fst] in Hrow'.
        destruct (lifecycle_facts.UpdateSchedule_rows _ _ _ _ _ _ _ _ _ Hu Hrow Hrow')
          as [-> | [-> Hr]]; [constructor |].
        destruct (lifecycle_facts.read_status _ _ _ _ Hs) as (row0 & Hrow0 & _ & Hs0).
        rewrite Hrow in Hrow0. injection Hrow0 as <-.
        eapply lifecycle_facts.written_status; eassumption.
  - intros id updates s requested -> Hs Hreq Hnot.
    assert (Hbad :
      ~ lifecycle.label requested
      \/ (requested <> domainSchedule.VisitStatus s
          /\ (domainSchedule.VisitStatus s = "completed"
              \/ domainSchedule.VisitStatus s = "cancelled"))).
    { destruct (usecase.index_bool usecase.validStatuses requested) eqn:Hl.
      - apply lifecycle_facts.index_valid_label in Hl. right. split.
        + intros ->. apply Hnot. constructor.
        + destruct (String.eqb_spec (domainSchedule.VisitStatus s) "completed");
            [auto |].
          destruct (String.eqb_spec (domainSchedule.VisitStatus s) "cancelled");
            [auto |].
          exfalso. apply Hnot. eapply lifecycle.moves; eassumption.
      - left. intros Hl'. apply lifecycle_facts.index_valid_label in Hl'. congruence. }
    destruct (lifecycle_facts.check_visit_status_Some s updates requested Hreq Hbad)
      as [msg Hmsg].
    split.
    + eapply usecase_facts.UpdateSchedule_status_blocks; eassumption.
    + intros H1 H2. exists msg.
      eapply usecase_facts.UpdateSchedule_status_rejected; eassumption.
Qed.

(** Schedule 10 of the sample, upcoming, is cancelled by [UpdateSchedule]. *)
Lemma visit_status_transitions_witness :
  lifecycle.may_change
    (lifecycle.Update 10 {[ "visit_status" := VString "cancelled" ]})
    "upcoming" "cancelled".
Proof.
  refine (proj1 (visit_status_transitions sample.conn
                   (lifecycle.Update 10 {[ "visit_status" := VString "cancelled" ]})
                   sample.db)
            10
            (psql.toDomainMapper
               (psql.preload sample.db (sample.row 10 2 "upcoming")))
            (psql.toDomainMapper
               (psql.mkSchedule 10 1 2 "Home visit" 1000 2000 "cancelled" None
                  None None None None None [] None 10 5000))
            _ _).
  - vm_compute. reflexivity.
  - vm_compute. reflexivity.
Defined.

(** The two ways past the status block, on schedule 12 of the sample,
    which is completed: under the field name its status becomes a value
    that is no label, and as a pointer to a string it becomes "upcoming"
    again. *)
Example UpdateSchedule_unchecked_status :
  (exists db' updated,
      di.UpdateSchedule sample.conn 12 {[ "VisitStatus" := VString "bogus" ]}
        sample.db = (db', Ok updated)
      /\ map psql.VisitStatus (psql.schedules db')
         = [ "upcoming"; "in_progress"; "bogus" ])
  /\ (exists db' updated,
         di.UpdateSchedule sample.conn 12
           {[ "visit_status" := VStringPtr (Some "upcoming") ]} sample.db
         = (db', Ok updated)
         /\ map psql.VisitStatus (psql.schedules db')
            = [ "upcoming"; "in_progress"; "upcoming" ]).
Proof.
  split; eexists; eexists; (split; [vm_compute; reflexivity |]); reflexivity.
Qed.

(** ** The scheduled slot *)
Module slot_facts.
Import slot.

Lemma After_iff t u : After t u = true <-> ~ t <= u.
Proof. unfold After. rewrite Z.ltb_lt. lia. Qed.

Lemma collect_updates_no_slot request k :
  k <> "client_user_id" -> k <> "assigned_user_id" ->
  k <> "service_name" -> k <> "visit_status" ->
  controller.collect_updates request !! k = None.
Proof.
  intros H1 H2 H3 H4. unfold controller.collect_updates.
  repeat match goal with
         | |- context [if ?b then _ else _] => destruct b
         end;
    rewrite ?lookup_insert_ne by congruence; apply lookup_empty.
Qed.

(** The slot of a row rewritten by a field map of the controller. *)
Lemma rewritten_slot conn updates row row' from to :
  psql.update_schedule_row conn updates row = Some row' ->
  updates !! "ScheduledSlotFrom" = None ->
  updates !! "ScheduledSlotTo" = None ->
  (updates !! "scheduled_slot_from" = None
   /\ updates !! "scheduled_slot_to" = None
   /\ from = psql.ScheduledSlotFrom row /\ to = psql.ScheduledSlotTo row)
  \/ (updates !! "scheduled_slot_from" = Some (VTime from)
      /\ updates !! "scheduled_slot_to" = Some (VTime to)) ->
  psql.ScheduledSlotFrom row' = from /\ psql.ScheduledSlotTo row' = to.
Proof.
  intros H Hf Ht Hkeys. apply psql_facts.update_schedule_row_Some in H.
  destruct H as (_ & _ & _ & _ & Hfrom & Hto & _).
  destruct Hkeys as [(Hnf & Hnt & -> & ->) | (Hsf & Hst)].
  - rewrite psql_facts.assign_absent in Hfrom, Hto by assumption.
    split; congruence.
  - rewrite (psql_facts.assign_by_column _ _ _ _ _ _ Hsf Hf) in Hfrom.
    rewrite (psql_facts.assign_by_column _ _ _ _ _ _ Hst Ht) in Hto.
    cbn in Hfrom, Hto. split; congruence.
Qed.

(** A field map that leaves the slot alone, or writes a slot in order,
    keeps the slots of the store in order. *)
Lemma UpdateSchedule_keeps_slots conn id updates db db' r :
  slots_ok db ->
  psql.UpdateSchedule conn id updates db = (db', r) ->
  updates !! "ScheduledSlotFrom" = None ->
  updates !! "ScheduledSlotTo" = None ->
  (updates !! "scheduled_slot_from" = None
   /\ updates !! "scheduled_slot_to" = None)
  \/ (exists from to,
         updates !! "scheduled_slot_from" = Some (VTime from)
         /\ updates !! "scheduled_slot_to" = Some (VTime to)
         /\ from <= to) ->
  slots_ok db'.
Proof.
  intros Hinv H Hf Ht Hkeys.
  apply psql_facts.UpdateSchedule_any in H
    as [[-> _] | (row0 & row0' & _ & Hup & _ & -> & _)]; [exact Hinv |].
  unfold slots_ok, psql.rewritten, psql.save_preloaded in *. cbn.
  apply Forall_map. eapply Forall_impl; [exact Hinv |].
  intros row Hrow. cbn beta. unfold psql.rewrite_schedule.
  destruct (psql.ID row =? id); [| exact Hrow].
  destruct (psql_facts.update_schedule_row_indep _ _ _ row _ Hup) as [r1 Hr1].
  rewrite Hr1. cbn.
  destruct Hkeys as [[Hnf Hnt] | (from & to & Hsf & Hst & Hle)].
  - destruct (rewritten_slot conn updates row r1 _ _ Hr1 Hf Ht
                (or_introl (conj Hnf (conj Hnt (conj eq_refl eq_refl)))))
      as [-> ->].
    exact Hrow.
  - destruct (rewritten_slot conn updates row r1 from to Hr1 Hf Ht
                (or_intror (conj Hsf Hst))) as [-> ->].
    exact Hle.
Qed.


Ltac turned_down Hinv :=
  intros [= <- <-];
  split; [exact Hinv |];
  split; [intros _; split; [reflexivity | eauto] | intros ? ? [=]].

Lemma CreateSchedule_handler conn rnd bound db db' w :
  slots_ok db ->
  di.CreateScheduleHandler conn rnd bound db = (db', w) ->
  slots_ok db'
  /\ (create_violates bound ->
      db' = db /\ exists msg, w = controller.CtxError (AppError msg ValidationError))
  /\ (forall status body,
         w = controller.JSON status body ->
         in_order (controller.ScheduledSlot_ body)).
Proof.
  intros Hinv. unfold di.CreateScheduleHandler, controller.CreateSchedule.
  destruct bound as [err | request]; [turned_down Hinv |].
  destruct (controller.Create_ClientUserID request =? Nil);
    [turned_down Hinv |].
  destruct (IsZero _ || IsZero _); [turned_down Hinv |].
  destruct (After _ _) eqn:Hafter; [turned_down Hinv |].
  assert (Horder : in_order (controller.Create_ScheduledSlot request)).
  { unfold in_order. unfold After in Hafter. apply Z.ltb_ge in Hafter.
    exact Hafter. }
  assert (Hno : ~ create_violates (inr request)).
  { intros (request' & [= <-] & Hbad). contradiction. }
  destruct (length _ =? 0)%nat.
  { intros [= <- <-]. split; [exact Hinv |].
    split; [intros Hbad; contradiction | intros ? ? [=]]. }
  destruct (usecase_facts.CreateSchedule_cases
              (psql.NewScheduleRepository conn) (psql.NewUserRepository conn)
              rnd (controller.new_schedule request) db) as [[msg Hf] | Hf];
    rewrite Hf.
  { intros [= <- <-]. split; [exact Hinv |].
    split; [intros Hbad; contradiction | intros ? ? [=]]. }
  cbn [domainSchedule.Create psql.NewScheduleRepository].
  destruct (psql.Create conn _ db) as [db1 [created | e]] eqn:Hc.
  - apply create_facts.Create_Ok in Hc
      as (id & row & _ & _ & _ & Hs & _ & _ & Hrf & Hrt & Hcf & Hct).
    intros [= <- <-]. split; [| split].
    + unfold slots_ok. rewrite Hs. apply Forall_app. split; [exact Hinv |].
      constructor; [| constructor]. rewrite Hrf, Hrt. exact Horder.
    + intros Hbad. contradiction.
    + intros status body [= _ <-]. unfold in_order. cbn.
      rewrite Hcf, Hct. exact Horder.
  - apply create_facts.Create_Err in Hc as ->.
    intros [= <- <-]. split; [exact Hinv |].
    split; [intros Hbad; contradiction | intros ? ? [=]].
Qed.

(** The end of the update handler, for a field map that leaves the
    slot alone or writes a slot in order. *)
Lemma send_updates_keeps_slots conn id updates db db' w :
  slots_ok db ->
  controller.send_updates (psql.NewScheduleRepository conn)
    (psql.NewUserRepository conn) id updates db = (db', w) ->
  updates !! "ScheduledSlotFrom" = None ->
  updates !! "ScheduledSlotTo" = None ->
  (updates !! "scheduled_slot_from" = None
   /\ updates !! "scheduled_slot_to" = None)
  \/ (exists from to,
         updates !! "scheduled_slot_from" = Some (VTime from)
         /\ updates !! "scheduled_slot_to" = Some (VTime to)
         /\ from <= to) ->
  slots_ok db'
  /\ (forall status body,
         w = controller.JSON status body ->
         in_order (controller.ScheduledSlot_ (controller.Schedule body))).
Proof.
  intros Hinv H Hf Ht Hkeys. unfold controller.send_updates in H.
  destruct (size updates =? 0)%nat.
  { injection H as <- <-. split; [exact Hinv | intros ? ? [=]]. }
  destruct (usecase_facts.UpdateSchedule_cases
              (psql.NewScheduleRepository conn) (psql.NewUserRepository conn)
              id updates db) as [[e He] | (s & _ & _ & Hrun)].
  { rewrite He in H. injection H as <- <-.
    split; [exact Hinv | intros ? ? [=]]. }
  rewrite Hrun in H.
  cbn [domainSchedule.UpdateSchedule psql.NewScheduleRepository] in H.
  destruct (psql.UpdateSchedule conn id updates db) as [db1 r] eqn:Hu.
  pose proof (UpdateSchedule_keeps_slots _ _ _ _ _ _ Hinv Hu Hf Ht Hkeys)
    as Hinv1.
  destruct r as [updated | e].
  - injection H as <- <-. split; [exact Hinv1 |].
    intros status body [= _ <-].
    apply psql_facts.UpdateSchedule_Ok in Hu
      as (_ & row & row' & _ & _ & Hfind & ->).
    apply find_some in Hfind as [Hin _].
    unfold slots_ok in Hinv1. rewrite Forall_forall in Hinv1.
    unfold in_order. cbn. apply Hinv1. apply list_elem_of_In. exact Hin.
  - injection H as <- <-. split; [exact Hinv1 | intros ? ? [=]].
Qed.

Lemma UpdateSchedule_handler conn id bound db db' w :
  slots_ok db ->
  di.UpdateScheduleHandler conn id bound db = (db', w) ->
  slots_ok db'
  /\ (update_violates bound ->
      db' = db
      /\ exists e,
           w = controller.CtxError e
           /\ match id with
              | None => e = AppError "schedule id is invalid" ValidationError
              | Some i =>
                  match psql.GetScheduleByID conn i db with
                  | Ok _ => error_type e = Some ValidationError
                  | Err err =>
                      e = err
                      /\ (e = AppErrorWithType NotFound
                          \/ e = AppErrorWithType UnknownError)
                  end
              end)
  /\ (forall status body,
         w = controller.JSON status body ->
         in_order (controller.ScheduledSlot_ (controller.Schedule body))).
Proof.
  intros Hinv. unfold di.UpdateScheduleHandler, controller.UpdateSchedule.
  destruct id as [scheduleID |].
  2:{ intros [= <- <-]. split; [exact Hinv |].
      split; [| intros ? ? [=]].
      intros _. split; [reflexivity |]. eexists. split; reflexivity. }
  unfold usecase.GetScheduleWithClientInfo at 1.
  cbn [domainSchedule.GetScheduleByID psql.NewScheduleRepository].
  destruct (psql.GetScheduleByID conn scheduleID db) as [found | e] eqn:Hget.
  2:{ intros [= <- <-]. split; [exact Hinv |].
      split; [| intros ? ? [=]].
      intros _. split; [reflexivity |]. eexists. split; [reflexivity |].
      split; [reflexivity |].
      eapply psql_facts.GetScheduleByID_Err. exact Hget. }
  assert (Hread :
    match domainUser.GetByID (psql.NewUserRepository conn)
            (domainSchedule.ClientUserID found) db with
    | Ok client => Ok (found, Some client)
    | Err _ => Ok (found, None)
    end = Ok (found,
              match psql.GetByID conn (domainSchedule.ClientUserID found) db with
              | Ok client => Some client
              | Err _ => None
              end)).
  { cbn. destruct (psql.GetByID conn _ db); reflexivity. }
  rewrite Hread. clear Hread.
  destruct bound as [err | request].
  { intros [= <- <-]. split; [exact Hinv |].
    split; [| intros ? ? [=]].
    intros (request & s0 & [=] & _). }
  pose proof (collect_updates_no_slot request) as Hkeys.
  destruct (controller.Update_ScheduledSlot request) as [s0 |] eqn:Hslot.
  - destruct (IsZero _ || IsZero _).
    { intros [= <- <-]. split; [exact Hinv |].
      split; [| intros ? ? [=]].
      intros _. split; [reflexivity |]. eexists. split; reflexivity. }
    destruct (After _ _) eqn:Hafter.
    { intros [= <- <-]. split; [exact Hinv |].
      split; [| intros ? ? [=]].
      intros _. split; [reflexivity |]. eexists. split; reflexivity. }
    assert (Horder : in_order s0).
    { unfold in_order. unfold After in Hafter. apply Z.ltb_ge in Hafter.
      exact Hafter. }
    intros H.
    apply send_updates_keeps_slots in H as [Hinv1 Hbody]; try assumption.
    + split; [exact Hinv1 |]. split; [| exact Hbody].
      intros (request' & s1 & [= <-] & Hs1 & Hbad).
      rewrite Hslot in Hs1. injection Hs1 as <-. contradiction.
    + rewrite !lookup_insert_ne by congruence. apply Hkeys; congruence.
    + rewrite !lookup_insert_ne by congruence. apply Hkeys; congruence.
    + right. exists (controller.From s0), (controller.To s0).
      split; [| split; [| exact Horder]].
      * rewrite lookup_insert_ne by congruence. apply lookup_insert_eq.
      * apply lookup_insert_eq.
  - intros H.
    apply send_updates_keeps_slots in H as [Hinv1 Hbody]; try assumption.
    + split; [exact Hinv1 |]. split; [| exact Hbody].
      intros (request' & s1 & [= <-] & Hs1 & _). congruence.
    + apply Hkeys; congruence.
    + apply Hkeys; congruence.
    + left. split; apply Hkeys; congruence.
Qed.

End slot_facts.

(** C4, as stated, fails for the operations of the engine: the use case
    checks no slot. [CreateSchedule] stores a schedule whose slot runs from
    3000 back to 2000, and [UpdateSchedule] moves the beginning of the slot
    of schedule 10 of the sample, 1000 to 2000, to 9000; neither is turned
    down. *)
Lemma use_case_accepts_backwards_slot :
  (exists db' created,
      di.CreateSchedule sample.conn (fun _ => 0) create.backwards sample.db
        = (db', Ok created)
      /\ domainSchedule.From (domainSchedule.ScheduledSlot_ created) = 3000
      /\ domainSchedule.To (domainSchedule.ScheduledSlot_ created) = 2000
      /\ ~ slot.slots_ok db')
  /\ (exists db' updated,
         di.UpdateSchedule sample.conn 10 {[ "scheduled_slot_from" := VTime 9000 ]}
           sample.db = (db', Ok updated)
         /\ domainSchedule.From (domainSchedule.ScheduledSlot_ updated) = 9000
         /\ domainSchedule.To (domainSchedule.ScheduledSlot_ updated) = 2000
         /\ ~ slot.slots_ok db').
Proof.
  split.
  - eexists. eexists. split; [vm_compute; reflexivity |].
    split; [reflexivity |]. split; [reflexivity |].
    unfold slot.slots_ok. cbn. rewrite !Forall_cons. cbn. lia.
  - eexists. eexists. split; [vm_compute; reflexivity |].
    split; [reflexivity |]. split; [reflexivity |].
    unfold slot.slots_ok. cbn. rewrite !Forall_cons. cbn. lia.
Qed.

(** C4, amended. The slot is checked by the controller, in the handlers
    [CreateSchedule] and [UpdateSchedule], before the use case is called.
    Through these handlers scheduledSlot.from <= scheduledSlot.to is kept
    for every stored schedule: when it holds of the store before a
    request it holds after it, and of the schedule in the response. A
    creation whose slot has from after to writes nothing and ends in a
    ValidationError. An update whose slot has from after to writes
    nothing and ends in an error: the handler reads the schedule first,
    and when that read fails the error is the one of the read, NotFound
    for a schedule that is missing and UnknownError for a driver that
    fails; otherwise, and when the id of the path is invalid, it is a
    ValidationError. *)
Theorem scheduled_slot_invariant (conn : psql.Conn) (db : psql.Tables) :
  slot.slots_ok db ->
  (forall rnd bound db' w,
      di.CreateScheduleHandler conn rnd bound db = (db', w) ->
      slot.slots_ok db'
      /\ (slot.create_violates bound ->
          db' = db
          /\ exists msg, w = controller.CtxError (AppError msg ValidationError))
      /\ (forall status body,
             w = controller.JSON status body ->
             slot.in_order (controller.ScheduledSlot_ body)))
  /\ (forall id bound db' w,
         di.UpdateScheduleHandler conn id bound db = (db', w) ->
         slot.slots_ok db'
         /\ (slot.update_violates bound ->
             db' = db
             /\ exists e,
                  w = controller.CtxError e
                  /\ match id with
                     | None =>
                         e = AppError "schedule id is invalid" ValidationError
                     | Some i =>
                         match psql.GetScheduleByID conn i db with
                         | Ok _ => error_type e = Some ValidationError
                         | Err err =>
                             e = err
                             /\ (e = AppErrorWithType NotFound
                                 \/ e = AppErrorWithType UnknownError)
                         end
                     end)
         /\ (forall status body,
                w = controller.JSON status body ->
                slot.in_order
                  (controller.ScheduledSlot_ (controller.Schedule body)))).
Proof.
  intros Hinv. split.
  - intros rnd bound db' w H.
    eapply slot_facts.CreateSchedule_handler; eassumption.
  - intros id bound db' w H.
    eapply slot_facts.UpdateSchedule_handler; eassumption.
Qed.

(** The slot of schedule 10 of the sample is 1000 to 2000; a request to
    move it to 3000 to 2000 is turned down and the store stays as it is.
    The sample has no schedule 77: the same request for it ends in
    NotFound. *)
Lemma scheduled_slot_invariant_witness :
  slot.slots_ok sample.db
  /\ di.UpdateScheduleHandler sample.conn (Some 10)
       (inr slot.backwards_update) sample.db
     = (sample.db,
        controller.CtxError
          (AppError "ScheduledSlot 'From' cannot be after 'To'" ValidationError))
  /\ di.UpdateScheduleHandler sample.conn (Some 77)
       (inr slot.backwards_update) sample.db
     = (sample.db, controller.CtxError (AppErrorWithType NotFound)).
Proof.
  assert (Hok : slot.slots_ok sample.db).
  { unfold slot.slots_ok. cbn. repeat constructor; cbn; lia. }
  assert (Hbad : slot.update_violates (inr slot.backwards_update)).
  { exists slot.backwards_update, (controller.mkScheduledSlot 3000 2000).
    split; [reflexivity |]. split; [reflexivity |].
    unfold slot.in_order. cbn. lia. }
  split; [exact Hok |]. split.
  - assert (Hrun :
      di.UpdateScheduleHandler sample.conn (Some 10)
        (inr slot.backwards_update) sample.db
      = (sample.db,
         controller.CtxError
           (AppError "ScheduledSlot 'From' cannot be after 'To'"
              ValidationError)))
      by (vm_compute; reflexivity).
    destruct (proj2 (scheduled_slot_invariant sample.conn sample.db Hok)
                (Some 10) (inr slot.backwards_update) _ _ Hrun)
      as (_ & H & _).
    destruct (H Hbad) as [_ _]. exact Hrun.
  - destruct (di.UpdateScheduleHandler sample.conn (Some 77)
                (inr slot.backwards_update) sample.db) as [db' w] eqn:Hrun.
    destruct (proj2 (scheduled_slot_invariant sample.conn sample.db Hok)
                (Some 77) (inr slot.backwards_update) _ _ Hrun)
      as (_ & H & _).
    destruct (H Hbad) as [-> (e & -> & Herr)].
    change (psql.GetScheduleByID sample.conn 77 sample.db)
      with (@Err domainSchedule.Schedule (AppErrorWithType NotFound)) in Herr.
    destruct Herr as [-> _]. reflexivity.
Defined.

(** ** The scenarios of the specification, run on the sample *)
Example scenario_start_at_slot_begin :
  map psql.VisitStatus (psql.schedules scenarios.started)
    = [ "in_progress"; "in_progress"; "completed" ]
  /\ map psql.CheckinTime (psql.schedules scenarios.started)
     = [ Some 1000; None; None ].
Proof. vm_compute. split; reflexivity. Qed.

Example scenario_start_before_slot :
  di.StartSchedule sample.conn 10 500 sample.here sample.db
  = (sample.db, Err start.early).
Proof. vm_compute. reflexivity. Qed.

Example scenario_second_visit_of_assignee :
  di.StartSchedule sample.conn 13 1500 sample.here scenarios.second_visit
  = (scenarios.second_visit, Err start.occupied).
Proof. vm_compute. reflexivity. Qed.

Example scenario_end_with_task_update :
  map psql.VisitStatus (psql.schedules scenarios.ended)
    = [ "completed"; "in_progress"; "completed" ]
  /\ map psql.Done (psql.tasks scenarios.ended) = [ Some true ].
Proof. vm_compute. split; reflexivity. Qed.

Example scenario_update_after_completion :
  snd (di.UpdateSchedule sample.conn 10
         {[ "visit_status" := VString "upcoming" ]} scenarios.ended)
  = Err (AppError "cannot change status from completed" ValidationError).
Proof. vm_compute. reflexivity. Qed.

(** * Further properties of the code *)

(** ** The mappers of the schedule repository *)
Module mapper_facts.

Lemma Task_round_trip (t : domainSchedule.Task) :
  psql.Task_toDomainMapper (psql.Task_fromDomain t) = t.
Proof. destruct t; reflexivity. Qed.

Lemma Task_model_round_trip (t : psql.Task) :
  psql.Task_fromDomain (psql.Task_toDomainMapper t) = t.
Proof. destruct t; reflexivity. Qed.

Lemma map_round_trip {A B} (f : A -> B) (g : B -> A) (l : list A) :
  (forall x, g (f x) = x) -> map g (map f l) = l.
Proof.
  intros H. rewrite map_map. induction l as [| x l IH]; [reflexivity |].
  cbn. rewrite H, IH. reflexivity.
Qed.

Lemma to_from (s : domainSchedule.Schedule) :
  psql.toDomainMapper (psql.fromDomainMapper s) = s.
Proof.
  destruct s as [id c a n [f t] v ci co [la lo] [la' lo'] ts sn ca ua].
  unfold psql.toDomainMapper, psql.fromDomainMapper. cbn.
  rewrite (map_round_trip _ _ ts Task_round_trip). reflexivity.
Qed.

Lemma from_to (m : psql.Schedule) :
  psql.fromDomainMapper (psql.toDomainMapper m) = m.
Proof.
  destruct m as [id c a n f t v ci co la lo la' lo' ts sn ca ua].
  unfold psql.toDomainMapper, psql.fromDomainMapper. cbn.
  rewrite (map_round_trip _ _ ts Task_model_round_trip). reflexivity.
Qed.

End mapper_facts.

(** X1. The two mappers of the schedule repository undo each other: a
    domain schedule sent to its gorm model and back is the schedule it
    was, with its slot, its locations and each of its tasks, and so is a
    gorm model sent to the domain and back; a slice of models comes back
    from [arrayToDomainMapper] schedule by schedule, in order. *)
Theorem schedule_mappers_round_trip :
  (forall s : domainSchedule.Schedule,
      psql.toDomainMapper (psql.fromDomainMapper s) = s)
  /\ (forall m : psql.Schedule,
         psql.fromDomainMapper (psql.toDomainMapper m) = m)
  /\ (forall l : list domainSchedule.Schedule,
         psql.arrayToDomainMapper (map psql.fromDomainMapper l) = l).
Proof.
  split; [exact mapper_facts.to_from |].
  split; [exact mapper_facts.from_to |].
  intros l. unfold psql.arrayToDomainMapper.
  apply mapper_facts.map_round_trip. exact mapper_facts.to_from.
Qed.

(** ** Reading from the store *)
Module read_facts.
Import psql.

Lemma find_none_iff {A} (p : A -> bool) (l : list A) :
  List.find p l = None <-> forall x, In x l -> p x = false.
Proof.
  split.
  - intros H x Hx. eapply find_none; eassumption.
  - intros H. induction l as [| y l IH]; [reflexivity |].
    cbn. rewrite (H y (or_introl eq_refl)). apply IH.
    intros x Hx. apply H. right. exact Hx.
Qed.

(** A user the repository returns is the one that was asked for. *)
Lemma GetByID_Ok conn id db u :
  GetByID conn id db = Ok u -> domainUser.ID u = id /\ In u (users db).
Proof.
  unfold GetByID. destruct (Fails conn (SelectUser id)); [discriminate |].
  destruct (List.find _ _) as [u' |] eqn:E; [| discriminate].
  intros [= <-]. apply find_some in E as [Hin E]. apply Z.eqb_eq in E. auto.
Qed.

Lemma preload_ID db row : ID (preload db row) = ID row.
Proof. reflexivity. Qed.

Lemma preload_tasks db row :
  Tasks (preload db row)
  = List.filter (fun t => ScheduleID t =? ID row) (tasks db).
Proof. reflexivity. Qed.

Lemma Truncate_day now :
  let today := psqlReads.Truncate now (24 * psqlReads.Hour) in
  today <= now < psqlReads.Add today (24 * psqlReads.Hour)
  /\ today mod (24 * psqlReads.Hour) = 0.
Proof.
  unfold psqlReads.Truncate, psqlReads.Add, psqlReads.Hour.
  change (24 * (3600 * 1000000000) <=? 0) with false. cbv zeta.
  pose proof (Z.mod_pos_bound now (24 * (3600 * 1000000000)) ltac:(lia)) as Hb.
  split; [lia |].
  rewrite Zminus_mod, Zmod_mod, Z.sub_diag. reflexivity.
Qed.

End read_facts.

(** X2. [GetScheduleByID] reads by primary key. When the driver fails the
    query the answer is UnknownError; when no stored schedule has the id it
    is NotFound; otherwise it is a stored schedule with that id, and its
    tasks are the stored tasks whose schedule_id is that id, all of them
    and in the order of the table. The use case hands the answer on as it
    is. *)
Theorem GetScheduleByID_reads_by_primary_key
    (conn : psql.Conn) (id : UUID) (db : psql.Tables) :
  match usecaseReads.GetScheduleByID (psql.NewScheduleRepository conn) id db with
  | Ok s =>
      psql.Fails conn (psql.SelectSchedule id) = None
      /\ domainSchedule.ID s = id
      /\ (exists row,
             In row (psql.schedules db)
             /\ psql.ID row = id
             /\ psql.fromDomainMapper s
                = psql.set_Tasks
                    (List.filter (fun t => psql.ScheduleID t =? id)
                       (psql.tasks db))
                    row)
      /\ domainSchedule.Tasks s
         = map psql.Task_toDomainMapper
             (List.filter (fun t => psql.ScheduleID t =? id) (psql.tasks db))
  | Err e =>
      (psql.Fails conn (psql.SelectSchedule id) <> None
       /\ e = AppErrorWithType UnknownError)
      \/ (psql.Fails conn (psql.SelectSchedule id) = None
          /\ (forall row, In row (psql.schedules db) -> psql.ID row <> id)
          /\ e = AppErrorWithType NotFound)
  end.
Proof.
  unfold usecaseReads.GetScheduleByID.
  cbn [domainSchedule.GetScheduleByID psql.NewScheduleRepository].
  unfold psql.GetScheduleByID, psql.First_schedule.
  destruct (psql.Fails conn (psql.SelectSchedule id)) as [d |] eqn:Hf.
  - left. split; [discriminate | reflexivity].
  - destruct (List.find _ _) as [row |] eqn:E.
    + apply find_some in E as [Hin E]. apply Z.eqb_eq in E.
      split; [reflexivity |]. split; [exact E |]. split.
      * exists row. split; [exact Hin |]. split; [exact E |].
        rewrite mapper_facts.from_to.
        unfold psql.preload. rewrite E. reflexivity.
      * cbn. rewrite E. reflexivity.
    + right. split; [reflexivity |]. split; [| reflexivity].
      intros row Hin Hid. apply (find_none _ _ E) in Hin.
      apply Z.eqb_neq in Hin. contradiction.
Qed.

(** X3. The occupancy query, [GetSchedulesInProgressByAssignedUserID]:
    when the driver fails it the answer is UnknownError; otherwise it is a
    slice, never nil, that holds the stored schedules of that assignee
    whose visitStatus is "in_progress", each read with its tasks: every
    schedule of the slice is such a schedule, and every such stored
    schedule is in the slice. *)
Theorem in_progress_query_is_exact
    (conn : psql.Conn) (assignedUserID : UUID) (db : psql.Tables) :
  match usecaseReads.GetSchedulesInProgressByAssignedUserID
          (psql.NewScheduleRepository conn) assignedUserID db with
  | Ok found =>
      psql.Fails conn (psql.SelectSchedulesInProgress assignedUserID) = None
      /\ exists l,
           found = Some l
           /\ (forall s,
                  In s l <->
                  exists row,
                    In row (psql.schedules db)
                    /\ psql.AssignedUserID row = assignedUserID
                    /\ psql.VisitStatus row = "in_progress"
                    /\ s = listing.read db row)
  | Err e =>
      psql.Fails conn (psql.SelectSchedulesInProgress assignedUserID) <> None
      /\ e = AppErrorWithType UnknownError
  end.
Proof.
  unfold usecaseReads.GetSchedulesInProgressByAssignedUserID.
  cbn [domainSchedule.GetSchedulesInProgressByAssignedUserID
         psql.NewScheduleRepository].
  unfold psql.GetSchedulesInProgressByAssignedUserID.
  destruct (psql.Fails conn _) as [d |].
  - split; [discriminate | reflexivity].
  - split; [reflexivity |]. eexists. split; [reflexivity |].
    intros s. unfold psql.arrayToDomainMapper. rewrite map_map.
    rewrite in_map_iff. split.
    + intros (row & <- & Hin). apply filter_In in Hin as [Hin Hp].
      apply andb_true_iff in Hp as [Ha Hv].
      apply Z.eqb_eq in Ha. apply String.eqb_eq in Hv.
      exists row. repeat split; assumption.
    + intros (row & Hin & Ha & Hv & ->). exists row. split; [reflexivity |].
      apply filter_In. split; [exact Hin |].
      rewrite Ha, Hv, Z.eqb_refl. reflexivity.
Qed.

(** X4. [GetTodaySchedules] of the repository: "today" is the 24 hours
    that begin at the last multiple of 24 hours, counted from the zero
    time, not after [time.Now()]. When the driver fails the query the
    answer is UnknownError; otherwise it is a slice, never nil, that holds
    the stored schedules whose client is the given user and whose slot
    begins in those 24 hours (the first instant in, the last out), each
    read with its tasks. *)
Theorem today_query_is_exact
    (conn : psql.Conn) (fails : psqlReads.Query -> option psql.DriverError)
    (userID : UUID) (db : psql.Tables) :
  listing.begins_today (psql.Now conn) (psql.Now conn)
  /\ listing.today (psql.Now conn) mod (24 * psqlReads.Hour) = 0
  /\ match psqlReads.GetTodaySchedules conn fails userID db with
     | Ok found =>
         fails (psqlReads.SelectTodaySchedules userID) = None
         /\ exists l,
              found = Some l
              /\ (forall s,
                     In s l <->
                     exists row,
                       In row (psql.schedules db)
                       /\ psql.ClientUserID row = userID
                       /\ listing.begins_today (psql.Now conn)
                            (psql.ScheduledSlotFrom row)
                       /\ s = listing.read db row)
     | Err e =>
         fails (psqlReads.SelectTodaySchedules userID) <> None
         /\ e = AppErrorWithType UnknownError
     end.
Proof.
  pose proof (read_facts.Truncate_day (psql.Now conn)) as Hday.
  cbv zeta in Hday. unfold listing.begins_today, listing.today.
  unfold psqlReads.Truncate, psqlReads.Add in *.
  change (24 * psqlReads.Hour <=? 0) with false in *. cbv iota in *.
  split; [exact (proj1 Hday) |]. split; [exact (proj2 Hday) |].
  unfold psqlReads.GetTodaySchedules, psqlReads.Truncate, psqlReads.Add.
  change (24 * psqlReads.Hour <=? 0) with false. cbv iota zeta.
  destruct (fails _) as [d |].
  - split; [discriminate | reflexivity].
  - split; [reflexivity |]. eexists. split; [reflexivity |].
    intros s. unfold psql.arrayToDomainMapper. rewrite map_map.
    rewrite in_map_iff. split.
    + intros (row & <- & Hin). apply filter_In in Hin as [Hin Hp].
      apply andb_true_iff in Hp as [Hc Hw].
      apply andb_true_iff in Hw as [Hlo Hhi].
      apply Z.eqb_eq in Hc. apply Z.leb_le in Hlo. apply Z.ltb_lt in Hhi.
      exists row. repeat split; assumption.
    + intros (row & Hin & Hc & [Hlo Hhi] & ->). exists row.
      split; [reflexivity |]. apply filter_In. split; [exact Hin |].
      rewrite Hc, Z.eqb_refl.
      apply Z.leb_le in Hlo. apply Z.ltb_lt in Hhi. rewrite Hlo, Hhi.
      reflexivity.
Qed.

(** ** Schedules with their clients *)
Module client_facts.

Lemma response_without_client s :
  listing.response_with None s = controller.domainToResponseMapper s.
Proof. reflexivity. Qed.

(** The map of clients holds, under an id, the last client of the slice
    with that id. *)
Lemma collect_clientMap_lookup clients id :
  handlers.collect_clientMap clients !! id = listing.last_with_id id clients.
Proof.
  unfold handlers.collect_clientMap, listing.last_with_id.
  induction clients as [| client clients IH] using rev_ind; [reflexivity |].
  rewrite fold_left_app, rev_app_distr. cbn.
  destruct (Z.eqb_spec (domainUser.ID client) id) as [-> | Hne].
  - apply lookup_insert_eq.
  - rewrite lookup_insert_ne by exact Hne. exact IH.
Qed.

Lemma with_clients_pointwise schedules clients :
  handlers.arrayDomainToResponseMapperWithClients schedules clients
  = map (fun s =>
           listing.response_with
             (listing.last_with_id (domainSchedule.ClientUserID s) clients) s)
      schedules.
Proof.
  unfold handlers.arrayDomainToResponseMapperWithClients. cbv zeta.
  apply map_ext. intros s. rewrite collect_clientMap_lookup.
  destruct (listing.last_with_id _ clients); reflexivity.
Qed.

(** The ids [collect_clientIDs] gathers. *)
Lemma collect_clientIDs_acc schedules (acc : gmap Z bool) id :
  fold_left
    (fun clientIDs schedule =>
       <[domainSchedule.ClientUserID schedule := true]> clientIDs)
    schedules acc !! id
  = if existsb (fun s => domainSchedule.ClientUserID s =? id) schedules
    then Some true else acc !! id.
Proof.
  revert acc. induction schedules as [| s schedules IH]; intros acc;
    [reflexivity |].
  cbn [fold_left existsb]. rewrite IH.
  destruct (existsb _ schedules); [rewrite orb_true_r; reflexivity |].
  rewrite orb_false_r.
  destruct (Z.eqb_spec (domainSchedule.ClientUserID s) id) as [-> | Hne].
  - apply lookup_insert_eq.
  - apply lookup_insert_ne. exact Hne.
Qed.

Lemma visited rangeKeys schedules s :
  listing.visits_keys rangeKeys ->
  In s schedules ->
  In (domainSchedule.ClientUserID s)
    (rangeKeys (usecaseReads.collect_clientIDs schedules)).
Proof.
  intros Hrange Hin.
  eapply Permutation_in; [symmetry; apply Hrange |].
  apply list_elem_of_In. apply list_elem_of_fmap.
  exists (domainSchedule.ClientUserID s, true). split; [reflexivity |].
  apply elem_of_map_to_list. unfold usecaseReads.collect_clientIDs.
  rewrite collect_clientIDs_acc.
  assert (H : existsb
                (fun s0 => domainSchedule.ClientUserID s0
                           =? domainSchedule.ClientUserID s) schedules = true).
  { apply existsb_exists. exists s. split; [exact Hin | apply Z.eqb_refl]. }
  rewrite H. reflexivity.
Qed.

Section Stored.
Variable conn : psql.Conn.
Variable db : psql.Tables.

(** The clients found for a list of ids, gathered into the map of
    clients: under an id of the list is the stored user with that id, if
    the store gives one. *)
Lemma looked_up_acc ids (acc : gmap Z domainUser.User) id :
  fold_left
    (fun clientMap client => <[domainUser.ID client := client]> clientMap)
    (usecaseReads.lookup_clients (psql.NewUserRepository conn) ids db) acc
  !! id
  = if existsb (Z.eqb id) ids
    then match psql.GetByID conn id db with
         | Ok client => Some client
         | Err _ => acc !! id
         end
    else acc !! id.
Proof.
  revert acc. induction ids as [| i ids IH]; intros acc; [reflexivity |].
  cbn [usecaseReads.lookup_clients existsb].
  change (domainUser.GetByID (psql.NewUserRepository conn) i db)
    with (psql.GetByID conn i db).
  destruct (psql.GetByID conn i db) as [client | e] eqn:Hi.
  - cbn [fold_left]. rewrite IH.
    apply read_facts.GetByID_Ok in Hi as Hid. destruct Hid as [Hid _].
    rewrite Hid.
    destruct (Z.eqb_spec id i) as [-> | Hne]; cbn [orb].
    + rewrite Hi, lookup_insert_eq.
      destruct (existsb _ ids); reflexivity.
    + rewrite lookup_insert_ne by congruence. reflexivity.
  - rewrite IH.
    destruct (Z.eqb_spec id i) as [-> | Hne]; cbn [orb]; [| reflexivity].
    rewrite Hi. destruct (existsb _ ids); reflexivity.
Qed.

Lemma looked_up ids id :
  In id ids ->
  listing.last_with_id id
    (usecaseReads.lookup_clients (psql.NewUserRepository conn) ids db)
  = match psql.GetByID conn id db with
    | Ok client => Some client
    | Err _ => None
    end.
Proof.
  intros Hin. rewrite <- collect_clientMap_lookup.
  unfold handlers.collect_clientMap. rewrite looked_up_acc.
  assert (H : existsb (Z.eqb id) ids = true).
  { apply existsb_exists. exists id. split; [exact Hin | apply Z.eqb_refl]. }
  rewrite H. reflexivity.
Qed.

(** Whatever the order of the visit, each schedule gets the client the
    store has for it. *)
Lemma responses_with_stored_clients rangeKeys schedules :
  listing.visits_keys rangeKeys ->
  handlers.arrayDomainToResponseMapperWithClients schedules
    (snd (usecaseReads.with_clients (psql.NewUserRepository conn) rangeKeys
            (Some schedules) db))
  = map (fun s => listing.response_with (listing.stored_client conn db s) s)
      schedules.
Proof.
  intros Hrange. unfold usecaseReads.with_clients.
  destruct schedules as [| s0 rest]; [reflexivity |].
  cbn [length Nat.eqb snd]. set (schedules := s0 :: rest).
  rewrite with_clients_pointwise. apply map_ext_in. intros s Hin.
  rewrite looked_up by (apply visited; assumption).
  reflexivity.
Qed.

End Stored.
End client_facts.

(** X5. [arrayDomainToResponseMapperWithClients] answers schedule by
    schedule, in order: each response is that of [domainToResponseMapper],
    with the client whose ID is the ClientUserID of the schedule; when
    several clients of the slice have that ID the last one is taken, when
    none has it ClientInfo stays nil. Without clients it is
    [arrayDomainToResponseMapper]. *)
Theorem responses_take_the_last_client_with_the_id
    (schedules : list domainSchedule.Schedule)
    (clients : list domainUser.User) :
  handlers.arrayDomainToResponseMapperWithClients schedules clients
  = map (fun s =>
           listing.response_with
             (listing.last_with_id (domainSchedule.ClientUserID s) clients) s)
      schedules
  /\ length (handlers.arrayDomainToResponseMapperWithClients schedules clients)
     = length schedules
  /\ handlers.arrayDomainToResponseMapperWithClients schedules []
     = handlers.arrayDomainToResponseMapper schedules.
Proof.
  split; [apply client_facts.with_clients_pointwise |]. split.
  - unfold handlers.arrayDomainToResponseMapperWithClients. cbv zeta.
    apply length_map.
  - reflexivity.
Qed.

(** X6. The handler [GetSchedules] over the gorm repositories. When the
    driver fails the listing the answer is the UnknownError; otherwise it
    is 200 with one response for each stored schedule, in the order of the
    table, each with its tasks and with the stored user whose ID is its
    ClientUserID as ClientInfo (nil when the store gives no such user).
    The handler never panics, and the order in which Go visits the map of
    client ids does not show in the answer. *)
Theorem GetSchedules_lists_every_schedule_with_its_client
    (conn : psql.Conn) (fails : psqlReads.Query -> option psql.DriverError)
    (rangeKeys : gmap Z bool -> list UUID) (db : psql.Tables) :
  listing.visits_keys rangeKeys ->
  app.GetSchedules conn fails rangeKeys db
  = match fails psqlReads.SelectSchedules with
    | Some _ =>
        handlers.Answered
          (controller.CtxError (AppErrorWithType UnknownError))
    | None =>
        handlers.Answered
          (controller.JSON 200
             (map (fun row =>
                     listing.response_with
                       (listing.stored_client conn db (listing.read db row))
                       (listing.read db row))
                (psql.schedules db)))
    end.
Proof.
  intros Hrange. unfold app.GetSchedules, handlers.GetSchedules.
  unfold usecaseReads.GetSchedulesWithClientInfo.
  cbn [domainScheduleLists.GetSchedules psqlReads.NewScheduleLists].
  unfold psqlReads.GetSchedules.
  destruct (fails psqlReads.SelectSchedules); [reflexivity |].
  set (l := psql.arrayToDomainMapper _).
  pose proof (client_facts.responses_with_stored_clients conn db rangeKeys l
                Hrange) as H.
  destruct (usecaseReads.with_clients _ rangeKeys (Some l) db)
    as [found clients] eqn:Hw.
  assert (found = Some l) as ->.
  { unfold usecaseReads.with_clients in Hw.
    destruct (length l =? 0)%nat; injection Hw as <- _; reflexivity. }
  cbn [snd] in H. rewrite H. unfold l, psql.arrayToDomainMapper.
  rewrite !map_map. reflexivity.
Qed.

Lemma GetSchedules_lists_every_schedule_with_its_client_witness :
  app.GetSchedules sample.conn (fun _ => None)
    (fun m => (map_to_list m).*1) sample.db
  = handlers.Answered
      (controller.JSON 200
         (map (fun row =>
                 listing.response_with
                   (listing.stored_client sample.conn sample.db
                      (listing.read sample.db row))
                   (listing.read sample.db row))
            (psql.schedules sample.db))).
Proof.
  apply (GetSchedules_lists_every_schedule_with_its_client sample.conn
           (fun _ => None) (fun m => (map_to_list m).*1) sample.db).
  intros m. reflexivity.
Defined.

(** ** The schedules of today *)
Module today_facts.

Lemma filter_ext_bool {A} (p q : A -> bool) (l : list A) :
  (forall x, p x = q x) -> List.filter p l = List.filter q l.
Proof.
  intros H. induction l as [| x l IH]; [reflexivity |].
  cbn. rewrite H, IH. reflexivity.
Qed.

(** The rows the query of [GetTodaySchedules] selects. *)
Lemma selected conn userID db :
  List.filter
    (fun row =>
       (psql.ClientUserID row =? userID)
       && ((psqlReads.Truncate (psql.Now conn) (24 * psqlReads.Hour)
            <=? psql.ScheduledSlotFrom row)
           && (psql.ScheduledSlotFrom row
               <? psqlReads.Add
                    (psqlReads.Truncate (psql.Now conn) (24 * psqlReads.Hour))
                    (24 * psqlReads.Hour))))
    (psql.schedules db)
  = listing.todays (psql.Now conn) userID db.
Proof.
  unfold listing.todays. apply filter_ext_bool. intros row.
  unfold listing.begins_today, listing.today, psqlReads.Truncate, psqlReads.Add.
  change (24 * psqlReads.Hour <=? 0) with false. cbv iota.
  destruct (Z.eqb_spec (psql.ClientUserID row) userID) as [Hc | Hc];
    destruct (Z.leb_spec
                (psql.Now conn - psql.Now conn mod (24 * psqlReads.Hour))
                (psql.ScheduledSlotFrom row)) as [Hlo | Hlo];
    destruct (Z.ltb_spec
                (psql.ScheduledSlotFrom row)
                (psql.Now conn - psql.Now conn mod (24 * psqlReads.Hour)
                 + 24 * psqlReads.Hour)) as [Hhi | Hhi];
    cbn; symmetry;
    first [ apply bool_decide_eq_true; split; [assumption | lia]
          | apply bool_decide_eq_false; intros [? ?]; first [contradiction | lia] ].
Qed.

End today_facts.

(** X7. The handler [GetTodaySchedules] over the gorm repositories. An
    empty ClientUserID parameter and one that spells no UUID are turned
    down with a ValidationError; when the store gives no user with that
    id (it has none, or the driver fails the lookup) the answer is the
    NotFound "user not found"; when the driver fails the listing it is the
    UnknownError. Otherwise the answer is 200 with the stored schedules of
    that client that begin today, in the order of the table, each with
    its tasks and with that user as ClientInfo. The handler never panics,
    and the order in which Go visits the map of client ids does not show
    in the answer. *)
Theorem GetTodaySchedules_lists_the_day_of_a_client
    (conn : psql.Conn) (fails : psqlReads.Query -> option psql.DriverError)
    (rangeKeys : gmap Z bool -> list UUID) (Parse : string -> option UUID)
    (userIDStr : string) (db : psql.Tables) :
  listing.visits_keys rangeKeys ->
  app.GetTodaySchedules conn fails rangeKeys Parse userIDStr db
  = if String.eqb userIDStr "" then
      handlers.Answered
        (controller.CtxError
           (AppError "ClientUserID query parameter is required"
              ValidationError))
    else
      match Parse userIDStr with
      | None =>
          handlers.Answered
            (controller.CtxError
               (AppError "Invalid ClientUserID format" ValidationError))
      | Some userID =>
          match psql.GetByID conn userID db with
          | Err _ =>
              handlers.Answered
                (controller.CtxError (AppError "user not found" NotFound))
          | Ok client =>
              match fails (psqlReads.SelectTodaySchedules userID) with
              | Some _ =>
                  handlers.Answered
                    (controller.CtxError (AppErrorWithType UnknownError))
              | None =>
                  handlers.Answered
                    (controller.JSON 200
                       (map (fun row =>
                               listing.response_with (Some client)
                                 (listing.read db row))
                          (listing.todays (psql.Now conn) userID db)))
              end
          end
      end.
Proof.
  intros Hrange. unfold app.GetTodaySchedules, handlers.GetTodaySchedules.
  destruct (String.eqb userIDStr ""); [reflexivity |].
  destruct (Parse userIDStr) as [userID |]; [| reflexivity].
  unfold usecaseReads.GetTodaySchedulesWithClientInfo,
    usecaseReads.GetTodaySchedules.
  change (domainUser.GetByID (psql.NewUserRepository conn) userID db)
    with (psql.GetByID conn userID db).
  destruct (psql.GetByID conn userID db) as [client | e] eqn:Hclient;
    [| reflexivity].
  cbn [domainScheduleLists.GetTodaySchedules psqlReads.NewScheduleLists].
  unfold psqlReads.GetTodaySchedules. cbv zeta.
  destruct (fails (psqlReads.SelectTodaySchedules userID)); [reflexivity |].
  rewrite today_facts.selected.
  set (l := psql.arrayToDomainMapper _).
  pose proof (client_facts.responses_with_stored_clients conn db rangeKeys l
                Hrange) as H.
  destruct (usecaseReads.with_clients _ rangeKeys (Some l) db)
    as [found clients] eqn:Hw.
  assert (found = Some l) as ->.
  { unfold usecaseReads.with_clients in Hw.
    destruct (length l =? 0)%nat; injection Hw as <- _; reflexivity. }
  cbn [snd] in H. rewrite H. unfold l, psql.arrayToDomainMapper.
  rewrite !map_map. do 2 f_equal. apply map_ext_in. intros row Hin.
  unfold listing.todays in Hin. apply filter_In in Hin as [_ Hp].
  apply bool_decide_eq_true in Hp as [Hc _].
  unfold listing.stored_client, listing.read. cbn [psql.toDomainMapper
    domainSchedule.ClientUserID psql.preload psql.set_Tasks psql.ClientUserID].
  rewrite Hc, Hclient. reflexivity.
Qed.

(** The map of client ids visited in the order of its keys; the parameter
    spells the id of user 1 of the sample, the client of its schedules. *)
Lemma GetTodaySchedules_lists_the_day_of_a_client_witness :
  exists client,
    psql.GetByID sample.conn 1 sample.db = Ok client
    /\ app.GetTodaySchedules sample.conn (fun _ => None)
         (fun m => (map_to_list m).*1) (fun _ => Some 1) "1" sample.db
       = handlers.Answered
           (controller.JSON 200
              (map (fun row =>
                      listing.response_with (Some client)
                        (listing.read sample.db row))
                 (listing.todays (psql.Now sample.conn) 1 sample.db))).
Proof.
  eexists. split; [vm_compute; reflexivity |].
  exact (GetTodaySchedules_lists_the_day_of_a_client sample.conn
           (fun _ => None) (fun m => (map_to_list m).*1) (fun _ => Some 1)
           "1" sample.db (fun m => reflexivity _)).
Defined.

(** X8. The handler [GetScheduleByID] over the gorm repositories. It
    answers 200 only for an id that parses and that a stored schedule
    has: the body is that schedule, with its tasks; its ClientInfo is the
    stored user whose ID is its ClientUserID, and nil when the store gives
    no such user, which is no error. It answers with an error when the id
    does not parse (the ValidationError "schedule id is invalid") and when
    the schedule cannot be read (NotFound when no stored schedule has the
    id, UnknownError when the driver fails). *)
Theorem GetScheduleByID_answers_with_the_stored_client
    (conn : psql.Conn) (Parse : string -> option UUID)
    (scheduleIDStr : string) (db : psql.Tables) :
  match app.GetScheduleByID conn Parse scheduleIDStr db with
  | controller.JSON status body =>
      status = 200
      /\ Parse scheduleIDStr = Some (controller.ID body)
      /\ (exists row,
             In row (psql.schedules db)
             /\ psql.ID row = controller.ID body
             /\ body = listing.response_with
                         (listing.stored_client conn db (listing.read db row))
                         (listing.read db row))
      /\ match controller.ClientInfo_ body with
         | Some info =>
             controller.ClientID info = controller.ClientUserID body
             /\ exists client,
                  In client (psql.users db)
                  /\ controller.clientToResponseMapper (Some client) = Some info
         | None =>
             forall client,
               psql.GetByID conn (controller.ClientUserID body) db <> Ok client
         end
  | controller.CtxError e =>
      (Parse scheduleIDStr = None
       /\ e = AppError "schedule id is invalid" ValidationError)
      \/ (exists id,
             Parse scheduleIDStr = Some id
             /\ psql.GetScheduleByID conn id db = Err e
             /\ (e = AppErrorWithType NotFound
                 \/ e = AppErrorWithType UnknownError))
  end.
Proof.
  unfold app.GetScheduleByID, handlers.GetScheduleByID.
  destruct (Parse scheduleIDStr) as [id |]; [| left; split; reflexivity].
  unfold usecase.GetScheduleWithClientInfo.
  cbn [domainSchedule.GetScheduleByID psql.NewScheduleRepository].
  destruct (psql.GetScheduleByID conn id db) as [s | e] eqn:Hs.
  - apply psql_facts.GetScheduleByID_Ok in Hs as (row & Hfind & Hid & ->).
    apply find_some in Hfind as [Hin _].
    change (domainUser.GetByID (psql.NewUserRepository conn) ?k db)
      with (psql.GetByID conn k db).
    assert (Hbody :
      match psql.GetByID conn
              (domainSchedule.ClientUserID
                 (psql.toDomainMapper (psql.preload db row))) db with
      | Ok client =>
          controller.JSON controller.StatusOK
            (controller.set_ClientInfo
               (controller.clientToResponseMapper (Some client))
               (controller.domainToResponseMapper
                  (psql.toDomainMapper (psql.preload db row))))
      | Err _ =>
          controller.JSON controller.StatusOK
            (controller.set_ClientInfo (controller.clientToResponseMapper None)
               (controller.domainToResponseMapper
                  (psql.toDomainMapper (psql.preload db row))))
      end
      = controller.JSON 200
          (listing.response_with
             (listing.stored_client conn db (listing.read db row))
             (listing.read db row))).
    { unfold listing.stored_client, listing.read.
      destruct (psql.GetByID conn _ db); reflexivity. }
    match goal with
    | |- match ?x with _ => _ end =>
        replace x with
          (controller.JSON (A:=controller.ScheduleResponse) 200
             (listing.response_with
                (listing.stored_client conn db (listing.read db row))
                (listing.read db row)))
    end.
    2:{ rewrite <- Hbody.
        destruct (psql.GetByID conn _ db); reflexivity. }
    subst id.
    split; [reflexivity |]. split; [reflexivity |]. split.
    + exists row. split; [exact Hin |]. split; reflexivity.
    + unfold listing.stored_client, listing.read.
      cbn [listing.response_with controller.set_ClientInfo
             controller.ClientInfo_ controller.ClientUserID
             controller.domainToResponseMapper].
      destruct (psql.GetByID conn _ db) as [client | e] eqn:Hc.
      * apply read_facts.GetByID_Ok in Hc as [Hcid Hcin]. cbn. split.
        -- exact Hcid.
        -- exists client. split; [exact Hcin | reflexivity].
      * cbn. intros client. congruence.
  - right. exists id. split; [reflexivity |]. split; [exact Hs |].
    unfold psql.GetScheduleByID in Hs.
    destruct (psql.First_schedule _ _ _ _) as [m | []];
      [discriminate Hs | | |]; injection Hs as <-; auto.
Qed.

(** ** Writing to the store *)
Module write_facts.
Import psql.

Lemma with_tasks_same db : with_tasks (tasks db) db = db.
Proof. destruct db; reflexivity. Qed.

Lemma with_schedules_same db : with_schedules (schedules db) db = db.
Proof. destruct db; reflexivity. Qed.

Lemma Forall2_map_same {A} (R : A -> A -> Prop) (f : A -> A) (l : list A) :
  (forall x, R x (f x)) -> Forall2 R l (map f l).
Proof.
  intros H. induction l as [| x l IH]; constructor; [apply H | exact IH].
Qed.

Lemma Forall2_same {A} (R : A -> A -> Prop) (l : list A) :
  (forall x, R x x) -> Forall2 R l l.
Proof.
  intros H. induction l as [| x l IH]; constructor; [apply H | exact IH].
Qed.

Lemma map_unchanged {A} (f : A -> A) (l : list A) :
  (forall x, In x l -> f x = x) -> map f l = l.
Proof.
  intros H. induction l as [| x l IH]; [reflexivity |].
  cbn. rewrite H by (left; reflexivity). rewrite IH; [reflexivity |].
  intros y Hy. apply H. right. exact Hy.
Qed.

(** Row by row, what an update of a schedule does to the tables,
    whatever the field map. *)
Lemma UpdateSchedule_pointwise_any conn id updates db db' r :
  UpdateSchedule conn id updates db = (db', r) ->
  users db' = users db
  /\ Forall2
       (fun row row' =>
          row' = row
          \/ (ID row = id /\ update_schedule_row conn updates row = Some row'))
       (schedules db) (schedules db')
  /\ Forall2
       (fun t t' =>
          t' = t \/ (ScheduleID t = id /\ exists new, t' = set_ScheduleID new t))
       (tasks db) (tasks db')
  /\ (field_map.keeps_id updates -> tasks db' = tasks db).
Proof.
  intros H.
  apply psql_facts.UpdateSchedule_any in H
    as [[-> _] | (row0 & row0' & Hrow0 & Hup & _ & -> & _)].
  - split; [reflexivity |]. split; [apply Forall2_same; auto |].
    split; [apply Forall2_same; auto | reflexivity].
  - split; [reflexivity |]. split; [| split].
    + cbn. apply Forall2_map_same. intros row. unfold rewrite_schedule.
      destruct (Z.eqb_spec (ID row) id) as [Hid | Hid]; [| auto].
      destruct (psql_facts.update_schedule_row_indep _ _ _ row _ Hup)
        as [r1 Hr1].
      rewrite Hr1. cbn. auto.
    + cbn. apply Forall2_map_same. intros t.
      destruct (Z.eqb_spec (ScheduleID t) id); eauto.
    + intros Hk.
      assert (Hid : ID row0' = id).
      { rewrite (psql_facts.update_schedule_row_ID _ _ _ _ Hk Hup).
        apply find_some in Hrow0 as [_ H0]. apply Z.eqb_eq in H0. exact H0. }
      rewrite Hid, psql_facts.save_preloaded_same. reflexivity.
Qed.

(** An update that does not name the id, or that succeeds, has kept the
    id of every schedule and has left the tasks alone: after the update
    the schedule is read again under the id of the call. *)
Lemma UpdateSchedule_kept_ids conn id updates db db' r :
  UpdateSchedule conn id updates db = (db', r) ->
  field_map.keeps_id updates \/ is_ok r = true ->
  tasks db' = tasks db
  /\ Forall2 (fun row row' => ID row' = ID row) (schedules db) (schedules db').
Proof.
  intros H Hkept.
  apply psql_facts.UpdateSchedule_any in H
    as [[-> _] | (row0 & row0' & Hrow0 & Hup & _ & -> & Hr)].
  { split; [reflexivity | apply Forall2_same; auto]. }
  assert (Hid0 : ID row0 = id).
  { apply find_some in Hrow0 as [_ H0]. apply Z.eqb_eq in H0. exact H0. }
  assert (Hid : ID row0' = id).
  { destruct Hkept as [Hk | Hok].
    - rewrite (psql_facts.update_schedule_row_ID _ _ _ _ Hk Hup). exact Hid0.
    - destruct r as [s | e]; [tauto | discriminate Hok]. }
  rewrite Hid, psql_facts.save_preloaded_same. split; [reflexivity |].
  cbn. apply Forall2_map_same. intros row.
  destruct (Z.eqb_spec (ID row) id) as [Hrid | Hrid].
  - destruct (psql_facts.rewrite_schedule_same _ _ _ row _ _ Hup Hid0 Hrid)
      as (row' & _ & -> & Hnew).
    congruence.
  - rewrite psql_facts.rewrite_schedule_other by exact Hrid. reflexivity.
Qed.

(** The same for a field map that does not name the id. *)
Lemma UpdateSchedule_pointwise conn id updates db db' r :
  field_map.keeps_id updates ->
  UpdateSchedule conn id updates db = (db', r) ->
  tasks db' = tasks db
  /\ users db' = users db
  /\ Forall2
       (fun row row' =>
          row' = row
          \/ (ID row = id /\ update_schedule_row conn updates row = Some row'))
       (schedules db) (schedules db').
Proof.
  intros Hk H.
  apply UpdateSchedule_pointwise_any in H as (Hu & Hs & _ & Ht). auto.
Qed.

(** An update of a schedule that meets no obstacle. *)
Lemma UpdateSchedule_runs conn id updates db row row' :
  field_map.keeps_id updates ->
  Fails conn (SelectSchedule id) = None ->
  Fails conn (UpdateScheduleRow id) = None ->
  Fails conn (ReloadSchedule id) = None ->
  id <> Nil ->
  List.find (fun row => ID row =? id) (schedules db) = Some row ->
  update_schedule_row conn updates row = Some row' ->
  UpdateSchedule conn id updates db
  = (rewritten conn id updates db,
     Ok (toDomainMapper (preload (rewritten conn id updates db) row'))).
Proof.
  intros Hk Hf1 Hf2 Hf3 Hnil Hrow Hup.
  assert (Hid : ID row = id).
  { apply find_some in Hrow as [_ H]. apply Z.eqb_eq in H. exact H. }
  unfold UpdateSchedule, First_schedule. rewrite Hf1, Hrow.
  unfold Updates_schedule. cbn [preload set_Tasks ID]. rewrite Hid.
  destruct (Z.eqb_spec id Nil) as [| _]; [contradiction |].
  rewrite Hf2.
  match goal with
  | |- context [update_schedule_row conn updates ?obj] =>
      destruct (psql_facts.update_schedule_row_indep _ _ _ obj _ Hup)
        as [r0 Hr0];
      rewrite Hr0;
      pose proof (psql_facts.update_schedule_row_ID _ _ _ _ Hk Hr0) as Hid0
  end.
  rewrite psql_facts.preload_keeps_ID, Hid in Hid0.
  rewrite Hid0, psql_facts.schedule_id_kept, psql_facts.save_preloaded_same.
  fold (rewritten conn id updates db). rewrite Hf3.
  assert (Hfind : List.find (fun row => ID row =? id)
                    (schedules (rewritten conn id updates db)) = Some row').
  { cbn. rewrite psql_facts.find_map_same
      by (intros x; now rewrite psql_facts.rewrite_schedule_ID by exact Hk).
    rewrite Hrow. cbn. unfold rewrite_schedule.
    rewrite Hid, Z.eqb_refl, Hup. reflexivity. }
  rewrite Hfind. reflexivity.
Qed.

(** The columns a field map does not name stay as they are. *)
Lemma untouched_columns conn updates row row' :
  update_schedule_row conn updates row = Some row' ->
  (updates !! "checkin_time" = None -> updates !! "CheckinTime" = None ->
   CheckinTime row' = CheckinTime row)
  /\ (updates !! "checkin_location_lat" = None ->
      updates !! "CheckinLocationLat" = None ->
      CheckinLocationLat row' = CheckinLocationLat row)
  /\ (updates !! "checkin_location_long" = None ->
      updates !! "CheckinLocationLong" = None ->
      CheckinLocationLong row' = CheckinLocationLong row)
  /\ (updates !! "checkout_time" = None -> updates !! "CheckoutTime" = None ->
      CheckoutTime row' = CheckoutTime row)
  /\ (updates !! "checkout_location_lat" = None ->
      updates !! "CheckoutLocationLat" = None ->
      CheckoutLocationLat row' = CheckoutLocationLat row)
  /\ (updates !! "checkout_location_long" = None ->
      updates !! "CheckoutLocationLong" = None ->
      CheckoutLocationLong row' = CheckoutLocationLong row)
  /\ (updates !! "visit_status" = None -> updates !! "VisitStatus" = None ->
      VisitStatus row' = VisitStatus row).
Proof.
  intros H. apply psql_facts.update_schedule_row_Some in H.
  destruct H as (_ & _ & _ & Hv & _ & _ & Hci & Hcla & Hclo & Hco & Hola & Holo).
  repeat split; intros Ha Hb;
    match goal with
    | |- ?f row' = ?f row =>
        match goal with
        | E : assign _ _ _ updates (f row) = Some (f row') |- _ =>
            rewrite psql_facts.assign_absent in E by assumption; congruence
        end
    end.
Qed.

(** Row by row, what an update of a task does to the table. *)
Lemma UpdateTask_pointwise conn id updates db :
  let db' := fst (UpdateTask conn id updates db) in
  schedules db' = schedules db
  /\ users db' = users db
  /\ Forall2
       (fun row row' =>
          row' = row
          \/ (TaskID row = id /\ update_task_row conn updates row = Some row'))
       (tasks db) (tasks db').
Proof.
  cbv zeta. split; [apply psql_facts.UpdateTask_schedules |].
  split; [apply psql_facts.UpdateTask_schedules |].
  unfold UpdateTask, Updates_task. cbn [TaskID].
  destruct (id =? Nil); [apply Forall2_same; auto |].
  destruct (Fails conn (UpdateTaskRow id)); [apply Forall2_same; auto |].
  destruct (update_task_row conn updates _) as [r0 |] eqn:Hup;
    [| apply Forall2_same; auto ].
  destruct (task_id_taken _ _ _); [apply Forall2_same; auto |].
  assert (H : Forall2
                (fun row row' =>
                   row' = row
                   \/ (TaskID row = id
                       /\ update_task_row conn updates row = Some row'))
                (tasks db) (map (rewrite_task conn id updates) (tasks db))).
  { apply Forall2_map_same. intros row. unfold rewrite_task.
    destruct (Z.eqb_spec (TaskID row) id) as [Hid | Hid]; [| auto].
    destruct (psql_facts.update_task_row_indep _ _ _ row _ Hup) as [r1 Hr1].
    rewrite Hr1. cbn. auto. }
  destruct (First_task conn id _); exact H.
Qed.

(** [Create], when it succeeds, to the letter. *)
Lemma Create_Ok_exact conn s db db' created :
  Create conn s db = (db', Ok created) ->
  let m := fromDomainMapper s in
  let id := fill_id (GenRandom conn 0%nat) (ID m) in
  let saved := create_tasks conn id 1%nat (Tasks m) in
  let row :=
    mkSchedule id (ClientUserID m) (AssignedUserID m) (ServiceName m)
      (ScheduledSlotFrom m) (ScheduledSlotTo m) (VisitStatus m)
      (CheckinTime m) (CheckoutTime m) (CheckinLocationLat m)
      (CheckinLocationLong m) (CheckoutLocationLat m)
      (CheckoutLocationLong m) [] (ServiceNote m)
      (fill_time conn (CreatedAt m)) (fill_time conn (UpdatedAt m)) in
  existsb (fun row => ID row =? id) (schedules db) = false
  /\ NoDup (map TaskID saved)
  /\ db' = mkTables (schedules db ++ [row])
             (fold_left upsert_task saved (tasks db)) (users db)
  /\ created = toDomainMapper (set_Tasks saved row).
Proof.
  unfold Create, Create_schedule.
  destruct (Fails conn InsertSchedule); [discriminate |].
  destruct (existsb _ _) eqn:He; [discriminate |].
  case_bool_decide as Hnd; [| discriminate].
  intros [= <- <-]. cbv zeta. split; [reflexivity |]. split; [exact Hnd |].
  split; reflexivity.
Qed.

Lemma create_tasks_schedule conn id n new :
  Forall (fun t => ScheduleID t = id) (create_tasks conn id n new).
Proof.
  revert n. induction new as [| t new IH]; intros n; constructor;
    [reflexivity | apply IH].
Qed.

(** Tasks with new ids are appended to the table as they are. *)
Lemma upsert_new saved tbl :
  NoDup (map TaskID saved) ->
  (forall old, In old tbl -> ~ In (TaskID old) (map TaskID saved)) ->
  fold_left upsert_task saved tbl = (tbl ++ saved)%list.
Proof.
  revert tbl. induction saved as [| t saved IH]; intros tbl Hnd Hfresh.
  - cbn. rewrite app_nil_r. reflexivity.
  - cbn [fold_left]. apply NoDup_cons in Hnd as [Hnotin Hnd].
    assert (Hnew : existsb (fun old => TaskID old =? TaskID t) tbl = false).
    { apply not_true_is_false. intros Hex.
      apply existsb_exists in Hex as (old & Hold & Heq).
      apply Z.eqb_eq in Heq. apply (Hfresh old Hold).
      cbn. left. congruence. }
    unfold upsert_task at 2. rewrite Hnew. rewrite IH.
    + rewrite <- app_assoc. reflexivity.
    + exact Hnd.
    + intros old Hold Hin. apply in_app_or in Hold as [Hold | [<- | []]].
      * apply (Hfresh old Hold). cbn. right. exact Hin.
      * apply Hnotin. apply list_elem_of_In. exact Hin.
Qed.

Lemma filter_all {A} (p : A -> bool) (l : list A) :
  Forall (fun x => p x = true) l -> List.filter p l = l.
Proof.
  induction 1 as [| x l Hx _ IH]; [reflexivity |].
  cbn. rewrite Hx, IH. reflexivity.
Qed.

Lemma filter_none {A} (p : A -> bool) (l : list A) :
  Forall (fun x => p x = false) l -> List.filter p l = [].
Proof.
  induction 1 as [| x l Hx _ IH]; [reflexivity |].
  cbn. rewrite Hx, IH. reflexivity.
Qed.

End write_facts.

(** X9. [UpdateSchedule], whatever the field map and whatever comes of
    the call, leaves the users as they are, adds and removes no schedule
    and touches no schedule with another id; a task is as it was, but
    for its schedule_id when it was a task of that schedule. When the
    field map does not name the id, and when the call succeeds, the tasks
    are as they were and every schedule has kept its ID; a schedule that
    is returned has the id of the call. When the field map does not name
    the creation time, every schedule has kept it. For an id no stored
    schedule has, nothing is written and the answer is the NotFound
    "schedule not found". *)
Theorem UpdateSchedule_changes_one_schedule
    (conn : psql.Conn) (id : UUID) (updates : gmap string Value)
    (db : psql.Tables) :
  let out := di.UpdateSchedule conn id updates db in
  psql.users (fst out) = psql.users db
  /\ Forall2 (fun row row' => psql.ID row <> id -> row' = row)
       (psql.schedules db) (psql.schedules (fst out))
  /\ Forall2
       (fun t t' =>
          t' = t
          \/ (psql.ScheduleID t = id
              /\ exists new, t' = psql.set_ScheduleID new t))
       (psql.tasks db) (psql.tasks (fst out))
  /\ (field_map.keeps_id updates \/ is_ok (snd out) = true ->
      psql.tasks (fst out) = psql.tasks db
      /\ Forall2 (fun row row' => psql.ID row' = psql.ID row)
           (psql.schedules db) (psql.schedules (fst out)))
  /\ (forall s, snd out = Ok s -> domainSchedule.ID s = id)
  /\ (field_map.keeps_created_at updates ->
      Forall2 (fun row row' => psql.CreatedAt row' = psql.CreatedAt row)
        (psql.schedules db) (psql.schedules (fst out)))
  /\ ((forall row, In row (psql.schedules db) -> psql.ID row <> id) ->
      out = (db, Err (AppError "schedule not found" NotFound))).
Proof.
  cbv zeta.
  assert (Hmissing :
    (forall row, In row (psql.schedules db) -> psql.ID row <> id) ->
    di.UpdateSchedule conn id updates db
    = (db, Err (AppError "schedule not found" NotFound))).
  { intros Hnone. unfold di.UpdateSchedule, usecase.UpdateSchedule.
    cbn [domainSchedule.GetScheduleByID psql.NewScheduleRepository].
    destruct (psql.GetScheduleByID conn id db) as [s | e] eqn:Hs;
      [| reflexivity].
    apply psql_facts.GetScheduleByID_Ok in Hs as (row & Hfind & Hid & _).
    apply find_some in Hfind as [Hin _]. exfalso. exact (Hnone row Hin Hid). }
  unfold di.UpdateSchedule in *.
  destruct (usecase_facts.UpdateSchedule_cases
              (psql.NewScheduleRepository conn) (psql.NewUserRepository conn)
              id updates db) as [[e He] | (s & _ & _ & Hrun)].
  { rewrite He in *. cbn [fst snd].
    split; [reflexivity |].
    split; [apply write_facts.Forall2_same; auto |].
    split; [apply write_facts.Forall2_same; auto |].
    split; [intros _; split;
              [reflexivity | apply write_facts.Forall2_same; auto] |].
    split; [intros s [=] |].
    split; [intros _; apply write_facts.Forall2_same; auto | exact Hmissing]. }
  rewrite Hrun in *.
  cbn [domainSchedule.UpdateSchedule psql.NewScheduleRepository] in *.
  destruct (psql.UpdateSchedule conn id updates db) as [db' r] eqn:Hu.
  cbn [fst snd].
  destruct (write_facts.UpdateSchedule_pointwise_any _ _ _ _ _ _ Hu)
    as (Husers & Hrows & Htasks & _).
  split; [exact Husers |]. split; [| split; [exact Htasks |]].
  { eapply Forall2_impl; [exact Hrows |].
    intros row row' [-> | [Hid _]]; [auto | intros Hne; contradiction]. }
  split; [exact (write_facts.UpdateSchedule_kept_ids _ _ _ _ _ _ Hu) |].
  split.
  { intros s0 ->.
    apply psql_facts.UpdateSchedule_Ok in Hu
      as (_ & row & row' & _ & _ & Hfind & ->).
    apply find_some in Hfind as [_ Hid]. apply Z.eqb_eq in Hid. exact Hid. }
  split; [| exact Hmissing].
  intros Hc. eapply Forall2_impl; [exact Hrows |].
  intros row row' [-> | [_ Hup]]; [reflexivity |].
  eapply psql_facts.update_schedule_row_CreatedAt; eassumption.
Qed.

(** A field map can name the id and the creation time. In the sample,
    schedule 11 becomes schedule 77, created at 7: the statement
    succeeds, the task of the schedule is saved under the new id, and the
    call ends in gorm's "record not found", since the schedule is read
    again under the id 11. An id that another schedule has is refused. *)
Example UpdateSchedule_can_change_the_id :
  (exists db',
      di.UpdateSchedule sample.conn 11
        {[ "id" := VUUID 77; "created_at" := VTime 7 ]} sample.db
      = (db', Err (OtherError "record not found"))
      /\ map (fun row => (psql.ID row, psql.CreatedAt row)) (psql.schedules db')
         = [ (10, 10); (77, 7); (12, 10) ]
      /\ map psql.ScheduleID (psql.tasks db') = [ 77 ])
  /\ di.UpdateSchedule sample.conn 11 {[ "id" := VUUID 12 ]} sample.db
     = (sample.db, Err (AppErrorWithType UnknownError)).
Proof.
  split; [eexists; split; [vm_compute; reflexivity |]; split; reflexivity |].
  vm_compute. reflexivity.
Qed.

(** X10. [UpdateTaskStatus] for a task the store does not have. With the
    id [uuid.Nil] gorm refuses the update and the answer is UnknownError.
    With another id that no stored task has (and a driver that fails
    neither statement) the update touches no row and the read that
    follows finds none: the answer is gorm's own "record not found", which
    is no error of the domain (it has no type, NotFound or other), and the
    store is as it was. *)
Theorem UpdateTaskStatus_of_a_missing_task
    (conn : psql.Conn) (id : UUID) (status : string) (done : bool)
    (feedback : string) (db : psql.Tables) :
  di.UpdateTaskStatus conn Nil status done feedback db
  = (db, Err (AppErrorWithType UnknownError))
  /\ (id <> Nil ->
      psql.Fails conn (psql.UpdateTaskRow id) = None ->
      psql.Fails conn (psql.SelectTask id) = None ->
      (forall row, In row (psql.tasks db) -> psql.TaskID row <> id) ->
      di.UpdateTaskStatus conn id status done feedback db
      = (db, Err (OtherError "record not found"))
      /\ error_type (OtherError "record not found") = None).
Proof.
  split; [reflexivity |].
  intros Hnil Hf1 Hf2 Hnone. split; [| reflexivity].
  unfold di.UpdateTaskStatus, usecase.UpdateTaskStatus.
  rewrite result_eta.
  cbn [domainSchedule.UpdateTask psql.NewScheduleRepository].
  unfold psql.UpdateTask, psql.Updates_task. cbn [psql.TaskID].
  destruct (Z.eqb_spec id Nil) as [| _]; [contradiction |].
  rewrite Hf1, task_facts.status_updates_row. cbn [psql.TaskID].
  rewrite psql_facts.task_id_kept.
  assert (Hsame :
    map (psql.rewrite_task conn id
           (usecase.task_status_updates status done feedback)) (psql.tasks db)
    = psql.tasks db).
  { apply write_facts.map_unchanged. intros row Hin.
    unfold psql.rewrite_task.
    destruct (Z.eqb_spec (psql.TaskID row) id) as [Hid | _]; [| reflexivity].
    exfalso. exact (Hnone row Hin Hid). }
  rewrite Hsame, write_facts.with_tasks_same.
  unfold psql.First_task. rewrite Hf2.
  assert (Hfind : List.find (fun row => psql.TaskID row =? id) (psql.tasks db)
                  = None).
  { apply read_facts.find_none_iff. intros row Hin.
    apply Z.eqb_neq. exact (Hnone row Hin). }
  rewrite Hfind. reflexivity.
Qed.

(** In the sample no task has the id 99. *)
Lemma UpdateTaskStatus_of_a_missing_task_witness :
  di.UpdateTaskStatus sample.conn 99 "done" true "" sample.db
  = (sample.db, Err (OtherError "record not found"))
  /\ error_type (OtherError "record not found") = None.
Proof.
  apply (proj2 (UpdateTaskStatus_of_a_missing_task sample.conn 99 "done" true
                  "" sample.db)).
  - discriminate.
  - reflexivity.
  - reflexivity.
  - intros row [<- | []]. vm_compute. discriminate.
Defined.

(** X11. [UpdateTaskStatus] changes one task and nothing else. Whatever
    comes of the call, the schedules and the users are as they were and
    every stored task is as it was, but for the tasks with the given id:
    such a task keeps its schedule, title, description and creation time,
    and gets the status, done and feedback of the call (the feedback also
    when it is empty) and the time of the call as its update time. The
    schedule of the task is not looked at, whatever its visitStatus. On
    success the task returned is such a task; an error is never one the
    use case makes with a message. *)
Theorem UpdateTaskStatus_changes_one_task
    (conn : psql.Conn) (id : UUID) (status : string) (done : bool)
    (feedback : string) (db : psql.Tables) :
  let out := di.UpdateTaskStatus conn id status done feedback db in
  let updated row :=
    psql.mkTask id (psql.ScheduleID row) (psql.Title row)
      (psql.Description row) status (Some done) (Some feedback)
      (psql.TaskCreatedAt row) (psql.Now conn) in
  psql.schedules (fst out) = psql.schedules db
  /\ psql.users (fst out) = psql.users db
  /\ Forall2
       (fun row row' =>
          row' = row \/ (psql.TaskID row = id /\ row' = updated row))
       (psql.tasks db) (psql.tasks (fst out))
  /\ match snd out with
     | Ok t =>
         exists row,
           In row (psql.tasks db)
           /\ psql.TaskID row = id
           /\ t = psql.Task_toDomainMapper (updated row)
     | Err e => from_store e
     end.
Proof.
  cbv zeta.
  unfold di.UpdateTaskStatus, usecase.UpdateTaskStatus.
  rewrite result_eta.
  cbn [domainSchedule.UpdateTask psql.NewScheduleRepository].
  pose proof (write_facts.UpdateTask_pointwise conn id
                (usecase.task_status_updates status done feedback) db) as H.
  cbv zeta in H. destruct H as (Hs & Hu & Hrows).
  split; [exact Hs |]. split; [exact Hu |]. split.
  - eapply Forall2_impl; [exact Hrows |].
    intros row row' [-> | [Hid Hup]]; [auto |]. right. split; [exact Hid |].
    rewrite task_facts.status_updates_row in Hup. rewrite Hid in Hup.
    congruence.
  - unfold psql.UpdateTask, psql.Updates_task. cbn [psql.TaskID].
    destruct (id =? Nil); [cbn; intros ? ?; discriminate |].
    destruct (psql.Fails conn (psql.UpdateTaskRow id));
      [cbn; intros ? ?; discriminate |].
    rewrite task_facts.status_updates_row. cbn [psql.TaskID].
    rewrite psql_facts.task_id_kept.
    destruct (psql.First_task conn id _) as [row' | e] eqn:Hf; cbn [snd].
    + unfold psql.First_task in Hf.
      destruct (psql.Fails conn (psql.SelectTask id)); [discriminate |].
      destruct (List.find _ _) as [r |] eqn:E; [| discriminate].
      injection Hf as ->. apply find_some in E as [Hin Hid].
      cbn [psql.tasks psql.with_tasks] in Hin.
      apply in_map_iff in Hin as (row & <- & Hin).
      rewrite psql_facts.rewrite_task_ID in Hid
        by apply psql_facts.task_status_updates_keep_id.
      apply Z.eqb_eq in Hid.
      exists row. split; [exact Hin |]. split; [exact Hid |].
      unfold psql.rewrite_task. rewrite Hid, Z.eqb_refl.
      rewrite task_facts.status_updates_row. cbn. rewrite Hid. reflexivity.
    + apply psql_facts.raw_from_store.
Qed.

(** ** Creating a schedule and reading it back *)
Module round_trip_facts.
Import psql.

Lemma find_appended {A} (p : A -> bool) (l : list A) (x : A) :
  existsb p l = false -> p x = true -> List.find p (l ++ [x]) = Some x.
Proof.
  intros Hl Hx. induction l as [| y l IH].
  - cbn. rewrite Hx. reflexivity.
  - cbn in Hl |- *. apply orb_false_iff in Hl as [Hy Hl].
    rewrite Hy. apply IH. exact Hl.
Qed.

Lemma fill_id_not_Nil bits id : fill_id bits id <> Nil.
Proof.
  unfold fill_id. destruct (Z.eqb_spec id Nil); [apply uuid_New_not_Nil |].
  assumption.
Qed.

End round_trip_facts.

(** X12. A schedule that [CreateSchedule] has created reads back as it
    was returned: [GetScheduleByID] with the ID of the created schedule,
    which is never [uuid.Nil], gives that schedule, tasks included,
    provided the driver does not fail the read and no task that was
    stored before belongs to that schedule id or has the id of one of the
    created tasks. *)
Theorem created_schedule_reads_back
    (conn : psql.Conn) (rnd : Rand) (newSchedule : domainSchedule.Schedule)
    (db db' : psql.Tables) (created : domainSchedule.Schedule) :
  di.CreateSchedule conn rnd newSchedule db = (db', Ok created) ->
  psql.Fails conn (psql.SelectSchedule (domainSchedule.ID created)) = None ->
  (forall old,
      In old (psql.tasks db) ->
      psql.ScheduleID old <> domainSchedule.ID created
      /\ ~ In (psql.TaskID old)
             (map domainSchedule.TaskID (domainSchedule.Tasks created))) ->
  domainSchedule.ID created <> Nil
  /\ psql.GetScheduleByID conn (domainSchedule.ID created) db' = Ok created.
Proof.
  intros H Hf Hold.
  destruct (usecase_facts.CreateSchedule_cases (psql.NewScheduleRepository conn)
              (psql.NewUserRepository conn) rnd newSchedule db)
    as [[msg Hm] | Hc]; unfold di.CreateSchedule in H.
  { rewrite Hm in H. discriminate H. }
  rewrite Hc in H. cbn [domainSchedule.Create psql.NewScheduleRepository] in H.
  apply write_facts.Create_Ok_exact in H. cbv zeta in H.
  set (m := psql.fromDomainMapper (usecase.prepare_schedule rnd newSchedule))
    in *.
  set (id := psql.fill_id (psql.GenRandom conn 0%nat) (psql.ID m)) in *.
  set (saved := psql.create_tasks conn id 1 (psql.Tasks m)) in *.
  destruct H as (Hex & Hnd & -> & ->).
  set (row := psql.mkSchedule id _ _ _ _ _ _ _ _ _ _ _ _ [] _ _ _) in *.
  change (domainSchedule.ID (psql.toDomainMapper (psql.set_Tasks saved row)))
    with id in *.
  split; [apply round_trip_facts.fill_id_not_Nil |].
  unfold psql.GetScheduleByID, psql.First_schedule. rewrite Hf.
  cbn [psql.schedules].
  rewrite (round_trip_facts.find_appended _ _ row Hex)
    by (cbn; apply Z.eqb_refl).
  unfold psql.preload. cbn [psql.tasks].
  assert (Hids :
    map domainSchedule.TaskID
      (domainSchedule.Tasks (psql.toDomainMapper (psql.set_Tasks saved row)))
    = map psql.TaskID saved).
  { cbn. rewrite map_map. reflexivity. }
  rewrite Hids in Hold.
  rewrite write_facts.upsert_new; [| exact Hnd | intros old Ho; apply Hold, Ho].
  rewrite List.filter_app.
  rewrite write_facts.filter_none, write_facts.filter_all.
  - reflexivity.
  - eapply Forall_impl; [apply write_facts.create_tasks_schedule |].
    intros t ->. apply Z.eqb_refl.
  - apply Forall_forall. intros old Ho. apply list_elem_of_In in Ho.
    apply Z.eqb_neq. apply Hold, Ho.
Qed.

(** A visit with one task, created in the sample. *)
Lemma created_schedule_reads_back_witness :
  exists db' created,
    di.CreateSchedule sample.conn (fun _ => 0) create.with_done_task sample.db
    = (db', Ok created)
    /\ domainSchedule.ID created <> Nil
    /\ psql.GetScheduleByID sample.conn (domainSchedule.ID created) db'
       = Ok created.
Proof.
  eexists. eexists.
  assert (H : di.CreateSchedule sample.conn (fun _ => 0) create.with_done_task
                sample.db = (_, Ok _)) by (vm_compute; reflexivity).
  split; [exact H |].
  apply (created_schedule_reads_back _ _ _ _ _ _ H).
  - reflexivity.
  - intros old [<- | []]. split; vm_compute; [discriminate | intros [H0 | []]].
    discriminate H0.
Defined.

(** ** One visit at a time *)
Module occupancy_facts.
Import occupancy.

Section UseCase.
Context {St : Type}.
Variable repo : domainSchedule.IScheduleRepository St.

(** [StartSchedule] turns the call down and leaves the store alone, or
    has passed each of its checks and asks the store to record the
    check-in. *)
Lemma StartSchedule_inv id ts loc st :
  (exists e, usecase.StartSchedule repo id ts loc st = (st, Err e))
  \/ (exists s found,
         domainSchedule.GetScheduleByID repo id st = Ok s
         /\ domainSchedule.VisitStatus s = "upcoming"
         /\ Before ts (domainSchedule.From (domainSchedule.ScheduledSlot_ s))
            = false
         /\ domainSchedule.GetSchedulesInProgressByAssignedUserID repo
              (domainSchedule.AssignedUserID s) st = Ok found
         /\ (found = None \/ found = Some [])
         /\ usecase.StartSchedule repo id ts loc st
            = domainSchedule.UpdateSchedule repo id
                (usecase.start_updates ts loc) st).
Proof.
  unfold usecase.StartSchedule.
  destruct (domainSchedule.GetScheduleByID repo id st) as [s | e]; [| eauto].
  destruct (String.eqb_spec (domainSchedule.VisitStatus s) "upcoming")
    as [Hs | Hs]; cbn [negb]; [| eauto].
  destruct (Before ts _) eqn:Hb; [eauto |].
  destruct (domainSchedule.GetSchedulesInProgressByAssignedUserID repo _ st)
    as [[[| x l] |] | e] eqn:Hq; cbn; eauto;
    right; exists s; eexists; rewrite result_eta; eauto 10.
Qed.

End UseCase.

Lemma Forall2_In_r {A B} (R : A -> B -> Prop) l l' y :
  Forall2 R l l' -> In y l' -> exists x, In x l /\ R x y.
Proof.
  induction 1 as [| x y' l l' Hxy _ IH]; [intros [] |].
  intros [<- | Hin].
  - exists x. split; [left; reflexivity | exact Hxy].
  - destruct (IH Hin) as (x' & Hx' & HR). exists x'. split; [right |]; assumption.
Qed.

Lemma Forall2_map_eq {A B} (f : A -> B) (l l' : list A) :
  Forall2 (fun x y => f y = f x) l l' -> map f l' = map f l.
Proof. induction 1 as [| x y l l' Hxy _ IH]; cbn; congruence. Qed.

Lemma keyed_unique db r1 r2 :
  keyed db -> In r1 (psql.schedules db) -> In r2 (psql.schedules db) ->
  psql.ID r1 = psql.ID r2 -> r1 = r2.
Proof.
  unfold keyed. induction (psql.schedules db) as [| r l IH]; [intros _ [] |].
  cbn [map]. intros Hnd H1 H2 Hid. apply NoDup_cons in Hnd as [Hr Hnd].
  assert (Hmem : forall x, In x l -> psql.ID x <> psql.ID r).
  { intros x Hx Heq. apply Hr. rewrite <- Heq. apply list_elem_of_In.
    apply in_map. exact Hx. }
  destruct H1 as [<- | H1], H2 as [<- | H2].
  - reflexivity.
  - exfalso. apply (Hmem r2 H2). congruence.
  - exfalso. apply (Hmem r1 H1). congruence.
  - apply IH; assumption.
Qed.

(** The assignee of a row is changed only by a field map that names it. *)
Lemma assignee_untouched conn updates row row' :
  psql.update_schedule_row conn updates row = Some row' ->
  updates !! "assigned_user_id" = None ->
  updates !! "AssignedUserID" = None ->
  psql.AssignedUserID row' = psql.AssignedUserID row.
Proof.
  unfold psql.update_schedule_row. intros H Ha Hb.
  case_bool_decide; [| discriminate H].
  rewrite (psql_facts.assign_absent (psql.to_uuid conn) "assigned_user_id"
             "AssignedUserID" updates _ Ha Hb) in H.
  repeat psql_facts.bind_step H. injection H as <-. reflexivity.
Qed.

(** What the changes of a table, row by row, make of the two
    properties, when no changed row comes out in progress beside
    another visit of its assignee. *)
Lemma kept conn id updates db db' :
  field_map.keeps_id updates ->
  Forall2
    (fun row row' =>
       row' = row
       \/ (psql.ID row = id
           /\ psql.update_schedule_row conn updates row = Some row'))
    (psql.schedules db) (psql.schedules db') ->
  keyed db ->
  keyed db'.
Proof.
  intros Hid Hrows Hk. unfold keyed in *.
  rewrite (Forall2_map_eq psql.ID (psql.schedules db) (psql.schedules db'));
    [exact Hk |].
  eapply Forall2_impl; [exact Hrows |].
  intros row row' [-> | [_ Hup]]; [reflexivity |].
  eapply psql_facts.update_schedule_row_ID; eassumption.
Qed.

Lemma started_keeps conn id ts loc db db' r :
  psql.UpdateSchedule conn id (usecase.start_updates ts loc) db = (db', r) ->
  forall s,
    psql.GetScheduleByID conn id db = Ok s ->
    psql.GetSchedulesInProgressByAssignedUserID conn
      (domainSchedule.AssignedUserID s) db = Ok (Some []) ->
    keyed db -> one_visit_at_a_time db ->
    keyed db' /\ one_visit_at_a_time db'.
Proof.
  intros Hu s Hs Hq Hk Hone.
  pose proof (psql_facts.start_updates_keep_id ts loc) as Hkeep.
  destruct (write_facts.UpdateSchedule_pointwise _ _ _ _ _ _ Hkeep Hu)
    as (_ & _ & Hrows).
  split; [eapply kept; eassumption |].
  apply psql_facts.GetScheduleByID_Ok in Hs as (row0 & Hfind & Hid0 & ->).
  apply find_some in Hfind as [Hin0 _].
  assert (Hfree :
    forall r1, In r1 (psql.schedules db) ->
               psql.AssignedUserID r1 = psql.AssignedUserID row0 ->
               psql.VisitStatus r1 = "in_progress" -> False).
  { intros r1 Hin Ha Hv.
    unfold psql.GetSchedulesInProgressByAssignedUserID in Hq.
    destruct (psql.Fails conn _); [discriminate |].
    injection Hq as Hq. unfold psql.arrayToDomainMapper in Hq.
    rewrite map_map in Hq. apply map_eq_nil in Hq.
    assert (Hr : In r1 (List.filter
                         (fun row =>
                            (psql.AssignedUserID row
                             =? psql.AssignedUserID row0)
                            && String.eqb (psql.VisitStatus row) "in_progress")
                         (psql.schedules db))).
    { apply filter_In. split; [exact Hin |]. rewrite Ha, Hv, Z.eqb_refl.
      reflexivity. }
    rewrite Hq in Hr. exact Hr. }
  assert (Hchanged :
    forall r1 r1', In r1 (psql.schedules db) -> psql.ID r1 = id ->
                   psql.update_schedule_row conn (usecase.start_updates ts loc)
                     r1 = Some r1' ->
                   psql.AssignedUserID r1' = psql.AssignedUserID row0
                   /\ psql.ID r1' = id).
  { intros r1 r1' Hin Hid Hup.
    assert (r1 = row0) as ->
      by (apply (keyed_unique db); try assumption; congruence).
    split.
    - apply (assignee_untouched _ _ _ _ Hup); reflexivity.
    - rewrite (psql_facts.update_schedule_row_ID _ _ _ _ Hkeep Hup).
      exact Hid. }
  intros r1' r2' H1 H2 Hv1 Hv2 Ha.
  destruct (Forall2_In_r _ _ _ _ Hrows H1) as (r1 & Hin1 & HR1).
  destruct (Forall2_In_r _ _ _ _ Hrows H2) as (r2 & Hin2 & HR2).
  destruct HR1 as [-> | [Hid1 Hup1]], HR2 as [-> | [Hid2 Hup2]].
  - apply Hone; assumption.
  - exfalso. destruct (Hchanged _ _ Hin2 Hid2 Hup2) as [Ha2 _].
    apply (Hfree r1 Hin1); [congruence | exact Hv1].
  - exfalso. destruct (Hchanged _ _ Hin1 Hid1 Hup1) as [Ha1 _].
    apply (Hfree r2 Hin2); [congruence | exact Hv2].
  - destruct (Hchanged _ _ Hin1 Hid1 Hup1) as [_ ->].
    destruct (Hchanged _ _ Hin2 Hid2 Hup2) as [_ ->]. reflexivity.
Qed.

Lemma ended_keeps conn id ts loc db db' r :
  psql.UpdateSchedule conn id (usecase.end_updates ts loc) db = (db', r) ->
  keyed db -> one_visit_at_a_time db ->
  keyed db' /\ one_visit_at_a_time db'.
Proof.
  intros Hu Hk Hone.
  pose proof (psql_facts.end_updates_keep_id ts loc) as Hkeep.
  destruct (write_facts.UpdateSchedule_pointwise _ _ _ _ _ _ Hkeep Hu)
    as (_ & _ & Hrows).
  split; [eapply kept; eassumption |].
  assert (Hold : forall r', In r' (psql.schedules db') ->
                            psql.VisitStatus r' = "in_progress" ->
                            In r' (psql.schedules db)).
  { intros r' Hin Hv.
    destruct (Forall2_In_r _ _ _ _ Hrows Hin) as (r0 & Hin0 & [-> | [_ Hup]]);
      [exact Hin0 |].
    apply end_facts.end_updates_row in Hup as [Hc _]. congruence. }
  intros r1 r2 H1 H2 Hv1 Hv2 Ha. apply Hone; auto.
Qed.

Lemma same_schedules db db' :
  psql.schedules db' = psql.schedules db ->
  keyed db /\ one_visit_at_a_time db ->
  keyed db' /\ one_visit_at_a_time db'.
Proof.
  unfold keyed, one_visit_at_a_time. intros ->. trivial.
Qed.

Lemma created_keeps conn s db db' r :
  psql.Create conn s db = (db', r) ->
  domainSchedule.VisitStatus s = "upcoming" ->
  keyed db -> one_visit_at_a_time db ->
  keyed db' /\ one_visit_at_a_time db'.
Proof.
  intros Hc Hv Hk Hone. destruct r as [created | e].
  2:{ apply create_facts.Create_Err in Hc as ->. auto. }
  apply write_facts.Create_Ok_exact in Hc. cbv zeta in Hc.
  destruct Hc as (Hex & _ & -> & _).
  set (row := psql.mkSchedule _ _ _ _ _ _ _ _ _ _ _ _ _ [] _ _ _) in *.
  split.
  - unfold keyed in *. cbn [psql.schedules]. rewrite map_app.
    apply NoDup_app. split; [exact Hk |]. split.
    + intros i Hi Hrow. apply list_elem_of_In in Hrow.
      destruct Hrow as [Hrow | []].
      apply list_elem_of_In, in_map_iff in Hi as (old & Hid & Hin).
      assert (Ht : existsb (fun r0 => psql.ID r0 =? psql.ID row)
                     (psql.schedules db) = true).
      { apply existsb_exists. exists old. split; [exact Hin |].
        apply Z.eqb_eq. congruence. }
      unfold row in Ht. cbn [psql.ID] in Ht.
      rewrite Hex in Ht. discriminate Ht.
    + apply NoDup_singleton.
  - intros r1 r2 H1 H2 Hv1 Hv2 Ha. cbn [psql.schedules] in H1, H2.
    assert (Hold : forall r0, In r0 (psql.schedules db ++ [row]) ->
                              psql.VisitStatus r0 = "in_progress" ->
                              In r0 (psql.schedules db)).
    { intros r0 Hin Hv0. apply in_app_or in Hin as [Hin | [<- | []]];
        [exact Hin |].
      cbn in Hv0. rewrite Hv in Hv0. discriminate Hv0. }
    apply Hone; auto.
Qed.

End occupancy_facts.

(** X13. "No assignee has two visits in progress" is kept by
    [CreateSchedule], [StartSchedule], [EndSchedule] and
    [UpdateTaskStatus], whatever their arguments and whatever comes of the
    call: when it holds of a store whose schedules have distinct ids, it
    holds of the store the operation leaves behind, whose schedules have
    distinct ids again. [UpdateSchedule] is the one operation that is left
    out: it can put a second visit of an assignee in progress. *)
Theorem one_visit_at_a_time_is_kept
    (conn : psql.Conn) (op : lifecycle.Operation) (db : psql.Tables) :
  (forall id updates, op <> lifecycle.Update id updates) ->
  occupancy.keyed db ->
  occupancy.one_visit_at_a_time db ->
  occupancy.keyed (lifecycle.run conn op db)
  /\ occupancy.one_visit_at_a_time (lifecycle.run conn op db).
Proof.
  intros Hop Hk Hone.
  destruct op as [rnd s | id ts loc | id ts loc tasks | tid st d f | id updates];
    cbn [lifecycle.run].
  - (* CreateSchedule *)
    unfold di.CreateSchedule.
    destruct (usecase_facts.CreateSchedule_cases
                (psql.NewScheduleRepository conn) (psql.NewUserRepository conn)
                rnd s db) as [[msg Hf] | Hf]; rewrite Hf; [auto |].
    cbn [domainSchedule.Create psql.NewScheduleRepository].
    destruct (psql.Create conn (usecase.prepare_schedule rnd s) db)
      as [db' r] eqn:Hc.
    eapply occupancy_facts.created_keeps; try eassumption. reflexivity.
  - (* StartSchedule *)
    unfold di.StartSchedule.
    destruct (occupancy_facts.StartSchedule_inv
                (psql.NewScheduleRepository conn) id ts loc db)
      as [[e He] | (s & found & Hs & _ & _ & Hq & Hfound & Hrun)];
      [rewrite He; auto |].
    rewrite Hrun.
    cbn [domainSchedule.UpdateSchedule domainSchedule.GetScheduleByID
           domainSchedule.GetSchedulesInProgressByAssignedUserID
           psql.NewScheduleRepository] in *.
    destruct (psql.UpdateSchedule conn id (usecase.start_updates ts loc) db)
      as [db' r] eqn:Hu.
    assert (found = Some []) as ->.
    { destruct Hfound as [-> | ->]; [| reflexivity].
      unfold psql.GetSchedulesInProgressByAssignedUserID in Hq.
      destruct (psql.Fails conn _); discriminate Hq. }
    eapply occupancy_facts.started_keeps; eassumption.
  - (* EndSchedule *)
    unfold di.EndSchedule.
    destruct (usecase_facts.EndSchedule_cases
                (psql.NewScheduleRepository conn) id ts loc tasks db)
      as [[e He] | (s & _ & _ & Hrun)]; [rewrite He; auto |].
    cbn [domainSchedule.UpdateSchedule psql.NewScheduleRepository] in Hrun.
    destruct (psql.UpdateSchedule conn id (usecase.end_updates ts loc) db)
      as [db' r] eqn:Hu.
    cbn [fst] in Hrun.
    pose proof (occupancy_facts.ended_keeps _ _ _ _ _ _ _ Hu Hk Hone) as Hkept.
    destruct Hrun as [-> | ->]; [exact Hkept |].
    eapply occupancy_facts.same_schedules; [| exact Hkept].
    apply end_facts.end_task_loop_schedules.
  - (* UpdateTaskStatus *)
    unfold di.UpdateTaskStatus, usecase.UpdateTaskStatus.
    rewrite result_eta.
    cbn [domainSchedule.UpdateTask psql.NewScheduleRepository].
    eapply occupancy_facts.same_schedules; [| split; eassumption].
    apply psql_facts.UpdateTask_schedules.
  - exfalso. eapply Hop. reflexivity.
Qed.

(** In the sample one visit is in progress, that of schedule 11; schedule
    10 is started. *)
Lemma one_visit_at_a_time_is_kept_witness :
  occupancy.keyed
    (lifecycle.run sample.conn (lifecycle.Start 10 1500 sample.here) sample.db)
  /\ occupancy.one_visit_at_a_time
       (lifecycle.run sample.conn (lifecycle.Start 10 1500 sample.here)
          sample.db).
Proof.
  apply (one_visit_at_a_time_is_kept sample.conn
           (lifecycle.Start 10 1500 sample.here) sample.db).
  - intros id updates. discriminate.
  - unfold occupancy.keyed. cbn.
    repeat (apply NoDup_cons; split;
            [rewrite ?elem_of_cons, elem_of_nil; lia |]).
    apply NoDup_nil. exact I.
  - intros r1 r2 H1 H2 Hv1 Hv2 _.
    cbn in H1, H2.
    destruct H1 as [<- | [<- | [<- | []]]]; try discriminate Hv1.
    destruct H2 as [<- | [<- | [<- | []]]]; try discriminate Hv2.
    reflexivity.
Defined.

(** [UpdateSchedule] can book an assignee twice: in the sample, schedule
    10 of caregiver 2 is put in progress, and schedule 11, in progress, is
    given to caregiver 2. *)
Example UpdateSchedule_can_double_book :
  let db1 :=
    lifecycle.run sample.conn
      (lifecycle.Update 10 {[ "visit_status" := VString "in_progress" ]})
      sample.db in
  let db2 :=
    lifecycle.run sample.conn
      (lifecycle.Update 11 {[ "assigned_user_id" := VUUID 2 ]}) db1 in
  occupancy.one_visit_at_a_time sample.db
  /\ map (fun row => (psql.ID row, psql.AssignedUserID row, psql.VisitStatus row))
       (psql.schedules db2)
     = [ (10, 2, "in_progress"); (11, 2, "in_progress"); (12, 2, "completed") ]
  /\ ~ occupancy.one_visit_at_a_time db2.
Proof.
  cbv zeta. split; [| split].
  - intros r1 r2 H1 H2 Hv1 Hv2 _. cbn in H1, H2.
    destruct H1 as [<- | [<- | [<- | []]]]; try discriminate Hv1.
    destruct H2 as [<- | [<- | [<- | []]]]; try discriminate Hv2.
    reflexivity.
  - vm_compute. reflexivity.
  - intros H.
    specialize (H (psql.mkSchedule 10 1 2 "Home visit" 1000 2000 "in_progress"
                     None None None None None None [] None 10 5000)
                  (psql.mkSchedule 11 1 2 "Home visit" 1000 2000 "in_progress"
                     None None None None None None [] None 10 5000)).
    assert (Hid : 10 = 11); [| discriminate Hid].
    apply H; vm_compute; auto.
Qed.

(** ** From check-in to check-out *)
Module visit_facts.

Lemma end_updates_accepted conn ts loc row :
  is_Some (psql.update_schedule_row conn (usecase.end_updates ts loc) row).
Proof. vm_compute. eauto. Qed.

Lemma UpdateSchedule_Ok_not_Nil conn id updates db db' s :
  psql.UpdateSchedule conn id updates db = (db', Ok s) -> id <> Nil.
Proof.
  unfold psql.UpdateSchedule.
  destruct (psql.First_schedule conn (psql.SelectSchedule id) id db)
    as [obj | e] eqn:E1.
  - apply psql_facts.First_schedule_Success in E1 as (row & _ & Hid & ->).
    unfold psql.Updates_schedule. cbn [psql.preload psql.set_Tasks psql.ID].
    rewrite Hid. destruct (Z.eqb_spec id Nil) as [| Hne]; [discriminate |].
    intros _. exact Hne.
  - destruct e; discriminate.
Qed.

Lemma Location_eta (loc : domainSchedule.Location) :
  domainSchedule.mkLocation (domainSchedule.Lat loc) (domainSchedule.Long loc)
  = loc.
Proof. destruct loc; reflexivity. Qed.

(** A successful [StartSchedule], taken apart. *)
Lemma StartSchedule_Ok conn id ts loc db db' started :
  di.StartSchedule conn id ts loc db = (db', Ok started) ->
  id <> Nil
  /\ psql.Fails conn (psql.SelectSchedule id) = None
  /\ (exists before,
         psql.GetScheduleByID conn id db = Ok before
         /\ domainSchedule.VisitStatus before = "upcoming"
         /\ domainSchedule.From (domainSchedule.ScheduledSlot_ before) <= ts)
  /\ exists row',
       List.find (fun row => psql.ID row =? id) (psql.schedules db') = Some row'
       /\ started = psql.toDomainMapper (psql.preload db' row')
       /\ psql.VisitStatus row' = "in_progress"
       /\ psql.CheckinTime row' = Some ts
       /\ psql.CheckinLocationLat row' = domainSchedule.Lat loc
       /\ psql.CheckinLocationLong row' = domainSchedule.Long loc.
Proof.
  intros H. unfold di.StartSchedule in H.
  destruct (occupancy_facts.StartSchedule_inv (psql.NewScheduleRepository conn)
              id ts loc db)
    as [[e He] | (s & found & Hs & Hv & Hb & _ & _ & Hrun)].
  { rewrite He in H. discriminate H. }
  rewrite Hrun in H.
  cbn [domainSchedule.UpdateSchedule domainSchedule.GetScheduleByID
         psql.NewScheduleRepository] in *.
  split; [eapply UpdateSchedule_Ok_not_Nil; exact H |].
  split.
  { unfold psql.GetScheduleByID, psql.First_schedule in Hs.
    destruct (psql.Fails conn (psql.SelectSchedule id));
      [discriminate Hs | reflexivity]. }
  split.
  { exists s. split; [exact Hs |]. split; [exact Hv |].
    unfold Before in Hb. apply Z.ltb_ge in Hb. exact Hb. }
  apply psql_facts.UpdateSchedule_Ok in H
    as (_ & row & row' & _ & Hup & Hfind & ->).
  apply start_facts.start_updates_row in Hup as (H1 & H2 & H3 & H4).
  exists row'. repeat split; assumption.
Qed.

(** [EndSchedule] on a schedule that is in progress, when the driver
    fails none of its statements on the schedule. *)
Lemma EndSchedule_runs conn id ts loc tasks db row :
  psql.Fails conn (psql.SelectSchedule id) = None ->
  psql.Fails conn (psql.UpdateScheduleRow id) = None ->
  psql.Fails conn (psql.ReloadSchedule id) = None ->
  id <> Nil ->
  List.find (fun row => psql.ID row =? id) (psql.schedules db) = Some row ->
  psql.VisitStatus row = "in_progress" ->
  exists row' db1,
    psql.update_schedule_row conn (usecase.end_updates ts loc) row = Some row'
    /\ List.find (fun row => psql.ID row =? id) (psql.schedules db1) = Some row'
    /\ di.EndSchedule conn id ts loc tasks db
       = (usecase.end_task_loop (psql.NewScheduleRepository conn) tasks db1,
          Ok (psql.toDomainMapper (psql.preload db1 row'))).
Proof.
  intros Hf1 Hf2 Hf3 Hnil Hrow Hv.
  destruct (end_updates_accepted conn ts loc row) as [row' Hup].
  exists row', (psql.rewritten conn id (usecase.end_updates ts loc) db).
  split; [exact Hup |].
  pose proof (write_facts.UpdateSchedule_runs conn id _ db row row'
                (psql_facts.end_updates_keep_id ts loc)
                Hf1 Hf2 Hf3 Hnil Hrow Hup) as Hrun.
  split.
  - apply psql_facts.UpdateSchedule_Ok in Hrun
      as (_ & r0 & r0' & Hr0 & Hup0 & Hfind & _).
    rewrite Hrow in Hr0. injection Hr0 as <-. congruence.
  - unfold di.EndSchedule.
    eapply usecase_facts.EndSchedule_completes; [| | exact Hrun].
    + cbn [domainSchedule.GetScheduleByID psql.NewScheduleRepository].
      unfold psql.GetScheduleByID, psql.First_schedule. rewrite Hf1, Hrow.
      reflexivity.
    + exact Hv.
Qed.

(** A successful [EndSchedule], taken apart. *)
Lemma EndSchedule_Ok conn id ts loc tasks db db' ended :
  di.EndSchedule conn id ts loc tasks db = (db', Ok ended) ->
  psql.Fails conn (psql.SelectSchedule id) = None
  /\ (exists before,
         psql.GetScheduleByID conn id db = Ok before
         /\ domainSchedule.VisitStatus before = "in_progress")
  /\ exists row row',
       List.find (fun row => psql.ID row =? id) (psql.schedules db) = Some row
       /\ psql.update_schedule_row conn (usecase.end_updates ts loc) row
          = Some row'
       /\ List.find (fun row => psql.ID row =? id) (psql.schedules db')
          = Some row'
       /\ domainSchedule.VisitStatus ended = "completed"
       /\ domainSchedule.CheckoutTime ended = Some ts
       /\ domainSchedule.CheckoutLocation ended = loc.
Proof.
  intros H. unfold di.EndSchedule, usecase.EndSchedule in H.
  cbn [domainSchedule.GetScheduleByID domainSchedule.UpdateSchedule
         psql.NewScheduleRepository] in H.
  destruct (psql.GetScheduleByID conn id db) as [s | e] eqn:Hs;
    [| discriminate H].
  destruct (String.eqb_spec (domainSchedule.VisitStatus s) "in_progress")
    as [Hv | Hv]; cbn [negb] in H; [| discriminate H].
  destruct (psql.UpdateSchedule conn id (usecase.end_updates ts loc) db)
    as [db1 [updated | e]] eqn:Hu; [| discriminate H].
  injection H as <- <-.
  split.
  { unfold psql.GetScheduleByID, psql.First_schedule in Hs.
    destruct (psql.Fails conn (psql.SelectSchedule id));
      [discriminate Hs | reflexivity]. }
  split; [exists s; auto |].
  apply psql_facts.UpdateSchedule_Ok in Hu
    as (_ & row & row' & Hrow & Hup & Hfind & ->).
  exists row, row'. split; [exact Hrow |]. split; [exact Hup |].
  split.
  { rewrite end_facts.end_task_loop_schedules. exact Hfind. }
  apply end_facts.end_updates_row in Hup as (H1 & H2 & H3 & H4).
  cbn. rewrite H3, H4, Location_eta. auto.
Qed.

End visit_facts.

(** X14. A visit that has been started can be ended: after a successful
    [StartSchedule], [EndSchedule] of the same schedule succeeds, with any
    timestamp, also one before the check-in, any location and any task
    updates, whenever the driver fails none of its three statements on the
    schedule. The schedule it returns is "completed"; it has the check-out
    time and location of the second call and still the check-in time and
    location of the first. *)
Theorem a_started_visit_can_be_ended
    (conn1 conn2 : psql.Conn) (id : UUID) (ts1 ts2 : Time)
    (loc1 loc2 : domainSchedule.Location) (tasks : list domainSchedule.Task)
    (db db1 : psql.Tables) (started : domainSchedule.Schedule) :
  di.StartSchedule conn1 id ts1 loc1 db = (db1, Ok started) ->
  psql.Fails conn2 (psql.SelectSchedule id) = None ->
  psql.Fails conn2 (psql.UpdateScheduleRow id) = None ->
  psql.Fails conn2 (psql.ReloadSchedule id) = None ->
  exists ended,
    snd (di.EndSchedule conn2 id ts2 loc2 tasks db1) = Ok ended
    /\ domainSchedule.VisitStatus ended = "completed"
    /\ domainSchedule.CheckinTime ended = Some ts1
    /\ domainSchedule.CheckinLocation ended = loc1
    /\ domainSchedule.CheckoutTime ended = Some ts2
    /\ domainSchedule.CheckoutLocation ended = loc2.
Proof.
  intros Hstart Hf1 Hf2 Hf3.
  apply visit_facts.StartSchedule_Ok in Hstart
    as (Hnil & _ & _ & row & Hrow & _ & Hv & Hci & Hlat & Hlong).
  destruct (visit_facts.EndSchedule_runs conn2 id ts2 loc2 tasks db1 row
              Hf1 Hf2 Hf3 Hnil Hrow Hv) as (row' & db2 & Hup & _ & Hrun).
  rewrite Hrun. cbn [snd]. eexists. split; [reflexivity |].
  destruct (write_facts.untouched_columns _ _ _ _ Hup)
    as (Kci & Kla & Klo & _).
  apply end_facts.end_updates_row in Hup as (H1 & H2 & H3 & H4).
  cbn. rewrite H1, H2, H3, H4, (Kci eq_refl eq_refl), (Kla eq_refl eq_refl),
    (Klo eq_refl eq_refl), Hci, Hlat, Hlong, !visit_facts.Location_eta.
  repeat split.
Qed.

(** Schedule 10 of the sample, started at 1500 and ended at 1200. *)
Lemma a_started_visit_can_be_ended_witness :
  exists ended,
    snd (di.EndSchedule sample.conn 10 1200 sample.here []
           (fst (di.StartSchedule sample.conn 10 1500 sample.here sample.db)))
    = Ok ended
    /\ domainSchedule.VisitStatus ended = "completed"
    /\ domainSchedule.CheckinTime ended = Some 1500
    /\ domainSchedule.CheckinLocation ended = sample.here
    /\ domainSchedule.CheckoutTime ended = Some 1200
    /\ domainSchedule.CheckoutLocation ended = sample.here.
Proof.
  refine (a_started_visit_can_be_ended sample.conn sample.conn 10 1500 1200
            sample.here sample.here [] sample.db _ _ _ eq_refl eq_refl eq_refl).
  vm_compute. reflexivity.
Defined.

(** ** The handlers that write *)
Module handler_facts.

(** An error of the use case that carries a message was made before
    anything was written. *)
Lemma StartSchedule_message conn id ts loc db db' msg ty :
  di.StartSchedule conn id ts loc db = (db', Err (AppError msg ty)) ->
  db' = db.
Proof.
  intros H. unfold di.StartSchedule in H.
  destruct (occupancy_facts.StartSchedule_inv (psql.NewScheduleRepository conn)
              id ts loc db) as [[e He] | (s & found & _ & _ & _ & _ & _ & Hrun)].
  - rewrite He in H. congruence.
  - rewrite Hrun in H.
    cbn [domainSchedule.UpdateSchedule psql.NewScheduleRepository] in H.
    apply psql_facts.UpdateSchedule_from_store in H. exfalso.
    eapply H. reflexivity.
Qed.


Lemma is_nil_false {A} (p : option A) :
  handlers.is_nil p = false -> exists x, p = Some x.
Proof. destruct p; [eauto | discriminate]. Qed.

Lemma Location_present (l : controller.Location) :
  handlers.is_nil (controller.Lat l) || handlers.is_nil (controller.Long l)
  = false ->
  exists lat long, l = controller.mkLocation (Some lat) (Some long).
Proof.
  intros H. apply orb_false_iff in H as [H1 H2].
  apply is_nil_false in H1 as [lat H1]. apply is_nil_false in H2 as [long H2].
  exists lat, long. destruct l. cbn in *. congruence.
Qed.

(** What [UpdateTaskStatus] returns. *)
Lemma UpdateTaskStatus_outcome conn id status done feedback db :
  let out := di.UpdateTaskStatus conn id status done feedback db in
  match snd out with
  | Ok t =>
      exists row,
        List.find (fun row => psql.TaskID row =? id) (psql.tasks (fst out))
        = Some row
        /\ row = psql.mkTask id (psql.ScheduleID row) (psql.Title row)
                   (psql.Description row) status (Some done) (Some feedback)
                   (psql.TaskCreatedAt row) (psql.Now conn)
        /\ t = psql.Task_toDomainMapper row
  | Err e => from_store e
  end.
Proof.
  cbv zeta.
  destruct (di.UpdateTaskStatus conn id status done feedback db)
    as [db' [t | e]] eqn:Hrun; cbn [fst snd].
  - apply task_facts.UpdateTaskStatus_Ok in Hrun
      as (_ & -> & row & Hfind & ->).
    exists row. split; [exact Hfind |]. split; [| reflexivity].
    apply find_some in Hfind as [Hin Hid].
    cbn [psql.tasks psql.with_tasks] in Hin.
    apply in_map_iff in Hin as (r0 & <- & _).
    rewrite psql_facts.rewrite_task_ID in Hid
      by apply psql_facts.task_status_updates_keep_id.
    unfold psql.rewrite_task. rewrite Hid.
    rewrite task_facts.status_updates_row. cbn.
    apply Z.eqb_eq in Hid. rewrite Hid. reflexivity.
  - unfold di.UpdateTaskStatus, usecase.UpdateTaskStatus in Hrun.
    rewrite result_eta in Hrun.
    cbn [domainSchedule.UpdateTask psql.NewScheduleRepository] in Hrun.
    unfold psql.UpdateTask in Hrun.
    destruct (psql.Updates_task conn _ _ db) as [db1 | g].
    + destruct (psql.First_task conn id db1) as [r | g]; [discriminate Hrun |].
      injection Hrun as _ <-. apply psql_facts.raw_from_store.
    + injection Hrun as _ <-. intros msg ty. discriminate.
Qed.

End handler_facts.

(** X15. The handler [StartSchedule] over the gorm repositories. It
    answers 200 only when the id parses, the body was bound, its timestamp
    is not the zero time and its location has both coordinates, and the
    schedule was "upcoming" with a slot that begins no later than the
    timestamp; the body then has the message, the timestamp as check-in
    time and the location of the request, and the schedule reads back from
    the store as "in_progress" with that check-in. When the handler ends in
    an error that carries a message (each ValidationError and NotFound it
    or the use case makes), nothing has been written. *)
Theorem StartSchedule_handler_records_the_check_in
    (conn : psql.Conn) (Parse : string -> option UUID) (scheduleIDStr : string)
    (bound : string + handlers.StartScheduleRequest) (db : psql.Tables) :
  let out := app.StartSchedule conn Parse scheduleIDStr bound db in
  match snd out with
  | controller.JSON status body =>
      status = 200
      /\ exists id request lat long before after,
           Parse scheduleIDStr = Some id
           /\ bound = inr request
           /\ handlers.Start_Timestamp request <> 0
           /\ handlers.Start_Location request
              = controller.mkLocation (Some lat) (Some long)
           /\ body = handlers.mkStartScheduleResponse
                       "Check-in recorded successfully"
                       (Some (handlers.Start_Timestamp request))
                       (Some (handlers.Start_Location request))
           /\ psql.GetScheduleByID conn id db = Ok before
           /\ domainSchedule.VisitStatus before = "upcoming"
           /\ domainSchedule.From (domainSchedule.ScheduledSlot_ before)
              <= handlers.Start_Timestamp request
           /\ psql.GetScheduleByID conn id (fst out) = Ok after
           /\ domainSchedule.VisitStatus after = "in_progress"
           /\ domainSchedule.CheckinTime after
              = Some (handlers.Start_Timestamp request)
           /\ domainSchedule.CheckinLocation after
              = domainSchedule.mkLocation (Some lat) (Some long)
  | controller.CtxError e =>
      forall msg ty, e = AppError msg ty -> fst out = db
  end.
Proof.
  cbv zeta. unfold app.StartSchedule, handlers.StartSchedule.
  destruct (Parse scheduleIDStr) as [id |]; [| cbn; reflexivity].
  destruct bound as [err | request]; [cbn; reflexivity |].
  destruct (Z.eqb_spec (handlers.Start_Timestamp request) 0) as [Hz | Hz].
  { unfold IsZero. rewrite Hz. cbn. reflexivity. }
  unfold IsZero. rewrite (proj2 (Z.eqb_neq _ _) Hz).
  destruct (handlers.is_nil _ || handlers.is_nil _) eqn:Hloc;
    [cbn; reflexivity |].
  apply handler_facts.Location_present in Hloc as (lat & long & Hloc).
  fold (di.StartSchedule conn).
  destruct (di.StartSchedule conn id (handlers.Start_Timestamp request) _ db)
    as [db' [started | e]] eqn:Hrun; cbn [fst snd].
  - split; [reflexivity |].
    apply visit_facts.StartSchedule_Ok in Hrun
      as (_ & Hf & (before & Hb & Hbv & Hbt) & row' & Hfind & -> & Hv & Hci
          & Hlat & Hlong).
    exists id, request, lat, long, before,
      (psql.toDomainMapper (psql.preload db' row')).
    cbn in Hlat, Hlong.
    split; [reflexivity |]. split; [reflexivity |]. split; [exact Hz |].
    split; [exact Hloc |]. split.
    { cbn. rewrite Hci, Hlat, Hlong. rewrite Hloc. reflexivity. }
    split; [exact Hb |]. split; [exact Hbv |]. split; [exact Hbt |]. split.
    { unfold psql.GetScheduleByID, psql.First_schedule. rewrite Hf, Hfind.
      reflexivity. }
    cbn. rewrite Hv, Hci, Hlat, Hlong, Hloc. repeat split.
  - intros msg ty ->. eapply handler_facts.StartSchedule_message. exact Hrun.
Qed.



(** ** The handlers of creation and update *)
Module request_facts.

(** The tasks of the response to a creation, from the tasks of the
    request. *)
Lemma created_response_tasks conn id rnd n requests :
  Forall2
    (fun taskReq task =>
       controller.TaskID task <> Nil
       /\ controller.Title task = controller.TaskRequest_Title taskReq
       /\ controller.Description task
          = controller.TaskRequest_Description taskReq
       /\ controller.Status task = "pending"
       /\ controller.Done task = None
       /\ controller.Feedback task = None)
    requests
    (map (fun task =>
            controller.mkTask (domainSchedule.TaskID task)
              (domainSchedule.Title task) (domainSchedule.Description task)
              (domainSchedule.Status task) (domainSchedule.Done task)
              (domainSchedule.Feedback task))
       (map psql.Task_toDomainMapper
          (psql.create_tasks conn id n
             (map psql.Task_fromDomain
                (usecase.prepare_tasks rnd
                   (map (fun taskReq =>
                           domainSchedule.mkTask Nil Nil
                             (controller.TaskRequest_Title taskReq)
                             (controller.TaskRequest_Description taskReq)
                             "pending" None None 0 0)
                      requests)))))).
Proof.
  revert rnd n. induction requests as [| taskReq requests IH]; intros rnd n;
    [constructor |].
  cbn [map usecase.prepare_tasks domainSchedule.TaskID]. cbn [Z.eqb Nil].
  change (0 =? 0) with true. cbv iota.
  cbn [map psql.create_tasks]. constructor; [| apply IH].
  cbn. rewrite create_facts.fill_id_present by apply uuid_New_not_Nil.
  split; [apply uuid_New_not_Nil |]. repeat split.
Qed.

(** A field map with the keys of the handler leaves the other columns
    of a row as they are. *)
Lemma other_columns conn updates row row' :
  psql.update_schedule_row conn updates row = Some row' ->
  (forall k, ~ In k update_request.keys -> updates !! k = None) ->
  psql.ID row' = psql.ID row
  /\ psql.CreatedAt row' = psql.CreatedAt row
  /\ psql.CheckinTime row' = psql.CheckinTime row
  /\ psql.CheckoutTime row' = psql.CheckoutTime row
  /\ psql.CheckinLocationLat row' = psql.CheckinLocationLat row
  /\ psql.CheckinLocationLong row' = psql.CheckinLocationLong row
  /\ psql.CheckoutLocationLat row' = psql.CheckoutLocationLat row
  /\ psql.CheckoutLocationLong row' = psql.CheckoutLocationLong row
  /\ psql.ServiceNote row' = psql.ServiceNote row
  /\ psql.Tasks row' = psql.Tasks row.
Proof.
  unfold psql.update_schedule_row. intros H Hkeys.
  case_bool_decide; [| discriminate H].
  assert (Habsent : forall {A} (conv : Value -> option A) a b old,
             ~ In a update_request.keys -> ~ In b update_request.keys ->
             psql.assign conv a b updates old = Some old).
  { intros A conv a b old Ha Hb. apply psql_facts.assign_absent; auto. }
  rewrite (Habsent _ (psql.to_uuid conn) "id" "ID") in H
    by (cbn; intuition discriminate).
  rewrite (Habsent _ psql.to_time "created_at" "CreatedAt") in H
    by (cbn; intuition discriminate).
  rewrite (Habsent _ psql.to_time_null "checkin_time" "CheckinTime") in H
    by (cbn; intuition discriminate).
  rewrite (Habsent _ psql.to_time_null "checkout_time" "CheckoutTime") in H
    by (cbn; intuition discriminate).
  rewrite (Habsent _ psql.to_float_null "checkin_location_lat"
             "CheckinLocationLat") in H by (cbn; intuition discriminate).
  rewrite (Habsent _ psql.to_float_null "checkin_location_long"
             "CheckinLocationLong") in H by (cbn; intuition discriminate).
  rewrite (Habsent _ psql.to_float_null "checkout_location_lat"
             "CheckoutLocationLat") in H by (cbn; intuition discriminate).
  rewrite (Habsent _ psql.to_float_null "checkout_location_long"
             "CheckoutLocationLong") in H by (cbn; intuition discriminate).
  rewrite (Habsent _ psql.to_string_null "service_note" "ServiceNote") in H
    by (cbn; intuition discriminate).
  cbn [mbind option_bind] in H.
  repeat psql_facts.bind_step H. injection H as <-. cbn. repeat split.
Qed.

Lemma collected_keys request k :
  ~ In k update_request.keys -> controller.collect_updates request !! k = None.
Proof.
  intros Hk. apply slot_facts.collect_updates_no_slot;
    intros ->; apply Hk; cbn; auto.
Qed.

(** A field map with the keys of the handler does not name the id. *)
Lemma handler_keys_keep_id updates :
  (forall k, ~ In k update_request.keys -> updates !! k = None) ->
  field_map.keeps_id updates.
Proof.
  intros Hkeys. split; apply Hkeys; cbn; intuition discriminate.
Qed.

(** What the end of the update handler leaves of the store. *)
Lemma send_updates_frame conn scheduleID updates db :
  (forall k, ~ In k update_request.keys -> updates !! k = None) ->
  let db' :=
    fst (controller.send_updates (psql.NewScheduleRepository conn)
           (psql.NewUserRepository conn) scheduleID updates db) in
  psql.tasks db' = psql.tasks db
  /\ psql.users db' = psql.users db
  /\ Forall2
       (fun row row' =>
          row' = row
          \/ (psql.ID row = scheduleID
              /\ psql.update_schedule_row conn updates row = Some row'))
       (psql.schedules db) (psql.schedules db').
Proof.
  intros Hkeys. cbv zeta. unfold controller.send_updates.
  assert (Hsame :
    psql.tasks db = psql.tasks db /\ psql.users db = psql.users db
    /\ Forall2
         (fun row row' =>
            row' = row
            \/ (psql.ID row = scheduleID
                /\ psql.update_schedule_row conn updates row = Some row'))
         (psql.schedules db) (psql.schedules db)).
  { split; [reflexivity |]. split; [reflexivity |].
    apply write_facts.Forall2_same. auto. }
  destruct (size updates =? 0)%nat; [exact Hsame |].
  destruct (usecase_facts.UpdateSchedule_cases
              (psql.NewScheduleRepository conn) (psql.NewUserRepository conn)
              scheduleID updates db) as [[e He] | (s & _ & _ & Hrun)].
  { rewrite He. exact Hsame. }
  rewrite Hrun.
  cbn [domainSchedule.UpdateSchedule psql.NewScheduleRepository].
  destruct (psql.UpdateSchedule conn scheduleID updates db) as [db1 r] eqn:Hu.
  pose proof (write_facts.UpdateSchedule_pointwise _ _ _ _ _ _
                (handler_keys_keep_id _ Hkeys) Hu) as Hp.
  destruct r; exact Hp.
Qed.

(** The update handler, outcome by outcome. *)
Lemma UpdateSchedule_handler_frame conn id bound db db' w :
  di.UpdateScheduleHandler conn id bound db = (db', w) ->
  psql.tasks db' = psql.tasks db
  /\ psql.users db' = psql.users db
  /\ Forall2
       (fun row row' =>
          psql.ID row' = psql.ID row
          /\ psql.CreatedAt row' = psql.CreatedAt row
          /\ psql.CheckinTime row' = psql.CheckinTime row
          /\ psql.CheckoutTime row' = psql.CheckoutTime row
          /\ psql.CheckinLocationLat row' = psql.CheckinLocationLat row
          /\ psql.CheckinLocationLong row' = psql.CheckinLocationLong row
          /\ psql.CheckoutLocationLat row' = psql.CheckoutLocationLat row
          /\ psql.CheckoutLocationLong row' = psql.CheckoutLocationLong row
          /\ psql.ServiceNote row' = psql.ServiceNote row
          /\ (id <> Some (psql.ID row) -> row' = row))
       (psql.schedules db) (psql.schedules db')
  /\ (bound = inr (controller.mkUpdateScheduleRequest Nil Nil "" None "") ->
      db' = db
      /\ exists e,
           w = controller.CtxError e
           /\ (forall i s,
                  id = Some i ->
                  psql.GetScheduleByID conn i db = Ok s ->
                  e = AppError "No valid fields to update" ValidationError)).
Proof.
  unfold di.UpdateScheduleHandler, controller.UpdateSchedule.
  assert (Hsame :
    forall i : option UUID,
      psql.tasks db = psql.tasks db
      /\ psql.users db = psql.users db
      /\ Forall2
           (fun row row' =>
              psql.ID row' = psql.ID row
              /\ psql.CreatedAt row' = psql.CreatedAt row
              /\ psql.CheckinTime row' = psql.CheckinTime row
              /\ psql.CheckoutTime row' = psql.CheckoutTime row
              /\ psql.CheckinLocationLat row' = psql.CheckinLocationLat row
              /\ psql.CheckinLocationLong row' = psql.CheckinLocationLong row
              /\ psql.CheckoutLocationLat row' = psql.CheckoutLocationLat row
              /\ psql.CheckoutLocationLong row' = psql.CheckoutLocationLong row
              /\ psql.ServiceNote row' = psql.ServiceNote row
              /\ (i <> Some (psql.ID row) -> row' = row))
           (psql.schedules db) (psql.schedules db)).
  { intros i. split; [reflexivity |]. split; [reflexivity |].
    apply write_facts.Forall2_same. intros row. repeat split. }
  assert (Hsent :
    forall scheduleID updates,
      (forall k, ~ In k update_request.keys -> updates !! k = None) ->
      controller.send_updates (psql.NewScheduleRepository conn)
        (psql.NewUserRepository conn) scheduleID updates db = (db', w) ->
      psql.tasks db' = psql.tasks db
      /\ psql.users db' = psql.users db
      /\ Forall2
           (fun row row' =>
              psql.ID row' = psql.ID row
              /\ psql.CreatedAt row' = psql.CreatedAt row
              /\ psql.CheckinTime row' = psql.CheckinTime row
              /\ psql.CheckoutTime row' = psql.CheckoutTime row
              /\ psql.CheckinLocationLat row' = psql.CheckinLocationLat row
              /\ psql.CheckinLocationLong row' = psql.CheckinLocationLong row
              /\ psql.CheckoutLocationLat row' = psql.CheckoutLocationLat row
              /\ psql.CheckoutLocationLong row' = psql.CheckoutLocationLong row
              /\ psql.ServiceNote row' = psql.ServiceNote row
              /\ (Some scheduleID <> Some (psql.ID row) -> row' = row))
           (psql.schedules db) (psql.schedules db')).
  { intros scheduleID updates Hkeys Hrun.
    pose proof (send_updates_frame conn scheduleID updates db Hkeys) as Hf.
    cbv zeta in Hf. rewrite Hrun in Hf. cbn [fst] in Hf.
    destruct Hf as (Ht & Hu & Hrows).
    split; [exact Ht |]. split; [exact Hu |].
    eapply Forall2_impl; [exact Hrows |].
    intros row row' [-> | [Hid Hup]]; [repeat split |].
    destruct (other_columns _ _ _ _ Hup Hkeys)
      as (H1 & H2 & H3 & H4 & H5 & H6 & H7 & H8 & H9 & _).
    repeat (split; [assumption |]). intros Hne. congruence. }
  destruct id as [scheduleID |].
  2:{ intros [= <- <-]. destruct (Hsame None) as (H1 & H2 & H3).
      repeat (split; [assumption |]). intros _. split; [reflexivity |].
      eexists. split; [reflexivity |]. intros i s [=]. }
  unfold usecase.GetScheduleWithClientInfo at 1.
  cbn [domainSchedule.GetScheduleByID psql.NewScheduleRepository].
  destruct (psql.GetScheduleByID conn scheduleID db) as [found | e] eqn:Hget.
  2:{ intros [= <- <-]. destruct (Hsame (Some scheduleID)) as (H1 & H2 & H3).
      repeat (split; [assumption |]). intros _. split; [reflexivity |].
      eexists. split; [reflexivity |]. intros i s [= <-] Hs. congruence. }
  assert (Hread :
    match domainUser.GetByID (psql.NewUserRepository conn)
            (domainSchedule.ClientUserID found) db with
    | Ok client => Ok (found, Some client)
    | Err _ => Ok (found, None)
    end = Ok (found,
              match psql.GetByID conn (domainSchedule.ClientUserID found) db with
              | Ok client => Some client
              | Err _ => None
              end)).
  { cbn. destruct (psql.GetByID conn _ db); reflexivity. }
  rewrite Hread. clear Hread.
  destruct bound as [err | request].
  { intros [= <- <-]. destruct (Hsame (Some scheduleID)) as (H1 & H2 & H3).
    repeat (split; [assumption |]). intros [=]. }
  destruct (controller.Update_ScheduledSlot request) as [s0 |] eqn:Hslot.
  - assert (Hno : inr request
                  <> inr (A:=string)
                       (controller.mkUpdateScheduleRequest Nil Nil "" None "")).
    { intros [= ->]. discriminate Hslot. }
    destruct (IsZero _ || IsZero _).
    { intros [= <- <-]. destruct (Hsame (Some scheduleID)) as (H1 & H2 & H3).
      repeat (split; [assumption |]). intros H. contradiction. }
    destruct (After _ _).
    { intros [= <- <-]. destruct (Hsame (Some scheduleID)) as (H1 & H2 & H3).
      repeat (split; [assumption |]). intros H. contradiction. }
    intros Hrun.
    assert (Hkeys : forall k, ~ In k update_request.keys ->
                              (<["scheduled_slot_to" := VTime (controller.To s0)]>
                                 (<["scheduled_slot_from" :=
                                      VTime (controller.From s0)]>
                                    (controller.collect_updates request)))
                              !! k = None).
    { intros k Hk. rewrite !lookup_insert_ne
        by (intros <-; apply Hk; cbn; auto 10).
      apply collected_keys. exact Hk. }
    destruct (Hsent scheduleID _ Hkeys Hrun) as (H1 & H2 & H3).
    repeat (split; [assumption |]). intros H. contradiction.
  - intros Hrun.
    destruct (Hsent scheduleID _ (collected_keys request) Hrun)
      as (H1 & H2 & H3).
    repeat (split; [assumption |]). intros [= ->].
    unfold controller.send_updates in Hrun. cbn in Hrun.
    injection Hrun as <- <-. split; [reflexivity |].
    eexists. split; [reflexivity |]. intros i s _ _. reflexivity.
Qed.

End request_facts.

(** X18. The handler [CreateSchedule] over the gorm repositories. It
    answers 200 only when the body was bound with a ClientUserID that is
    not [uuid.Nil], a slot whose bounds are not the zero time and are in
    order, and at least one task, and when the store has the client and
    the assigned user. The body then is the created schedule: a new ID
    that is not [uuid.Nil], the users, service name and slot of the
    request, visitStatus "upcoming", no ClientInfo, no check-in or
    check-out, and for each task of the request, in order, a task with a
    new ID, its title and description, status "pending" and neither done
    nor feedback; the store holds one more schedule, with that ID. When
    the handler ends in an error, nothing has been written. *)
Theorem CreateSchedule_handler_answers_with_the_created_schedule
    (conn : psql.Conn) (rnd : Rand)
    (bound : string + controller.CreateScheduleRequest) (db : psql.Tables) :
  let out := di.CreateScheduleHandler conn rnd bound db in
  match snd out with
  | controller.JSON status body =>
      status = 200
      /\ exists request row,
           bound = inr request
           /\ controller.Create_ClientUserID request <> Nil
           /\ controller.From (controller.Create_ScheduledSlot request) <> 0
           /\ controller.To (controller.Create_ScheduledSlot request) <> 0
           /\ controller.From (controller.Create_ScheduledSlot request)
              <= controller.To (controller.Create_ScheduledSlot request)
           /\ controller.Create_Tasks request <> []
           /\ is_ok (psql.GetByID conn (controller.Create_ClientUserID request)
                       db) = true
           /\ is_ok (psql.GetByID conn
                       (controller.Create_AssignedUserID request) db) = true
           /\ controller.ID body <> Nil
           /\ controller.ClientUserID body
              = controller.Create_ClientUserID request
           /\ controller.AssignedUserID body
              = controller.Create_AssignedUserID request
           /\ controller.ServiceName body = controller.Create_ServiceName request
           /\ controller.ScheduledSlot_ body
              = controller.Create_ScheduledSlot request
           /\ controller.VisitStatus body = "upcoming"
           /\ controller.ClientInfo_ body = None
           /\ controller.CheckinTime body = None
           /\ controller.CheckoutTime body = None
           /\ Forall2
                (fun taskReq task =>
                   controller.TaskID task <> Nil
                   /\ controller.Title task
                      = controller.TaskRequest_Title taskReq
                   /\ controller.Description task
                      = controller.TaskRequest_Description taskReq
                   /\ controller.Status task = "pending"
                   /\ controller.Done task = None
                   /\ controller.Feedback task = None)
                (controller.Create_Tasks request) (controller.Tasks body)
           /\ psql.schedules (fst out) = (psql.schedules db ++ [row])%list
           /\ psql.ID row = controller.ID body
  | controller.CtxError e => fst out = db
  end.
Proof.
  cbv zeta. unfold di.CreateScheduleHandler, controller.CreateSchedule.
  destruct bound as [err | request]; [reflexivity |].
  destruct (Z.eqb_spec (controller.Create_ClientUserID request) Nil)
    as [Hc | Hc]; [reflexivity |].
  unfold IsZero.
  destruct (Z.eqb_spec (controller.From (controller.Create_ScheduledSlot request))
              0) as [Hf | Hf]; [reflexivity |].
  destruct (Z.eqb_spec (controller.To (controller.Create_ScheduledSlot request))
              0) as [Ht | Ht]; [reflexivity |].
  cbn [orb].
  destruct (After _ _) eqn:Hafter; [reflexivity |].
  unfold After in Hafter. apply Z.ltb_ge in Hafter.
  destruct (controller.Create_Tasks request) as [| t0 ts] eqn:Htasks;
    [reflexivity |].
  cbn [length Nat.eqb].
  unfold usecase.CreateSchedule.
  change (domainUser.GetByID (psql.NewUserRepository conn) ?k db)
    with (psql.GetByID conn k db).
  cbn [domainSchedule.ClientUserID domainSchedule.AssignedUserID
         controller.new_schedule].
  destruct (psql.GetByID conn (controller.Create_ClientUserID request) db)
    as [client | e] eqn:Hclient; [| reflexivity].
  destruct (psql.GetByID conn (controller.Create_AssignedUserID request) db)
    as [assignee | e] eqn:Hassignee; [| reflexivity].
  cbn [domainSchedule.Create psql.NewScheduleRepository].
  destruct (psql.Create conn _ db) as [db' [created | e]] eqn:Hcreate;
    cbn [fst snd].
  2:{ eapply create_facts.Create_Err. exact Hcreate. }
  apply write_facts.Create_Ok_exact in Hcreate. cbv zeta in Hcreate.
  destruct Hcreate as (_ & _ & -> & ->).
  split; [reflexivity |].
  eexists request, _.
  split; [reflexivity |]. split; [exact Hc |]. split; [exact Hf |].
  split; [exact Ht |]. split; [exact Hafter |].
  split; [rewrite Htasks; discriminate |].
  split; [rewrite Hclient; reflexivity |].
  split; [rewrite Hassignee; reflexivity |].
  split; [apply round_trip_facts.fill_id_not_Nil |].
  split; [reflexivity |]. split; [reflexivity |]. split; [reflexivity |].
  split; [cbn; destruct (controller.Create_ScheduledSlot request); reflexivity |].
  split; [reflexivity |]. split; [reflexivity |]. split; [reflexivity |].
  split; [reflexivity |].
  split; [apply request_facts.created_response_tasks |].
  split; reflexivity.
Qed.

(** X19. The handler [UpdateSchedule] over the gorm repositories changes
    what a request can name and nothing else. Whatever the request and
    whatever comes of it, the tasks and the users are as they were, no
    schedule is added or removed, a schedule with another id than that of
    the path is as it was, and the schedule of the path keeps its ID, its
    creation time, its check-in and check-out times and locations, and its
    service note. A request that names no field (no user, no service name,
    no status, no slot) writes nothing and ends in an error, which for a
    schedule that can be read is the ValidationError "No valid fields to
    update". *)
Theorem UpdateSchedule_handler_changes_what_was_asked
    (conn : psql.Conn) (id : option UUID)
    (bound : string + controller.UpdateScheduleRequest) (db : psql.Tables) :
  let out := di.UpdateScheduleHandler conn id bound db in
  psql.tasks (fst out) = psql.tasks db
  /\ psql.users (fst out) = psql.users db
  /\ Forall2
       (fun row row' =>
          psql.ID row' = psql.ID row
          /\ psql.CreatedAt row' = psql.CreatedAt row
          /\ psql.CheckinTime row' = psql.CheckinTime row
          /\ psql.CheckoutTime row' = psql.CheckoutTime row
          /\ psql.CheckinLocationLat row' = psql.CheckinLocationLat row
          /\ psql.CheckinLocationLong row' = psql.CheckinLocationLong row
          /\ psql.CheckoutLocationLat row' = psql.CheckoutLocationLat row
          /\ psql.CheckoutLocationLong row' = psql.CheckoutLocationLong row
          /\ psql.ServiceNote row' = psql.ServiceNote row
          /\ (id <> Some (psql.ID row) -> row' = row))
       (psql.schedules db) (psql.schedules (fst out))
  /\ (bound = inr (controller.mkUpdateScheduleRequest Nil Nil "" None "") ->
      fst out = db
      /\ exists e,
           snd out = controller.CtxError e
           /\ (forall i s,
                  id = Some i ->
                  psql.GetScheduleByID conn i db = Ok s ->
                  e = AppError "No valid fields to update" ValidationError)).
Proof.
  cbv zeta.
  destruct (di.UpdateScheduleHandler conn id bound db) as [db' w] eqn:Hrun.
  cbn [fst snd]. eapply request_facts.UpdateSchedule_handler_frame. exact Hrun.
Qed.

(** Schedule 10 of the sample and a request that names nothing. *)
Lemma UpdateSchedule_handler_changes_what_was_asked_witness :
  fst (di.UpdateScheduleHandler sample.conn (Some 10)
         (inr (controller.mkUpdateScheduleRequest Nil Nil "" None ""))
         sample.db) = sample.db
  /\ exists e,
       snd (di.UpdateScheduleHandler sample.conn (Some 10)
              (inr (controller.mkUpdateScheduleRequest Nil Nil "" None ""))
              sample.db) = controller.CtxError e
       /\ (forall i s,
              Some 10 = Some i ->
              psql.GetScheduleByID sample.conn i sample.db = Ok s ->
              e = AppError "No valid fields to update" ValidationError).
Proof.
  apply (UpdateSchedule_handler_changes_what_was_asked sample.conn (Some 10)
           (inr (controller.mkUpdateScheduleRequest Nil Nil "" None ""))
           sample.db).
  reflexivity.
Defined.

(** ** A visit is started once and ended once *)
Module once_facts.

(** Reading a schedule whose row is known. *)
Lemma read_row conn id db row :
  psql.Fails conn (psql.SelectSchedule id) = None ->
  List.find (fun row => psql.ID row =? id) (psql.schedules db) = Some row ->
  psql.GetScheduleByID conn id db = Ok (psql.toDomainMapper (psql.preload db row)).
Proof.
  intros Hf Hrow. unfold psql.GetScheduleByID, psql.First_schedule.
  rewrite Hf, Hrow. reflexivity.
Qed.

End once_facts.

(** X20. A visit is started once and ended once. After a successful
    [StartSchedule], a second [StartSchedule] of the same schedule is
    turned down with the ValidationError "schedule is not in 'upcoming'
    status"; after a successful [EndSchedule], a second [EndSchedule] is
    turned down with "schedule is not in 'in_progress' status" and a
    [StartSchedule] with "schedule is not in 'upcoming' status". Each time
    the store is left as it was. (The second call may come with any
    timestamp, location and tasks; its driver does not fail the read of
    the schedule.) *)
Theorem a_visit_is_started_once_and_ended_once
    (conn conn2 : psql.Conn) (id : UUID) (ts ts2 : Time)
    (loc loc2 : domainSchedule.Location)
    (tasks tasks2 : list domainSchedule.Task)
    (db db' : psql.Tables) (s : domainSchedule.Schedule) :
  psql.Fails conn2 (psql.SelectSchedule id) = None ->
  (di.StartSchedule conn id ts loc db = (db', Ok s) ->
   di.StartSchedule conn2 id ts2 loc2 db'
   = (db', Err (AppError "schedule is not in 'upcoming' status"
                  ValidationError)))
  /\ (di.EndSchedule conn id ts loc tasks db = (db', Ok s) ->
      di.EndSchedule conn2 id ts2 loc2 tasks2 db'
      = (db', Err (AppError "schedule is not in 'in_progress' status"
                     ValidationError))
      /\ di.StartSchedule conn2 id ts2 loc2 db'
         = (db', Err (AppError "schedule is not in 'upcoming' status"
                        ValidationError))).
Proof.
  intros Hf. split.
  - intros H.
    apply visit_facts.StartSchedule_Ok in H
      as (_ & _ & _ & row & Hrow & _ & Hv & _).
    eapply usecase_facts.StartSchedule_wrong_status.
    + cbn [domainSchedule.GetScheduleByID psql.NewScheduleRepository].
      apply once_facts.read_row; eassumption.
    + cbn. rewrite Hv. discriminate.
  - intros H.
    apply visit_facts.EndSchedule_Ok in H
      as (_ & _ & row & row' & _ & Hup & Hrow & _).
    apply end_facts.end_updates_row in Hup as (Hv & _).
    split.
    + eapply usecase_facts.EndSchedule_wrong_status.
      * cbn [domainSchedule.GetScheduleByID psql.NewScheduleRepository].
        apply once_facts.read_row; eassumption.
      * cbn. rewrite Hv. discriminate.
    + eapply usecase_facts.StartSchedule_wrong_status.
      * cbn [domainSchedule.GetScheduleByID psql.NewScheduleRepository].
        apply once_facts.read_row; eassumption.
      * cbn. rewrite Hv. discriminate.
Qed.

(** Schedule 10 of the sample, started at 1500 and started again at 1600. *)
Lemma a_visit_is_started_once_and_ended_once_witness :
  di.StartSchedule sample.conn 10 1600 sample.here
    (fst (di.StartSchedule sample.conn 10 1500 sample.here sample.db))
  = (fst (di.StartSchedule sample.conn 10 1500 sample.here sample.db),
     Err (AppError "schedule is not in 'upcoming' status" ValidationError)).
Proof.
  refine (proj1 (a_visit_is_started_once_and_ended_once sample.conn sample.conn
                   10 1500 1600 sample.here sample.here [] [] sample.db _ _
                   eq_refl) _).
  vm_compute. reflexivity.
Defined.

(** X21. A task update shows when the schedule of the task is read: after
    a successful [UpdateTaskStatus], [GetScheduleByID] with the schedule
    id of the returned task, when it finds the schedule, returns it with
    that task among its tasks, with the status, done and feedback of the
    call. *)
Theorem an_updated_task_shows_in_its_schedule
    (conn conn2 : psql.Conn) (taskID : UUID) (status : string) (done : bool)
    (feedback : string) (db db' : psql.Tables) (t : domainSchedule.Task)
    (s : domainSchedule.Schedule) :
  di.UpdateTaskStatus conn taskID status done feedback db = (db', Ok t) ->
  psql.GetScheduleByID conn2 (domainSchedule.ScheduleID t) db' = Ok s ->
  In t (domainSchedule.Tasks s)
  /\ domainSchedule.TaskID t = taskID
  /\ domainSchedule.Status t = status
  /\ domainSchedule.Done t = Some done
  /\ domainSchedule.Feedback t = Some feedback.
Proof.
  intros Hrun Hs.
  pose proof (handler_facts.UpdateTaskStatus_outcome conn taskID status done
                feedback db) as Hout.
  cbv zeta in Hout. rewrite Hrun in Hout. cbn [fst snd] in Hout.
  destruct Hout as (row & Hfind & Hrow & ->).
  apply find_some in Hfind as [Hin _].
  apply psql_facts.GetScheduleByID_Ok in Hs as (srow & _ & Hsid & ->).
  split.
  - cbn [psql.toDomainMapper domainSchedule.Tasks psql.preload psql.set_Tasks
           psql.Tasks].
    apply in_map. apply filter_In. split; [exact Hin |].
    apply Z.eqb_eq. cbn in Hsid. congruence.
  - rewrite Hrow. cbn. repeat split.
Qed.

(** Task 20 of the sample belongs to schedule 11. *)
Lemma an_updated_task_shows_in_its_schedule_witness :
  exists t s,
    di.UpdateTaskStatus sample.conn 20 "done" true "" sample.db
    = (fst (di.UpdateTaskStatus sample.conn 20 "done" true "" sample.db), Ok t)
    /\ In t (domainSchedule.Tasks s)
    /\ domainSchedule.TaskID t = 20
    /\ domainSchedule.Status t = "done"
    /\ domainSchedule.Done t = Some true
    /\ domainSchedule.Feedback t = Some "".
Proof.
  eexists. eexists.
  assert (H : di.UpdateTaskStatus sample.conn 20 "done" true "" sample.db
              = (fst (di.UpdateTaskStatus sample.conn 20 "done" true ""
                        sample.db), Ok _)) by (vm_compute; reflexivity).
  split; [exact H |].
  apply (an_updated_task_shows_in_its_schedule sample.conn sample.conn 20
           "done" true "" sample.db _ _ _ H).
  vm_compute. reflexivity.
Defined.
